(** * LLMtest: request/response engine and metrics, embedded in Rocq

    A shallow embedding of [src/metrics.py], [src/client.py] and the
    functions of [src/main.py] that compute (configuration, prompt files,
    single tests and batches; the rendering of tables is left out).

    Conventions of the embedding.
    - Python values that come from decoded JSON are values of [pyval]; the
      operations the sources apply to them ([.get], truthiness, [==],
      indexing, iteration, [+], [str.join]) raise the exception Python raises
      when the operand has the wrong shape.
    - Python floats (clock readings, latencies, throughput) are exact
      rationals [Q]; [round(x, 2)] is rounding to the nearest hundredth, ties
      to even.
    - Code that can raise lives in the monad [M]: a computation takes the
      world (clock position, tokenizer call log) and gives back a result or
      a raised exception together with the new world.
    - The HTTP transport, the JSON decoder, the tokenizer library and the
      monotonic clock are collaborators outside the repository; they are the
      fields of [Env]. *)

From Stdlib Require Import ZArith QArith Qround Qabs List String Ascii Bool Lia Lqa.
From Stdlib Require Import Permutation.
Import ListNotations.
Open Scope string_scope.
Open Scope Z_scope.
Set Warnings "-register-all".

(** ** Python values and exceptions *)

Inductive pyval : Type :=
| PNone
| PBool (b : bool)
| PInt (n : Z)
| PFloat (x : Q)
| PStr (s : string)
| PList (items : list pyval)
| PDict (entries : list (string * pyval)).

Inductive exn : Type :=
| TimeoutException
| ConnectError (msg : string)
| JSONDecodeError (msg : string)
| KeyError (msg : string)
| TypeError (msg : string)
| AttributeError (msg : string)
| ZeroDivisionError
| OtherException (msg : string).

Inductive Res (A : Type) : Type :=
| Ret (a : A)
| Raise (e : exn).
Arguments Ret {A} a.
Arguments Raise {A} e.

Definition res_bind {A B} (r : Res A) (k : A -> Res B) : Res B :=
  match r with
  | Ret a => k a
  | Raise e => Raise e
  end.

(** [try: body except <classes selected by handles> as e: handler e] *)
Definition res_try {A} (body : Res A) (handles : exn -> bool) (handler : exn -> Res A)
  : Res A :=
  match body with
  | Ret a => Ret a
  | Raise e => if handles e then handler e else Raise e
  end.

Fixpoint res_mapM {A B} (f : A -> Res B) (l : list A) : Res (list B) :=
  match l with
  | [] => Ret []
  | a :: l' => res_bind (f a) (fun b => res_bind (res_mapM f l') (fun bs => Ret (b :: bs)))
  end.

Definition is_JSONDecodeError (e : exn) : bool :=
  match e with JSONDecodeError _ => true | _ => false end.

Definition is_KeyError (e : exn) : bool :=
  match e with KeyError _ => true | _ => false end.

(** [bool(v)] *)
Definition truthy (v : pyval) : bool :=
  match v with
  | PNone => false
  | PBool b => b
  | PInt n => negb (n =? 0)
  | PFloat x => negb (Qeq_bool x 0)
  | PStr s => negb (s =? "")%string
  | PList items => match items with [] => false | _ => true end
  | PDict entries => match entries with [] => false | _ => true end
  end.

Fixpoint dict_lookup (k : string) (d : list (string * pyval)) : option pyval :=
  match d with
  | [] => None
  | (k', v) :: d' => if (k =? k')%string then Some v else dict_lookup k d'
  end.

(** [o.get(k, default)]; only a dict has the method. *)
Definition py_get (o : pyval) (k : string) (default : pyval) : Res pyval :=
  match o with
  | PDict d => Ret (match dict_lookup k d with Some v => v | None => default end)
  | _ => Raise (AttributeError "get")
  end.

(** [v == s] for a string literal [s] *)
Definition py_eq_str (v : pyval) (s : string) : bool :=
  match v with PStr t => (t =? s)%string | _ => false end.

(** [v == 0]: true of the int, float and bool zero *)
Definition py_eq_zero (v : pyval) : bool :=
  match v with
  | PInt n => n =? 0
  | PFloat x => Qeq_bool x 0
  | PBool b => negb b
  | _ => false
  end.

Definition Z_of_bool (b : bool) : Z := if b then 1 else 0.

(** [a + n] for an int [n] (the only addition of the sources has an int
    tokenizer count on its right). *)
Definition py_add_int (a : pyval) (n : Z) : Res pyval :=
  match a with
  | PInt p => Ret (PInt (p + n))
  | PBool b => Ret (PInt (Z_of_bool b + n))
  | PFloat x => Ret (PFloat (x + inject_Z n))
  | _ => Raise (TypeError "unsupported operand type(s) for +")
  end.

Fixpoint chars_of (s : string) : list pyval :=
  match s with
  | EmptyString => []
  | String a s' => PStr (String a EmptyString) :: chars_of s'
  end.

(** [v[0]] for a value [v] already known to be truthy at the call sites *)
Definition py_index0 (v : pyval) : Res pyval :=
  match v with
  | PList (x :: _) => Ret x
  | PList [] => Raise (OtherException "IndexError")
  | PStr (String a _) => Ret (PStr (String a EmptyString))
  | PStr EmptyString => Raise (OtherException "IndexError")
  | PDict _ => Raise (KeyError "0")
  | _ => Raise (TypeError "object is not subscriptable")
  end.

(** the items a [for] loop over [v] visits *)
Definition py_iter (v : pyval) : Res (list pyval) :=
  match v with
  | PList items => Ret items
  | PStr s => Ret (chars_of s)
  | PDict entries => Ret (map (fun kv => PStr (fst kv)) entries)
  | _ => Raise (TypeError "object is not iterable")
  end.

(** [len(v)] *)
Definition py_len (v : pyval) : Res Z :=
  match v with
  | PStr s => Ret (Z.of_nat (String.length s))
  | PList items => Ret (Z.of_nat (List.length items))
  | PDict entries => Ret (Z.of_nat (List.length entries))
  | _ => Raise (TypeError "object has no len()")
  end.

(** ["".join(parts)] *)
Fixpoint py_join (parts : list pyval) : Res string :=
  match parts with
  | [] => Ret ""%string
  | PStr s :: rest => res_bind (py_join rest) (fun t => Ret (s ++ t)%string)
  | _ :: _ => Raise (TypeError "sequence item: expected str instance")
  end.

(** ** The world and the monad of effectful code *)

Record World : Type := mkWorld {
  ticks : nat;                              (* clock readings taken so far *)
  tokenizer_calls : list (pyval * string)   (* calls of count_tokens_tiktoken, oldest first *)
}.

Definition M (A : Type) : Type := World -> Res A * World.

Definition ret {A} (a : A) : M A := fun w => (Ret a, w).
Definition raise {A} (e : exn) : M A := fun w => (Raise e, w).
Definition bind {A B} (m : M A) (k : A -> M B) : M B :=
  fun w => match m w with
           | (Ret a, w') => k a w'
           | (Raise e, w') => (Raise e, w')
           end.
Definition lift {A} (r : Res A) : M A := fun w => (r, w).

(** the same [try] statement around effectful code *)
Definition try_except {A} (body : M A) (handles : exn -> bool) (handler : exn -> M A) : M A :=
  fun w => match body w with
           | (Ret a, w') => (Ret a, w')
           | (Raise e, w') => if handles e then handler e w' else (Raise e, w')
           end.

Declare Scope monad_scope.
Delimit Scope monad_scope with monad.
Notation "x <- m ;; k" := (bind m (fun x => k))
  (at level 100, m at next level, right associativity) : monad_scope.
Notation "m ;;; k" := (bind m (fun _ => k))
  (at level 100, right associativity) : monad_scope.
Notation "m >>= k" := (bind m k) (at level 50, left associativity) : monad_scope.
Open Scope monad_scope.

(** ** Collaborators outside the repository *)

(** What [httpx.Client.post] did: raised, or returned a response. *)
Inductive post_outcome : Type :=
| PostRaises (e : exn)
| PostResponse (status_code : Z) (body : string).

(** What [httpx.Client.stream] did: raised before a response was there, or
    gave a response whose [iter_lines()] yields [lines] and then either ends
    or raises [broken]. *)
Inductive stream_outcome : Type :=
| StreamRaises (e : exn)
| StreamResponse (status_code : Z) (lines : list string) (broken : option exn).

Record Env : Type := mkEnv {
  (* time.perf_counter(): the n-th reading taken during the run *)
  clock : nat -> Q;
  (* json.loads / Response.json() *)
  json_loads : string -> Res pyval;
  (* httpx: url, headers, json body *)
  http_post : string -> list (string * string) -> pyval -> post_outcome;
  http_stream : string -> list (string * string) -> pyval -> stream_outcome;
  (* tiktoken *)
  encoding : Type;
  encoding_for_model : string -> Res encoding;
  get_encoding : string -> Res encoding;
  encode : encoding -> string -> Res (list Z)
}.

Definition perf_counter (E : Env) : M Q :=
  fun w => (Ret (clock E (ticks w)), mkWorld (S (ticks w)) (tokenizer_calls w)).

(** ** metrics.py *)

Record TimingMetrics : Type := mkTimingMetrics {
  total_latency_ms : Q;
  ttft_ms : option Q
}.

(** The dataclass has one required field and one optional field; its
    generated [__init__] refuses a keyword that is not a field. *)
Definition TimingMetrics_optional_fields : list string := ["ttft_ms"].

Definition unexpected_keyword {V} (fields : list string) (kwargs : list (string * V))
  : option string :=
  find (fun k => negb (existsb (String.eqb k) fields)) (map fst kwargs).

Fixpoint kwarg {V} (k : string) (kwargs : list (string * V)) : option V :=
  match kwargs with
  | [] => None
  | (k', v) :: rest => if (k =? k')%string then Some v else kwarg k rest
  end.

(** [TimingMetrics(total_latency_ms=total, **kwargs)] *)
Definition TimingMetrics_init (total : Q) (kwargs : list (string * option Q))
  : Res TimingMetrics :=
  match unexpected_keyword TimingMetrics_optional_fields kwargs with
  | Some k =>
      Raise (TypeError ("TimingMetrics.__init__() got an unexpected keyword argument '"
                          ++ k ++ "'"))
  | None =>
      Ret (mkTimingMetrics total
             (match kwarg "ttft_ms" kwargs with Some v => v | None => None end))
  end.

Record TokenMetrics : Type := mkTokenMetrics {
  prompt_tokens : pyval;
  completion_tokens : pyval;
  total_tokens : pyval
}.

Inductive error_message_t : Type :=
| ErrAuthentication                 (* 401 *)
| ErrPermission                     (* 403 *)
| ErrRateLimit                      (* 429 *)
| ErrServer (status_code : Z)       (* >= 500, message carries the status *)
| ErrHTTP (status_code : Z)         (* other non-200, message carries the status *)
| ErrJSON (e : exn)                 (* body is not JSON *)
| ErrTimeout (timeout : Q)          (* message carries self.timeout *)
| ErrConnect (e : exn)              (* connection failed *)
| ErrUnknown (e : exn).             (* any other exception *)

Record TestResult : Type := mkTestResult {
  prompt : string;
  status : string;
  error_message : option error_message_t;
  response_content : option pyval;
  timing : option TimingMetrics;
  tokens : option TokenMetrics;
  tps : option Q
}.

Record AggregatedStats : Type := mkAggregatedStats {
  count : Z;
  avg : Q;
  std : Q;
  min_val : Q;
  max_val : Q
}.

Record BatchSummary : Type := mkBatchSummary {
  total_requests : Z;
  successful : Z;
  failed : Z;
  latency_stats : option AggregatedStats;
  ttft_stats : option AggregatedStats;
  output_tokens_stats : option AggregatedStats;
  tps_stats : option AggregatedStats
}.

Definition log_tokenizer_call (text : pyval) (model : string) : M unit :=
  fun w => (Ret tt, mkWorld (ticks w) (tokenizer_calls w ++ [(text, model)])).

(** [encoding.encode(text)]: the library takes a str only. *)
Definition encode_text (E : Env) (enc : encoding E) (text : pyval) : Res (list Z) :=
  match text with
  | PStr s => encode E enc s
  | _ => Raise (TypeError "expected string")
  end.

(** The body of [count_tokens_tiktoken]: the encoding registered for the
    model, [cl100k_base] when the model is unknown ([KeyError]), and
    [len(text) // 3] when anything raises. *)
Definition token_count (E : Env) (text : pyval) (model : string) : Res Z :=
  res_try
    (res_bind
       (res_try (encoding_for_model E model) is_KeyError
          (fun _ => get_encoding E "cl100k_base"))
       (fun enc =>
          res_bind (encode_text E enc text) (fun toks =>
          Ret (Z.of_nat (List.length toks)))))
    (fun _ => true)
    (fun _ => res_bind (py_len text) (fun n => Ret (n / 3))).

(** [count_tokens_tiktoken(text, model)]; every call is recorded in the
    world. *)
Definition count_tokens_tiktoken (E : Env) (text : pyval) (model : string) : M Z :=
  log_tokenizer_call text model ;;;
  lift (token_count E text model).

(** A Python number as a rational; anything else is a [TypeError] where a
    number is needed. *)
Definition py_number (v : pyval) : Res Q :=
  match v with
  | PInt n => Ret (inject_Z n)
  | PFloat x => Ret x
  | PBool b => Ret (inject_Z (Z_of_bool b))
  | _ => Raise (TypeError "unsupported operand type")
  end.

(** [a / d] for a float [d] *)
Definition py_truediv (a : pyval) (d : Q) : Res Q :=
  res_bind (py_number a) (fun x =>
    if Qeq_bool d 0 then Raise ZeroDivisionError else Ret (x / d)%Q).

Definition calculate_tps (tokens : pyval) (latency_ms : Q) : Res Q :=
  if Qle_bool latency_ms 0 then Ret 0%Q
  else py_truediv tokens (latency_ms / 1000)%Q.

(** Nearest integer, ties to even. *)
Definition round_half_even (y : Q) : Z :=
  let f := Qfloor y in
  match (y - inject_Z f ?= 1 # 2)%Q with
  | Lt => f
  | Gt => f + 1
  | Eq => if Z.even f then f else f + 1
  end.

(** [round(x, 2)] *)
Definition round2 (x : Q) : Q := Qred (round_half_even (x * 100) # 100).

(** Nearest integer to the square root of [v], ties to even: with
    [n = floor (2 * sqrt v)], the root lies in the lower half of
    [[n/2, n/2 + 1)] when [n] is even and in the upper half when it is odd. *)
Definition round_sqrt_half_even (v : Q) : Z :=
  let n := Z.sqrt (Qfloor (4 * v)) in
  let k := n / 2 in
  if Z.even n then k
  else if Qeq_bool (4 * v) (inject_Z (n * n)) then (if Z.even k then k else k + 1)
  else k + 1.

(** [round(math.sqrt(v), 2)] *)
Definition round2_sqrt (v : Q) : Q := Qred (round_sqrt_half_even (v * 10000) # 100).

Definition Qsum (l : list Q) : Q := fold_right Qplus 0%Q l.

Definition Qlt_bool (x y : Q) : bool := negb (Qle_bool y x).

(** [statistics.mean] (exact rational arithmetic, as the library does it) *)
Definition mean (values : list Q) : Q :=
  (Qsum values / inject_Z (Z.of_nat (List.length values)))%Q.

(** the sample variance, whose square root [statistics.stdev] returns *)
Definition variance (values : list Q) : Q :=
  let m := mean values in
  (Qsum (map (fun x => (x - m) * (x - m)) values)
     / inject_Z (Z.of_nat (List.length values) - 1))%Q.

(** [min(values)] and [max(values)] of a non-empty list: the first smallest
    and the first largest item. *)
Definition py_min (x : Q) (xs : list Q) : Q :=
  fold_left (fun m y => if Qlt_bool y m then y else m) xs x.

Definition py_max (x : Q) (xs : list Q) : Q :=
  fold_left (fun m y => if Qlt_bool m y then y else m) xs x.

(** [aggregate_values], threading the list object it was handed: the second
    component is that object as the call leaves it. Every operation the
    function applies to it ([len], [statistics.mean], [statistics.stdev],
    [min], [max]) only reads. *)
Definition reads {A} (f : list Q -> A) : list Q -> A * list Q :=
  fun values => (f values, values).

Definition aggregate_values_st (values0 : list Q) : AggregatedStats * list Q :=
  match values0 with
  | [] => (mkAggregatedStats 0 0 0 0 0, values0)
  | _ :: _ =>
      let '(count, values1) := reads (fun l => Z.of_nat (List.length l)) values0 in
      let '(avg, values2) := reads mean values1 in
      (* std = stdev(values) if count > 1 else 0.0; round(std, 2) *)
      let '(std2, values3) :=
        if 1 <? count then reads (fun l => round2_sqrt (variance l)) values2
        else (round2 0, values2) in
      let '(min_val, values4) :=
        reads (fun l => match l with [] => 0%Q | x :: xs => py_min x xs end) values3 in
      let '(max_val, values5) :=
        reads (fun l => match l with [] => 0%Q | x :: xs => py_max x xs end) values4 in
      (mkAggregatedStats count (round2 avg) std2 (round2 min_val) (round2 max_val),
       values5)
  end.

Definition aggregate_values (values : list Q) : AggregatedStats :=
  fst (aggregate_values_st values).

Definition is_success (r : TestResult) : bool := (status r =? "success")%string.

Definition latency_samples (rs : list TestResult) : list Q :=
  flat_map (fun r => match timing r with
                     | Some t => [total_latency_ms t]
                     | None => []
                     end) rs.

Definition ttft_samples (rs : list TestResult) : list Q :=
  flat_map (fun r => match timing r with
                     | Some t => match ttft_ms t with Some x => [x] | None => [] end
                     | None => []
                     end) rs.

Definition output_token_samples (rs : list TestResult) : list pyval :=
  flat_map (fun r => match tokens r with
                     | Some t => [completion_tokens t]
                     | None => []
                     end) rs.

Definition tps_samples (rs : list TestResult) : list Q :=
  flat_map (fun r => match tps r with Some x => [x] | None => [] end) rs.

(** [aggregate_values(samples) if samples else None] *)
Definition stats_of (samples : list Q) : option AggregatedStats :=
  match samples with
  | [] => None
  | _ :: _ => Some (aggregate_values samples)
  end.

Definition summarize_results (results : list TestResult) : Res BatchSummary :=
  let successful_results := filter is_success results in
  let latencies := latency_samples successful_results in
  let ttfts := ttft_samples successful_results in
  let output_tokens := output_token_samples successful_results in
  let tps_values := tps_samples successful_results in
  (* the statistics functions take numbers only *)
  res_bind (res_mapM py_number output_tokens) (fun output_numbers =>
    Ret (mkBatchSummary
           (Z.of_nat (List.length results))
           (Z.of_nat (List.length successful_results))
           (Z.of_nat (List.length results) - Z.of_nat (List.length successful_results))
           (stats_of latencies)
           (stats_of ttfts)
           (stats_of output_numbers)
           (stats_of tps_values))).

(** ** Strings, as client.py uses them *)

(** [needle in hay] *)
Fixpoint contains (needle hay : string) : bool :=
  String.prefix needle hay ||
  match hay with
  | EmptyString => false
  | String _ hay' => contains needle hay'
  end.

Fixpoint drop (n : nat) (s : string) : string :=
  match n, s with
  | O, _ => s
  | S n', String _ s' => drop n' s'
  | S _, EmptyString => EmptyString
  end.

Fixpoint rev_string (s : string) : string :=
  match s with
  | EmptyString => EmptyString
  | String a s' => (rev_string s' ++ String a EmptyString)%string
  end.

Fixpoint lstrip_while (p : ascii -> bool) (s : string) : string :=
  match s with
  | EmptyString => EmptyString
  | String a s' => if p a then lstrip_while p s' else s
  end.

Definition rstrip_while (p : ascii -> bool) (s : string) : string :=
  rev_string (lstrip_while p (rev_string s)).

(** the characters [str.isspace] accepts, among the first 256 code points *)
Definition is_space (a : ascii) : bool :=
  let n := nat_of_ascii a in
  ((9 <=? n) && (n <=? 13) || (28 <=? n) && (n <=? 32) || (n =? 133) || (n =? 160))%nat.

Definition strip (s : string) : string := rstrip_while is_space (lstrip_while is_space s).

Definition is_slash (a : ascii) : bool := Ascii.eqb a "/"%char.

(** ** client.py *)

Record LLMResponse : Type := mkLLMResponse {
  success : bool;
  content : option pyval;
  resp_timing : option TimingMetrics;
  resp_tokens : option TokenMetrics;
  resp_error_message : option error_message_t;
  raw_response : option pyval
}.

Definition failure (msg : error_message_t) : LLMResponse :=
  mkLLMResponse false None None None (Some msg) None.

Record LLMClient : Type := mkLLMClient {
  endpoint : string;
  api_key : string;
  model : string;
  timeout : Q;
  reasoning_effort : option string;
  max_tokens : option Z;
  no_cache : bool;
  headers : list (string * string);
  is_responses_api : bool
}.

Definition LLMClient_init (endpoint api_key model : string) (timeout : Q)
  (reasoning_effort : option string) (max_tokens : option Z) (no_cache : bool)
  : LLMClient :=
  mkLLMClient
    (rstrip_while is_slash endpoint) api_key model timeout reasoning_effort max_tokens
    no_cache
    [("Content-Type", "application/json");
     ("Authorization", "Bearer " ++ api_key);
     ("api-key", api_key)]%string
    (contains "/responses" endpoint).

(** [if self.reasoning_effort:] and [if self.max_tokens:] *)
Definition configured_effort (c : LLMClient) : option string :=
  match reasoning_effort c with
  | Some s => if (s =? "")%string then None else Some s
  | None => None
  end.

Definition configured_max_tokens (c : LLMClient) : option Z :=
  match max_tokens c with
  | Some n => if n =? 0 then None else Some n
  | None => None
  end.

Definition _build_request_body (c : LLMClient) (prompt : string) (stream : bool)
  : pyval :=
  if is_responses_api c then
    PDict ([("model", PStr (model c)); ("input", PStr prompt); ("stream", PBool stream)]
           ++ match configured_effort c with
              | Some e => [("reasoning", PDict [("effort", PStr e)])]
              | None => []
              end
           ++ match configured_max_tokens c with
              | Some n => [("max_output_tokens", PInt n)]
              | None => []
              end
           ++ (if no_cache c then [("store", PBool false)] else []))
  else
    PDict ([("model", PStr (model c));
            ("messages", PList [PDict [("role", PStr "user"); ("content", PStr prompt)]]);
            ("stream", PBool stream)]
           ++ match configured_effort c with
              | Some e => [("reasoning_effort", PStr e)]
              | None => []
              end
           ++ match configured_max_tokens c with
              | Some n => [("max_tokens", PInt n)]
              | None => []
              end).

Definition _extract_tokens_from_response (c : LLMClient) (response_data : pyval)
  : Res TokenMetrics :=
  res_bind (py_get response_data "usage" (PDict [])) (fun usage =>
    if is_responses_api c then
      res_bind (py_get usage "input_tokens" (PInt 0)) (fun p =>
      res_bind (py_get usage "output_tokens" (PInt 0)) (fun o =>
      res_bind (py_get usage "total_tokens" (PInt 0)) (fun t =>
      Ret (mkTokenMetrics p o t))))
    else
      res_bind (py_get usage "prompt_tokens" (PInt 0)) (fun p =>
      res_bind (py_get usage "completion_tokens" (PInt 0)) (fun o =>
      res_bind (py_get usage "total_tokens" (PInt 0)) (fun t =>
      Ret (mkTokenMetrics p o t))))).

(** the texts one item of [output] contributes to [content_parts] *)
Definition output_item_texts (item : pyval) : Res (list pyval) :=
  res_bind (py_get item "type" PNone) (fun ty =>
    if py_eq_str ty "message" then
      res_bind (py_get item "content" (PList [])) (fun cs =>
      res_bind (py_iter cs) (fun cs_items =>
      res_bind
        (res_mapM (fun content =>
           res_bind (py_get content "type" PNone) (fun cty =>
             if py_eq_str cty "output_text" then
               res_bind (py_get content "text" (PStr "")) (fun t => Ret [t])
             else Ret [])) cs_items)
        (fun parts => Ret (List.concat parts))))
    else Ret []).

Definition _extract_content_from_response (c : LLMClient) (response_data : pyval)
  : Res pyval :=
  if is_responses_api c then
    res_bind (py_get response_data "output" (PList [])) (fun output =>
    res_bind (py_iter output) (fun items =>
    res_bind (res_mapM output_item_texts items) (fun parts =>
    res_bind (py_join (List.concat parts)) (fun s => Ret (PStr s)))))
  else
    res_bind (py_get response_data "choices" (PList [])) (fun choices =>
      if truthy choices then
        res_bind (py_index0 choices) (fun first =>
        res_bind (py_get first "message" (PDict [])) (fun message =>
        py_get message "content" (PStr "")))
      else Ret (PStr "")).

(** The status checks shared by both calls: [Some failure] when the status
    code ends the call. *)
Definition status_failure (status_code : Z) : option LLMResponse :=
  if status_code =? 401 then Some (failure ErrAuthentication)
  else if status_code =? 403 then Some (failure ErrPermission)
  else if status_code =? 429 then Some (failure ErrRateLimit)
  else if 500 <=? status_code then Some (failure (ErrServer status_code))
  else if negb (status_code =? 200) then Some (failure (ErrHTTP status_code))
  else None.

(** The three [except] clauses that close both calls. *)
Definition call_handlers (c : LLMClient) (e : exn) : M LLMResponse :=
  match e with
  | TimeoutException => ret (failure (ErrTimeout (timeout c)))
  | ConnectError _ => ret (failure (ErrConnect e))
  | _ => ret (failure (ErrUnknown e))
  end.

(** The fallback of [call_api]: [tokens] is updated in place. *)
Definition fallback_tokens (E : Env) (c : LLMClient) (content : pyval)
  (tokens : TokenMetrics) : M TokenMetrics :=
  if py_eq_zero (completion_tokens tokens) && truthy content then
    n <- count_tokens_tiktoken E content (model c) ;;
    total <- lift (py_add_int (prompt_tokens tokens) n) ;;
    ret (mkTokenMetrics (prompt_tokens tokens) (PInt n) total)
  else ret tokens.

(** What the [try] block of [call_api] does with a 200 response whose body
    decoded to [response_data]. *)
Definition buffered_success (E : Env) (c : LLMClient) (latency_ms : Q)
  (response_data : pyval) : M LLMResponse :=
  content <- lift (_extract_content_from_response c response_data) ;;
  tokens <- lift (_extract_tokens_from_response c response_data) ;;
  tokens <- fallback_tokens E c content tokens ;;
  timing <- lift (TimingMetrics_init (round2 latency_ms) []) ;;
  ret (mkLLMResponse true (Some content) (Some timing) (Some tokens) None
         (Some response_data)).

Definition call_api_try (E : Env) (c : LLMClient) (body : pyval) (start_time : Q)
  : M LLMResponse :=
  match http_post E (endpoint c) (headers c) body with
  | PostRaises e => raise e
  | PostResponse status_code response_body =>
      end_time <- perf_counter E ;;
      let latency_ms := ((end_time - start_time) * 1000)%Q in
      match status_failure status_code with
      | Some r => ret r
      | None =>
          try_except
            (response_data <- lift (json_loads E response_body) ;;
             ret (inr response_data))
            is_JSONDecodeError
            (fun e => ret (inl (failure (ErrJSON e))))
          >>= fun parsed =>
          match parsed with
          | inl r => ret r
          | inr response_data => buffered_success E c latency_ms response_data
          end
      end
  end.

Definition call_api (E : Env) (c : LLMClient) (prompt : string) : M LLMResponse :=
  let body := _build_request_body c prompt false in
  start_time <- perf_counter E ;;
  try_except (call_api_try E c body start_time) (fun _ => true) (call_handlers c).

(** The local variables [call_api_stream] updates while it reads the stream. *)
Record stream_state : Type := mkStreamState {
  ttft : option Q;
  ttfr : option Q;
  content_chunks : list pyval;
  stream_completion_tokens : pyval
}.

Definition initial_stream_state : stream_state :=
  mkStreamState None None [] (PInt 0).

(** [if ttft is None: ttft = (time.perf_counter() - start_time) * 1000] *)
Definition stamp_if_none (E : Env) (start_time : Q) (t : option Q) : M (option Q) :=
  match t with
  | Some x => ret (Some x)
  | None => now <- perf_counter E ;; ret (Some ((now - start_time) * 1000)%Q)
  end.

(** [a or b] *)
Definition py_or (a b : pyval) : pyval := if truthy a then a else b.

Definition is_str (v : pyval) : bool :=
  match v with PStr _ => true | _ => false end.

(** One decoded event of a responses-style stream. *)
Definition responses_event (E : Env) (start_time : Q) (chunk_data : pyval)
  (st : stream_state) : M stream_state :=
  chunk_type <- lift (py_get chunk_data "type" (PStr "")) ;;
  if py_eq_str chunk_type "response.output_text.delta" then
    delta_text <- lift (py_get chunk_data "delta" (PStr "")) ;;
    if truthy delta_text then
      t <- stamp_if_none E start_time (ttft st) ;;
      ret (mkStreamState t (ttfr st) (content_chunks st ++ [delta_text])
             (stream_completion_tokens st))
    else ret st
  else if py_eq_str chunk_type "response.reasoning_text.delta"
          || py_eq_str chunk_type "response.reasoning.delta" then
    d <- lift (py_get chunk_data "delta" PNone) ;;
    reasoning_delta <-
      (if truthy d then ret d
       else t <- lift (py_get chunk_data "text" PNone) ;; ret (py_or t (PStr ""))) ;;
    if is_str reasoning_delta && truthy reasoning_delta then
      t <- stamp_if_none E start_time (ttfr st) ;;
      ret (mkStreamState (ttft st) t (content_chunks st) (stream_completion_tokens st))
    else ret st
  else if py_eq_str chunk_type "response.completed" then
    resp <- lift (py_get chunk_data "response" (PDict [])) ;;
    usage <- lift (py_get resp "usage" (PDict [])) ;;
    if truthy usage then
      n <- lift (py_get usage "output_tokens" (PInt 0)) ;;
      ret (mkStreamState (ttft st) (ttfr st) (content_chunks st) n)
    else ret st
  else ret st.

(** One decoded event of a chat-completions-style stream. *)
Definition chat_event (E : Env) (start_time : Q) (chunk_data : pyval)
  (st : stream_state) : M stream_state :=
  choices <- lift (py_get chunk_data "choices" (PList [])) ;;
  st1 <-
    (if truthy choices then
       first <- lift (py_index0 choices) ;;
       delta <- lift (py_get first "delta" (PDict [])) ;;
       chunk_content <- lift (py_get delta "content" (PStr "")) ;;
       if truthy chunk_content then
         t <- stamp_if_none E start_time (ttft st) ;;
         ret (mkStreamState t (ttfr st) (content_chunks st ++ [chunk_content])
                (stream_completion_tokens st))
       else ret st
     else ret st) ;;
  usage <- lift (py_get chunk_data "usage" PNone) ;;
  if truthy usage then
    n <- lift (py_get usage "completion_tokens" (PInt 0)) ;;
    ret (mkStreamState (ttft st1) (ttfr st1) (content_chunks st1) n)
  else ret st1.

Definition stream_event (E : Env) (c : LLMClient) (start_time : Q)
  (chunk_data : pyval) (st : stream_state) : M stream_state :=
  if is_responses_api c then responses_event E start_time chunk_data st
  else chat_event E start_time chunk_data st.

(** What one line of the stream does to the loop. *)
Inductive line_kind : Type :=
| Skipped                 (* empty line, or no "data: " prefix *)
| Done                    (* the [DONE] sentinel: break *)
| Data (data_str : string).

Definition classify_line (line : string) : line_kind :=
  if (line =? "")%string then Skipped
  else if String.prefix "data: " line then
    let data_str := drop 6 line in
    if (strip data_str =? "[DONE]")%string then Done else Data data_str
  else Skipped.

(** [for line in response.iter_lines(): ...]; the result says whether the
    loop left by [break]. A [JSONDecodeError] inside the [try] skips the
    line with the variables as they were before it. *)
Fixpoint sse_loop (E : Env) (c : LLMClient) (start_time : Q) (lines : list string)
  (st : stream_state) : M (stream_state * bool) :=
  match lines with
  | [] => ret (st, false)
  | line :: rest =>
      match classify_line line with
      | Skipped => sse_loop E c start_time rest st
      | Done => ret (st, true)
      | Data data_str =>
          st' <- try_except
                   (chunk_data <- lift (json_loads E data_str) ;;
                    stream_event E c start_time chunk_data st)
                   is_JSONDecodeError
                   (fun _ => ret st) ;;
          sse_loop E c start_time rest st'
      end
  end.

(** [round(t, 2) if t else None] *)
Definition rounded_if_truthy (t : option Q) : option Q :=
  match t with
  | Some x => if Qeq_bool x 0 then None else Some (round2 x)
  | None => None
  end.

(** The keyword arguments [call_api_stream] hands to [TimingMetrics]
    besides [total_latency_ms]. *)
Definition stream_timing_kwargs (st : stream_state) : list (string * option Q) :=
  [("ttft_ms", rounded_if_truthy (ttft st)); ("ttfr_ms", rounded_if_truthy (ttfr st))].

(** The statements after the [with] blocks. *)
Definition stream_finish (E : Env) (c : LLMClient) (start_time : Q) (st : stream_state)
  : M LLMResponse :=
  end_time <- perf_counter E ;;
  let total_latency_ms := ((end_time - start_time) * 1000)%Q in
  full_content <- lift (py_join (content_chunks st)) ;;
  completion <-
    (if py_eq_zero (stream_completion_tokens st) && truthy (PStr full_content) then
       n <- count_tokens_tiktoken E (PStr full_content) (model c) ;; ret (PInt n)
     else ret (stream_completion_tokens st)) ;;
  timing <- lift (TimingMetrics_init (round2 total_latency_ms) (stream_timing_kwargs st)) ;;
  ret (mkLLMResponse true (Some (PStr full_content)) (Some timing)
         (Some (mkTokenMetrics (PInt 0) completion completion)) None None).

Definition call_api_stream_try (E : Env) (c : LLMClient) (body : pyval) (start_time : Q)
  : M LLMResponse :=
  match http_stream E (endpoint c) (headers c) body with
  | StreamRaises e => raise e
  | StreamResponse status_code lines broken =>
      match status_failure status_code with
      | Some r => ret r
      | None =>
          out <- sse_loop E c start_time lines initial_stream_state ;;
          let '(st, left_by_break) := out in
          match left_by_break, broken with
          | false, Some e => raise e
          | _, _ => stream_finish E c start_time st
          end
      end
  end.

Definition call_api_stream (E : Env) (c : LLMClient) (prompt : string) : M LLMResponse :=
  let body := _build_request_body c prompt true in
  start_time <- perf_counter E ;;
  try_except (call_api_stream_try E c body start_time) (fun _ => true) (call_handlers c).

(** ** main.py *)

Definition run_single_test (E : Env) (c : LLMClient) (prompt : string) (streaming : bool)
  : M TestResult :=
  response <- (if streaming then call_api_stream E c prompt else call_api E c prompt) ;;
  if success response then
    tps <- match resp_tokens response, resp_timing response with
           | Some tk, Some tm =>
               x <- lift (calculate_tps (completion_tokens tk) (total_latency_ms tm)) ;;
               ret (Some x)
           | _, _ => ret None
           end ;;
    ret (mkTestResult prompt "success" None (content response) (resp_timing response)
           (resp_tokens response) (rounded_if_truthy tps))
  else
    ret (mkTestResult prompt "error" (resp_error_message response) None None None None).

(** The rest of [main.py]: configuration, prompt files, batches and the
    settings [main] resolves. *)

(** [merged[key] = value]: an existing key keeps its place. *)
Fixpoint dict_set (k : string) (v : pyval) (d : list (string * pyval))
  : list (string * pyval) :=
  match d with
  | [] => [(k, v)]
  | (k', v') :: d' =>
      if (k =? k')%string then (k, v) :: d' else (k', v') :: dict_set k v d'
  end.

(** [value is not None and value != () and value != False]. The values are
    those of [pyval], none of which is a tuple, so the middle test holds;
    [v != False] fails for [False], [0] and [0.0], which Python finds equal. *)
Definition cli_value_given (v : pyval) : bool :=
  match v with
  | PNone => false
  | _ => negb (py_eq_zero v)
  end.

(** one turn of the loop of [merge_config_with_cli] *)
Definition merge_item (merged : list (string * pyval)) (item : string * pyval)
  : list (string * pyval) :=
  let '(key, value) := item in
  if cli_value_given value then dict_set key value merged
  else match dict_lookup key merged with
       | None => dict_set key value merged
       | Some _ => merged
       end.

Definition merge_config_with_cli (config cli_values : list (string * pyval))
  : list (string * pyval) :=
  fold_left merge_item cli_values config.

(** [load_prompts_from_file]. The file system is a collaborator: [file] is
    what it holds at the path, [None] when nothing is there, otherwise the
    lines of the file. A [ClickException] is an [OtherException] carrying
    its message. *)
Definition is_prompt_line (line : string) : bool :=
  negb (line =? "")%string && negb (String.prefix "#" line).

Definition load_prompts_from_file (file : option (list string)) : Res (list string) :=
  match file with
  | None => Raise (OtherException "ClickException: file does not exist")
  | Some lines =>
      let prompts :=
        flat_map (fun line => let line := strip line in
                              if is_prompt_line line then [line] else []) lines in
      match prompts with
      | [] => Raise (OtherException "ClickException: no valid prompt in the file")
      | _ :: _ => Ret prompts
      end
  end.

(** [run_batch_tests]: the progress display aside, two nested loops that
    append the result of every test; [range(runs)] is empty for a count that
    is zero or negative. *)
Fixpoint run_prompt_runs (E : Env) (c : LLMClient) (prompt : string) (streaming : bool)
  (runs : nat) (results : list TestResult) : M (list TestResult) :=
  match runs with
  | O => ret results
  | S runs' =>
      result <- run_single_test E c prompt streaming ;;
      run_prompt_runs E c prompt streaming runs' (results ++ [result])
  end.

Fixpoint run_batch_loop (E : Env) (c : LLMClient) (prompts : list string) (runs : Z)
  (streaming : bool) (results : list TestResult) : M (list TestResult) :=
  match prompts with
  | [] => ret results
  | prompt :: rest =>
      results' <- run_prompt_runs E c prompt streaming (Z.to_nat runs) results ;;
      run_batch_loop E c rest runs streaming results'
  end.

Definition run_batch_tests (E : Env) (c : LLMClient) (prompts : list string) (runs : Z)
  (streaming : bool) : M (list TestResult) :=
  run_batch_loop E c prompts runs streaming [].

(** [load_config]. The file system and the YAML parser are collaborators:
    [fs path] is [None] when nothing is at the path, otherwise what
    [yaml.safe_load] makes of the file. [defaults] is
    [DEFAULT_CONFIG_PATHS], whose last entry depends on the home directory. *)
Inductive yaml_outcome : Type :=
| YamlValue (v : pyval)
| YamlError (msg : string).

(** [o[k] = v] for a str key *)
Definition py_setitem (o : pyval) (k : string) (v : pyval) : Res pyval :=
  match o with
  | PDict d => Ret (PDict (dict_set k v d))
  | PList _ => Raise (TypeError "list indices must be integers or slices, not str")
  | _ => Raise (TypeError "object does not support item assignment")
  end.

Fixpoint load_config_loop (fs : string -> option yaml_outcome) (paths : list string)
  : option (Res pyval) :=
  match paths with
  | [] => None
  | path :: rest =>
      if negb (path =? "")%string then
        match fs path with
        | Some (YamlValue v) =>
            Some (py_setitem (py_or v (PDict [])) "_config_file" (PStr path))
        | Some (YamlError msg) =>
            Some (Raise (OtherException ("ClickException: cannot parse the configuration file: "
                                           ++ msg)))
        | None => load_config_loop fs rest
        end
      else load_config_loop fs rest
  end.

Definition load_config (fs : string -> option yaml_outcome) (defaults : list string)
  (config_path : option string) : Res pyval :=
  let given := match config_path with
               | Some p => negb (p =? "")%string
               | None => false
               end in
  let paths_to_try := match config_path with
                      | Some p => if given then [p] else defaults
                      | None => defaults
                      end in
  match load_config_loop fs paths_to_try with
  | Some r => r
  | None =>
      if given then
        Raise (OtherException "ClickException: the configuration file does not exist")
      else Ret (PDict [])
  end.

(** [main]: the dict of command-line values, in the order [main] writes
    it; an option that was not given is [None]. *)
Record CliValues : Type := mkCliValues {
  cli_endpoint : pyval;
  cli_api_key : pyval;
  cli_model : pyval;
  cli_prompt : pyval;
  cli_prompt_file : pyval;
  cli_streaming : pyval;
  cli_runs : pyval;
  cli_timeout : pyval;
  cli_output : pyval;
  cli_json_output : pyval;
  cli_reasoning_effort : pyval;
  cli_max_tokens : pyval;
  cli_no_cache : pyval
}.

Definition cli_values (a : CliValues) : list (string * pyval) :=
  [("endpoint", cli_endpoint a); ("api_key", cli_api_key a); ("model", cli_model a);
   ("prompt", cli_prompt a); ("prompt_file", cli_prompt_file a);
   ("streaming", cli_streaming a); ("runs", cli_runs a); ("timeout", cli_timeout a);
   ("output", cli_output a); ("json_output", cli_json_output a);
   ("reasoning_effort", cli_reasoning_effort a); ("max_tokens", cli_max_tokens a);
   ("no_cache", cli_no_cache a)].

(** [cfg = merge_config_with_cli(file_config, cli_values)] and
    [cfg.get(key, default)] *)
Definition main_cfg (file_config : list (string * pyval)) (a : CliValues)
  : list (string * pyval) :=
  merge_config_with_cli file_config (cli_values a).

Definition cfg_get (cfg : list (string * pyval)) (key : string) (default : pyval) : pyval :=
  match dict_lookup key cfg with
  | Some v => v
  | None => default
  end.

(** [runs = cfg.get("runs", 1)], [timeout = cfg.get("timeout", 120.0)],
    [streaming = cfg.get("streaming", False)] *)
Definition main_runs (file_config : list (string * pyval)) (a : CliValues) : pyval :=
  cfg_get (main_cfg file_config a) "runs" (PInt 1).

Definition main_timeout (file_config : list (string * pyval)) (a : CliValues) : pyval :=
  cfg_get (main_cfg file_config a) "timeout" (PFloat 120).

Definition main_streaming (file_config : list (string * pyval)) (a : CliValues) : pyval :=
  cfg_get (main_cfg file_config a) "streaming" (PBool false).

Fixpoint string_times (n : nat) (s : string) : string :=
  match n with
  | O => ""
  | S n' => s ++ string_times n' s
  end.

(** [n * v] for an int [n] *)
Definition py_int_mul (n : Z) (v : pyval) : Res pyval :=
  match v with
  | PInt m => Ret (PInt (n * m))
  | PBool b => Ret (PInt (n * Z_of_bool b))
  | PFloat x => Ret (PFloat (inject_Z n * x))
  | PStr s => Ret (PStr (string_times (Z.to_nat n) s))
  | PList items => Ret (PList (List.concat (repeat items (Z.to_nat n))))
  | PNone => Raise (TypeError "unsupported operand type(s) for *: 'int' and 'NoneType'")
  | PDict _ => Raise (TypeError "unsupported operand type(s) for *: 'int' and 'dict'")
  end.

(** [len(prompts) * runs], the first computation [main] and
    [run_batch_tests] make with [runs] *)
Definition total_tests (prompts : list string) (runs : pyval) : Res pyval :=
  py_int_mul (Z.of_nat (List.length prompts)) runs.

(** the success rate [display_summary] formats:
    [summary.successful / summary.total_requests * 100] *)
Definition success_rate (summary : BatchSummary) : Res Q :=
  if total_requests summary =? 0 then Raise ZeroDivisionError
  else Ret (inject_Z (successful summary) / inject_Z (total_requests summary) * 100)%Q.

(** ** Vocabulary of the statements *)

(** A client whose [endpoint] and [headers] attributes were given other
    values after construction. *)
Definition with_endpoint (c : LLMClient) (e : string) (h : list (string * string))
  : LLMClient :=
  mkLLMClient e (api_key c) (model c) (timeout c) (reasoning_effort c) (max_tokens c)
    (no_cache c) h (is_responses_api c).

(** The path of a URL, as the specification speaks of it: what follows the
    authority, up to the query or the fragment. This definition is not taken
    from the code, which never splits the endpoint; it is what the code's
    test is compared with. *)
Fixpoint after_scheme (url : string) : option string :=
  if String.prefix "://" url then Some (drop 3 url)
  else match url with
       | EmptyString => None
       | String _ url' => after_scheme url'
       end.

Fixpoint drop_until (stop : ascii -> bool) (s : string) : string :=
  match s with
  | EmptyString => EmptyString
  | String a s' => if stop a then s else drop_until stop s'
  end.

Fixpoint take_until (stop : ascii -> bool) (s : string) : string :=
  match s with
  | EmptyString => EmptyString
  | String a s' => if stop a then EmptyString else String a (take_until stop s')
  end.

Definition url_path (url : string) : string :=
  let rest := match after_scheme url with Some r => r | None => url end in
  take_until (fun a => Ascii.eqb a "?" || Ascii.eqb a "#")%char
    (drop_until is_slash rest).

(** C7, as the specification states it, at one endpoint: responses-style
    exactly when the path contains [/responses]. *)
Definition classified_by_path (endpoint : string) : Prop :=
  is_responses_api (LLMClient_init endpoint "key" "gpt-4" 120 None None false) = true
  <-> contains "/responses" (url_path endpoint) = true.

(** the value of a key of a request body *)
Definition body_field (body : pyval) (k : string) : option pyval :=
  match body with
  | PDict d => dict_lookup k d
  | _ => None
  end.

(** A tagged result: a success with content, timing and tokens and no
    error message, or a failure with an error message and nothing else. *)
Definition well_tagged (r : LLMResponse) : Prop :=
  (success r = true /\ content r <> None /\ resp_timing r <> None /\
   resp_tokens r <> None /\ resp_error_message r = None) \/
  (success r = false /\ content r = None /\ resp_timing r = None /\
   resp_tokens r = None /\ resp_error_message r <> None).

(** the message the three [except] clauses choose for an exception *)
Definition handler_message (c : LLMClient) (e : exn) : error_message_t :=
  match e with
  | TimeoutException => ErrTimeout (timeout c)
  | ConnectError _ => ErrConnect e
  | _ => ErrUnknown e
  end.

(** the world after one clock reading, and after one tokenizer call *)
Definition after_tick (w : World) : World := mkWorld (S (ticks w)) (tokenizer_calls w).

Definition logged (w : World) (text : pyval) (model : string) : World :=
  mkWorld (ticks w) (tokenizer_calls w ++ [(text, model)]).

(** the condition under which both calls fall back to the tokenizer *)
Definition needs_fallback (completion content : pyval) : bool :=
  py_eq_zero completion && truthy content.

(** computations that never call the tokenizer *)
Definition keeps_calls {A} (m : M A) : Prop :=
  forall w, tokenizer_calls (snd (m w)) = tokenizer_calls w.

(** what the [TimingMetrics] constructor raises for the keyword [ttfr_ms] *)
Definition ttfr_keyword_error : exn :=
  TypeError "TimingMetrics.__init__() got an unexpected keyword argument 'ttfr_ms'".

(** the elapsed time a first fragment is stamped with in world [w] *)
Definition elapsed_ms (E : Env) (start : Q) (w : World) : Q :=
  ((clock E (ticks w) - start) * 1000)%Q.

(** What an event may do to [ttft] and [content_chunks]: nothing, or append
    one non-empty fragment and stamp [ttft] if it was still [None]. *)
Definition content_step (E : Env) (start : Q) (w : World) (st st' : stream_state) : Prop :=
  (content_chunks st' = content_chunks st /\ ttft st' = ttft st) \/
  (exists frag, truthy frag = true /\
                content_chunks st' = (content_chunks st ++ [frag])%list /\
                ttft st' = match ttft st with
                           | Some t => Some t
                           | None => Some (elapsed_ms E start w)
                           end).

(** The tokenizer calls a buffered call makes: one, when a 200 response was
    decoded and its content and usage extracted and the fallback condition
    holds; none otherwise. *)
Definition buffered_fallback_calls (E : Env) (c : LLMClient) (prompt : string)
  : list (pyval * string) :=
  match http_post E (endpoint c) (headers c) (_build_request_body c prompt false) with
  | PostRaises _ => []
  | PostResponse s text =>
      match status_failure s, json_loads E text with
      | None, Ret data =>
          match _extract_content_from_response c data,
                _extract_tokens_from_response c data with
          | Ret content, Ret tk =>
              if needs_fallback (completion_tokens tk) content
              then [(content, model c)] else []
          | _, _ => []
          end
      | _, _ => []
      end
  end.

(** The same for a streaming call: the decision is taken after the loop, on
    the joined fragments. *)
Definition streaming_fallback_calls (E : Env) (c : LLMClient) (prompt : string)
  (w : World) : list (pyval * string) :=
  match http_stream E (endpoint c) (headers c) (_build_request_body c prompt true) with
  | StreamRaises _ => []
  | StreamResponse s lines broken =>
      match status_failure s,
            sse_loop E c (clock E (ticks w)) lines initial_stream_state (after_tick w) with
      | None, (Ret (st, left_by_break), _) =>
          match left_by_break, broken with
          | false, Some _ => []
          | _, _ =>
              match py_join (content_chunks st) with
              | Ret full =>
                  if needs_fallback (stream_completion_tokens st) (PStr full)
                  then [(PStr full, model c)] else []
              | Raise _ => []
              end
          end
      | _, _ => []
      end
  end.

(** the usage keys of the client's wire format *)
Definition prompt_key (c : LLMClient) : string :=
  if is_responses_api c then "input_tokens" else "prompt_tokens".

Definition completion_key (c : LLMClient) : string :=
  if is_responses_api c then "output_tokens" else "completion_tokens".

(** [usage.get(k, 0)] *)
Definition reported (u : list (string * pyval)) (k : string) : pyval :=
  match dict_lookup k u with Some v => v | None => PInt 0 end.

(** C2, as the specification states it, at one call: whenever the usage
    object supplied a prompt count and a completion count, the returned
    record has total = prompt + completion. *)
Definition total_is_sum_whenever_supplied (E : Env) (c : LLMClient) (prompt : string)
  (w : World) : Prop :=
  forall r w' text data u p n,
    call_api E c prompt w = (Ret r, w') -> success r = true ->
    http_post E (endpoint c) (headers c) (_build_request_body c prompt false)
    = PostResponse 200 text ->
    json_loads E text = Ret data ->
    py_get data "usage" (PDict []) = Ret (PDict u) ->
    dict_lookup (prompt_key c) u = Some (PInt p) ->
    dict_lookup (completion_key c) u = Some (PInt n) ->
    exists tk a b,
      resp_tokens r = Some tk /\ prompt_tokens tk = PInt a /\
      completion_tokens tk = PInt b /\ total_tokens tk = PInt (a + b).

(** a text that is empty or starts with a character [p] rejects *)
Definition head_ok (p : ascii -> bool) (s : string) : bool :=
  match s with
  | EmptyString => true
  | String a _ => negb (p a)
  end.

(** the record [run_single_test] builds for a failed call *)
Definition error_result (prompt : string) (msg : option error_message_t) : TestResult :=
  mkTestResult prompt "error" msg None None None None.

(** A responses-style payload, as the server sends it: output items of some
    kind, each with parts of some kind that carry a text. *)
Definition output_part (kind_text : string * string) : pyval :=
  PDict [("type", PStr (fst kind_text)); ("text", PStr (snd kind_text))].

Definition output_item (item : string * list (string * string)) : pyval :=
  PDict [("type", PStr (fst item)); ("content", PList (map output_part (snd item)))].

Definition responses_payload (items : list (string * list (string * string)))
  (others : list (string * pyval)) : pyval :=
  PDict (("output", PList (map output_item items)) :: others).

(** the texts of the [output_text] parts of the [message] items, in order *)
Definition message_texts (items : list (string * list (string * string))) : list string :=
  flat_map (fun item =>
              if (fst item =? "message")%string then
                flat_map (fun part =>
                            if (fst part =? "output_text")%string then [snd part] else [])
                         (snd item)
              else []) items.

(** the lines the streaming loop passes over: empty lines, lines without
    the [data: ] prefix, and data lines whose text the decoder rejects *)
Definition ignored_line (E : Env) (line : string) : bool :=
  match classify_line line with
  | Skipped => true
  | Done => false
  | Data data_str =>
      match json_loads E data_str with
      | Raise e => is_JSONDecodeError e
      | Ret _ => false
      end
  end.

(** What an event may do to [ttfr]: nothing, or stamp it when it was still
    [None]; the event that stamps it is one of a responses-style stream and
    changes no other variable. *)
Definition reasoning_step (E : Env) (c : LLMClient) (start : Q) (w : World)
  (st st' : stream_state) : Prop :=
  ttfr st' = ttfr st \/
  (ttfr st = None /\ ttfr st' = Some (elapsed_ms E start w) /\
   is_responses_api c = true /\ ttft st' = ttft st /\
   content_chunks st' = content_chunks st /\
   stream_completion_tokens st' = stream_completion_tokens st).

(** a clock that never runs backwards, as [time.perf_counter] promises *)
Definition monotonic (E : Env) : Prop :=
  forall i j : nat, (i <= j)%nat -> (clock E i <= clock E j)%Q.

(** a stamp taken at a clock reading between two points of the run *)
Definition stamped (E : Env) (start : Q) (lo hi : nat) (t : option Q) : Prop :=
  forall x, t = Some x ->
            exists k : nat, (lo <= k <= hi)%nat /\ x = ((clock E k - start) * 1000)%Q.

(** computations that never turn the count of clock readings back *)
Definition advances {A} (m : M A) : Prop :=
  forall w, (ticks w <= ticks (snd (m w)))%nat.

(** ** Collaborators and data for concrete runs *)

(** Collaborators for concrete runs: a decoder that knows the texts of a
    table and finds every other text malformed, a transport with one fixed
    outcome, a tokenizer library that knows no model and encodes a text as
    one token per character. *)
Definition dq : string := String (ascii_of_nat 34) "".

Definition jstr (s : string) : string := dq ++ s ++ dq.

Definition decode_table (table : list (string * pyval)) (s : string) : Res pyval :=
  match find (fun kv => (fst kv =? s)%string) table with
  | Some kv => Ret (snd kv)
  | None => Raise (JSONDecodeError "Expecting value")
  end.

Definition test_env (readings : nat -> Q) (table : list (string * pyval))
  (post : post_outcome) (stream : stream_outcome) : Env :=
  mkEnv readings (decode_table table) (fun _ _ _ => post) (fun _ _ _ => stream)
    unit
    (fun _ => Raise (KeyError "model"))
    (fun _ => Ret tt)
    (fun _ s => Ret (map (fun _ => 0) (list_ascii_of_string s))).

(** a clock that advances one second per reading, and one that stands still *)
Definition seconds (n : nat) : Q := inject_Z (Z.of_nat n).

Definition frozen (n : nat) : Q := 0%Q.

Definition w0 : World := mkWorld 0 [].

Definition responses_client : LLMClient :=
  LLMClient_init "https://example.test/openai/v1/responses" "key" "gpt-4" 120
    None None false.

Definition chat_client : LLMClient :=
  LLMClient_init "https://example.test/v1/chat/completions" "key" "gpt-4" 120
    None None false.

(** The events of the specification's streaming scenario, as SSE lines. *)
Definition delta_text (s : string) : string :=
  "{" ++ jstr "type" ++ ":" ++ jstr "response.output_text.delta" ++ ","
      ++ jstr "delta" ++ ":" ++ jstr s ++ "}".

Definition delta_value (s : string) : pyval :=
  PDict [("type", PStr "response.output_text.delta"); ("delta", PStr s)].

Definition completed_text : string :=
  "{" ++ jstr "type" ++ ":" ++ jstr "response.completed" ++ "," ++ jstr "response"
      ++ ":{" ++ jstr "usage" ++ ":{" ++ jstr "output_tokens" ++ ":2}}}".

Definition completed_value : pyval :=
  PDict [("type", PStr "response.completed");
         ("response", PDict [("usage", PDict [("output_tokens", PInt 2)])])].

Definition scenario_table : list (string * pyval) :=
  [(delta_text "a", delta_value "a"); (delta_text "b", delta_value "b");
   (completed_text, completed_value)].

Definition scenario_lines : list string :=
  ["data: " ++ delta_text "a"; "data: " ++ delta_text "b"; "data: " ++ completed_text;
   "data: [DONE]"].

Definition stream_env (readings : nat -> Q) (lines : list string) : Env :=
  test_env readings scenario_table (PostRaises TimeoutException)
    (StreamResponse 200 lines None).

(** A chat-completions body with content ["hi"] and the given usage. *)
Definition chat_body_value (usage : list (string * pyval)) : pyval :=
  PDict [("choices", PList [PDict [("message", PDict [("content", PStr "hi")])]]);
         ("usage", PDict usage)].

Definition chat_body_text (usage_text : string) : string :=
  "{" ++ jstr "choices" ++ ":[{" ++ jstr "message" ++ ":{" ++ jstr "content" ++ ":"
      ++ jstr "hi" ++ "}}]," ++ jstr "usage" ++ ":{" ++ usage_text ++ "}}".

Definition buffered_env (usage_text : string) (usage : list (string * pyval)) : Env :=
  test_env seconds [(chat_body_text usage_text, chat_body_value usage)]
    (PostResponse 200 (chat_body_text usage_text)) (StreamRaises TimeoutException).

Definition status_env (status_code : Z) : Env :=
  test_env seconds [] (PostResponse status_code "") (StreamRaises TimeoutException).

(** usage with prompt, completion and total; without total; with prompt only *)
Definition usage_5_1_6 : list (string * pyval) :=
  [("prompt_tokens", PInt 5); ("completion_tokens", PInt 1); ("total_tokens", PInt 6)].

Definition usage_5_1_6_text : string :=
  jstr "prompt_tokens" ++ ":5," ++ jstr "completion_tokens" ++ ":1,"
       ++ jstr "total_tokens" ++ ":6".

Definition usage_5_1 : list (string * pyval) :=
  [("prompt_tokens", PInt 5); ("completion_tokens", PInt 1)].

Definition usage_5_1_text : string :=
  jstr "prompt_tokens" ++ ":5," ++ jstr "completion_tokens" ++ ":1".

Definition usage_5 : list (string * pyval) := [("prompt_tokens", PInt 5)].

Definition usage_5_text : string := jstr "prompt_tokens" ++ ":5".

(** a 200 response with empty content and no usage: zero completion tokens *)
Definition empty_body_value : pyval :=
  PDict [("choices", PList [PDict [("message", PDict [("content", PStr "")])]])].

Definition empty_body_text : string :=
  "{" ++ jstr "choices" ++ ":[{" ++ jstr "message" ++ ":{" ++ jstr "content" ++ ":"
      ++ jstr "" ++ "}}]}".

Definition empty_content_env : Env :=
  test_env seconds [(empty_body_text, empty_body_value)]
    (PostResponse 200 empty_body_text) (StreamRaises TimeoutException).

(** The batch of the specification's scenario: two successes with latencies
    100 ms and 200 ms and no ttft, one failure. *)
Definition scenario_batch : list TestResult :=
  [ mkTestResult "p1" "success" None (Some (PStr "a"))
      (Some (mkTimingMetrics 100 None))
      (Some (mkTokenMetrics (PInt 5) (PInt 10) (PInt 15))) (Some 100%Q);
    mkTestResult "p2" "success" None (Some (PStr "b"))
      (Some (mkTimingMetrics 200 None))
      (Some (mkTokenMetrics (PInt 5) (PInt 30) (PInt 35))) (Some 150%Q);
    mkTestResult "p3" "error" (Some ErrRateLimit) None None None None ].

(** a line feed, as it ends the lines of a file *)
Definition newline : string := String (ascii_of_nat 10) "".



(** a reasoning event of a responses-style stream *)
Definition reasoning_text : string :=
  "{" ++ jstr "type" ++ ":" ++ jstr "response.reasoning_text.delta" ++ ","
      ++ jstr "delta" ++ ":" ++ jstr "hm" ++ "}".

Definition reasoning_value : pyval :=
  PDict [("type", PStr "response.reasoning_text.delta"); ("delta", PStr "hm")].

Definition reasoning_env : Env :=
  test_env seconds ((reasoning_text, reasoning_value) :: scenario_table)
    (PostRaises TimeoutException) (StreamRaises TimeoutException).

(** the command line of the usage example: endpoint, key, model and one
    prompt, nothing else *)
Definition minimal_cli : CliValues :=
  mkCliValues (PStr "https://example.test/v1/chat/completions") (PStr "key")
    (PStr "gpt-4") (PStr "hi") PNone PNone PNone PNone PNone PNone PNone PNone PNone.

(** * Properties *)

(** ** Rationals: comparisons and rounding *)

Section RationalFacts.
Local Open Scope Q_scope.

Lemma Qle_bool_false_iff (x y : Q) : Qle_bool x y = false <-> y < x.
Proof.
  split; intro H.
  - destruct (Qlt_le_dec y x) as [H1 | H1]; [exact H1 |].
    apply Qle_bool_iff in H1. congruence.
  - destruct (Qle_bool x y) eqn:Hb; [| reflexivity].
    apply Qle_bool_iff in Hb. lra.
Qed.

Lemma Qeq_bool_false_of_neq (x y : Q) : ~ x == y -> Qeq_bool x y = false.
Proof.
  intro H. destruct (Qeq_bool x y) eqn:Hb; [| reflexivity].
  apply Qeq_bool_iff in Hb. contradiction.
Qed.


Lemma round_half_even_cases (y : Q) :
  (round_half_even y = Qfloor y /\ y - inject_Z (Qfloor y) <= 1 # 2) \/
  (round_half_even y = (Qfloor y + 1)%Z /\ 1 # 2 <= y - inject_Z (Qfloor y)).
Proof.
  unfold round_half_even.
  destruct (y - inject_Z (Qfloor y) ?= 1 # 2) eqn:Hc.
  - apply Qeq_alt in Hc. destruct (Z.even (Qfloor y)); [left | right]; split; auto; lra.
  - apply Qlt_alt in Hc. left; split; auto; lra.
  - apply Qgt_alt in Hc. right; split; auto; lra.
Qed.

Lemma round_half_even_comp (x y : Q) : x == y -> round_half_even x = round_half_even y.
Proof.
  intro H. unfold round_half_even.
  assert (Hf : Qfloor x = Qfloor y) by (apply Qfloor_comp; exact H).
  rewrite Hf.
  assert (Hc : (x - inject_Z (Qfloor y) ?= 1 # 2) = (y - inject_Z (Qfloor y) ?= 1 # 2)).
  { apply Qcompare_comp; [rewrite H; reflexivity | reflexivity]. }
  rewrite Hc. reflexivity.
Qed.

Lemma round_half_even_mono (x y : Q) : x <= y -> (round_half_even x <= round_half_even y)%Z.
Proof.
  intro Hxy.
  assert (Hf : (Qfloor x <= Qfloor y)%Z) by (apply Qfloor_resp_le; exact Hxy).
  destruct (Z.eq_dec (Qfloor x) (Qfloor y)) as [He | Hne].
  - unfold round_half_even. rewrite He.
    destruct (x - inject_Z (Qfloor y) ?= 1 # 2) eqn:Hcx;
      destruct (y - inject_Z (Qfloor y) ?= 1 # 2) eqn:Hcy;
      try (destruct (Z.even (Qfloor y))); try lia;
      repeat match goal with
             | H : (_ ?= _) = Eq |- _ => apply Qeq_alt in H
             | H : (_ ?= _) = Lt |- _ => apply Qlt_alt in H
             | H : (_ ?= _) = Gt |- _ => apply Qgt_alt in H
             end; lra.
  - pose proof (round_half_even_cases x) as Hx.
    pose proof (round_half_even_cases y) as Hy.
    destruct Hx as [[Hx _] | [Hx _]], Hy as [[Hy _] | [Hy _]]; lia.
Qed.


Lemma round_half_even_inject (k : Z) : round_half_even (inject_Z k) = k.
Proof.
  unfold round_half_even. rewrite Qfloor_Z.
  assert (H : (inject_Z k - inject_Z k ?= 1 # 2) = Lt).
  { apply (proj1 (Qlt_alt _ _)). generalize (inject_Z k). intro q.
    change (q - q < 1 # 2). lra. }
  rewrite H. reflexivity.
Qed.


Lemma Qmake_100_le (a b : Z) : (a <= b)%Z -> a # 100 <= b # 100.
Proof. intro H. unfold Qle. simpl. lia. Qed.

Lemma round2_mono (x y : Q) : x <= y -> round2 x <= round2 y.
Proof.
  intro H. unfold round2. rewrite !Qred_correct.
  apply Qmake_100_le, round_half_even_mono. lra.
Qed.

Lemma round2_comp (x y : Q) : x == y -> round2 x = round2 y.
Proof.
  intro H. unfold round2.
  rewrite (round_half_even_comp (x * 100) (y * 100)); [reflexivity |].
  rewrite H. reflexivity.
Qed.



End RationalFacts.

(** ** metrics.py: throughput *)

Section Throughput.
Local Open Scope Q_scope.



End Throughput.

(** ** metrics.py: aggregation *)

Section Aggregation.
Local Open Scope Q_scope.

Lemma Qlt_bool_true_iff (x y : Q) : Qlt_bool x y = true <-> x < y.
Proof.
  unfold Qlt_bool. rewrite negb_true_iff. apply Qle_bool_false_iff.
Qed.

Lemma fold_min_spec (xs : list Q) (m : Q) :
  let r := fold_left (fun m y => if Qlt_bool y m then y else m) xs m in
  r <= m /\ (forall y, In y xs -> r <= y) /\ (r = m \/ In r xs).
Proof.
  revert m. induction xs as [| x xs IH]; intro m; simpl.
  - repeat split; [lra | contradiction | left; reflexivity].
  - destruct (Qlt_bool x m) eqn:Hb.
    + apply Qlt_bool_true_iff in Hb.
      destruct (IH x) as (H1 & H2 & H3). repeat split.
      * lra.
      * intros y [Hy | Hy]; [subst y; exact H1 | apply H2; exact Hy].
      * right. destruct H3 as [H3 | H3]; [left; symmetry; exact H3 | right; exact H3].
    + assert (Hmx : m <= x).
      { destruct (Qlt_le_dec x m) as [Hlt | Hle]; [| exact Hle].
        apply Qlt_bool_true_iff in Hlt. congruence. }
      destruct (IH m) as (H1 & H2 & H3). repeat split.
      * exact H1.
      * intros y [Hy | Hy]; [subst y; lra | apply H2; exact Hy].
      * destruct H3 as [H3 | H3]; [left; exact H3 | right; right; exact H3].
Qed.

Lemma fold_max_spec (xs : list Q) (m : Q) :
  let r := fold_left (fun m y => if Qlt_bool m y then y else m) xs m in
  m <= r /\ (forall y, In y xs -> y <= r) /\ (r = m \/ In r xs).
Proof.
  revert m. induction xs as [| x xs IH]; intro m; simpl.
  - repeat split; [lra | contradiction | left; reflexivity].
  - destruct (Qlt_bool m x) eqn:Hb.
    + apply Qlt_bool_true_iff in Hb.
      destruct (IH x) as (H1 & H2 & H3). repeat split.
      * lra.
      * intros y [Hy | Hy]; [subst y; exact H1 | apply H2; exact Hy].
      * right. destruct H3 as [H3 | H3]; [left; symmetry; exact H3 | right; exact H3].
    + assert (Hmx : x <= m).
      { destruct (Qlt_le_dec m x) as [Hlt | Hle]; [| exact Hle].
        apply Qlt_bool_true_iff in Hlt. congruence. }
      destruct (IH m) as (H1 & H2 & H3). repeat split.
      * exact H1.
      * intros y [Hy | Hy]; [subst y; lra | apply H2; exact Hy].
      * destruct H3 as [H3 | H3]; [left; exact H3 | right; right; exact H3].
Qed.

Lemma py_min_lower (x : Q) (xs : list Q) (y : Q) : In y (x :: xs) -> py_min x xs <= y.
Proof.
  destruct (fold_min_spec xs x) as (H1 & H2 & _).
  intros [Hy | Hy]; [subst y; exact H1 | apply H2; exact Hy].
Qed.

Lemma py_min_In (x : Q) (xs : list Q) : In (py_min x xs) (x :: xs).
Proof.
  destruct (fold_min_spec xs x) as (_ & _ & [H | H]); [left; symmetry; exact H | right; exact H].
Qed.

Lemma py_max_upper (x : Q) (xs : list Q) (y : Q) : In y (x :: xs) -> y <= py_max x xs.
Proof.
  destruct (fold_max_spec xs x) as (H1 & H2 & _).
  intros [Hy | Hy]; [subst y; exact H1 | apply H2; exact Hy].
Qed.

Lemma py_max_In (x : Q) (xs : list Q) : In (py_max x xs) (x :: xs).
Proof.
  destruct (fold_max_spec xs x) as (_ & _ & [H | H]); [left; symmetry; exact H | right; exact H].
Qed.







Lemma Qsum_perm_ext (f g : Q -> Q) (l l' : list Q) :
  (forall x, f x == g x) -> Permutation l l' -> Qsum (map f l) == Qsum (map g l').
Proof.
  intros Hfg Hp. induction Hp as [| x l l' Hp IH | x y l | l l' l'' Hp1 IH1 Hp2 IH2].
  - reflexivity.
  - simpl. rewrite IH, (Hfg x). reflexivity.
  - simpl. rewrite (Hfg x), (Hfg y).
    assert (H : Qsum (map f l) == Qsum (map g l)).
    { clear - Hfg. induction l as [| z l IH]; simpl; [reflexivity |].
      rewrite IH, (Hfg z). reflexivity. }
    rewrite H. ring.
  - rewrite IH1. 
    assert (H : Qsum (map g l') == Qsum (map f l')).
    { clear - Hfg. induction l' as [| z l IH]; simpl; [reflexivity |].
      rewrite IH, (Hfg z). reflexivity. }
    rewrite H. exact IH2.
Qed.

Lemma Qsum_perm (l l' : list Q) : Permutation l l' -> Qsum l == Qsum l'.
Proof.
  intro Hp. pose proof (Qsum_perm_ext (fun x => x) (fun x => x) l l') as H.
  rewrite !map_id in H. apply H; [reflexivity | exact Hp].
Qed.

Lemma mean_perm (l l' : list Q) : Permutation l l' -> mean l == mean l'.
Proof.
  intro Hp. unfold mean.
  rewrite (Permutation_length Hp), (Qsum_perm l l' Hp). reflexivity.
Qed.

Lemma variance_perm (l l' : list Q) : Permutation l l' -> variance l == variance l'.
Proof.
  intro Hp. unfold variance.
  rewrite (Permutation_length Hp).
  rewrite (Qsum_perm_ext (fun x => (x - mean l) * (x - mean l))
             (fun x => (x - mean l') * (x - mean l')) l l').
  - reflexivity.
  - intro x. rewrite (mean_perm l l' Hp). reflexivity.
  - exact Hp.
Qed.

Lemma Qeq_bool_comp (x x' y y' : Q) : x == x' -> y == y' -> Qeq_bool x y = Qeq_bool x' y'.
Proof.
  intros Hx Hy. destruct (Qeq_bool x y) eqn:H1; destruct (Qeq_bool x' y') eqn:H2; auto.
  - apply Qeq_bool_iff in H1. assert (x' == y') by (rewrite <- Hx, <- Hy; exact H1).
    apply Qeq_bool_iff in H. congruence.
  - apply Qeq_bool_iff in H2. assert (x == y) by (rewrite Hx, Hy; exact H2).
    apply Qeq_bool_iff in H. congruence.
Qed.

Lemma round_sqrt_half_even_comp (v v' : Q) :
  v == v' -> round_sqrt_half_even v = round_sqrt_half_even v'.
Proof.
  intro H. unfold round_sqrt_half_even.
  assert (Hf : Qfloor (4 * v) = Qfloor (4 * v')) by (apply Qfloor_comp; rewrite H; reflexivity).
  rewrite Hf.
  set (n := Z.sqrt (Qfloor (4 * v'))).
  rewrite (Qeq_bool_comp (4 * v) (4 * v') (inject_Z (n * n)) (inject_Z (n * n)));
    [reflexivity | rewrite H |]; reflexivity.
Qed.

Lemma round2_sqrt_comp (v v' : Q) : v == v' -> round2_sqrt v = round2_sqrt v'.
Proof.
  intro H. unfold round2_sqrt.
  rewrite (round_sqrt_half_even_comp (v * 10000) (v' * 10000)); [reflexivity |].
  rewrite H. reflexivity.
Qed.

Lemma py_min_perm (x : Q) (xs : list Q) (y : Q) (ys : list Q) :
  Permutation (x :: xs) (y :: ys) -> py_min x xs == py_min y ys.
Proof.
  intro Hp. apply Qle_antisym.
  - apply py_min_lower. apply (Permutation_in _ (Permutation_sym Hp)). apply py_min_In.
  - apply py_min_lower. apply (Permutation_in _ Hp). apply py_min_In.
Qed.

Lemma py_max_perm (x : Q) (xs : list Q) (y : Q) (ys : list Q) :
  Permutation (x :: xs) (y :: ys) -> py_max x xs == py_max y ys.
Proof.
  intro Hp. apply Qle_antisym.
  - apply py_max_upper. apply (Permutation_in _ Hp). apply py_max_In.
  - apply py_max_upper. apply (Permutation_in _ (Permutation_sym Hp)). apply py_max_In.
Qed.

Lemma aggregate_values_cons (x : Q) (xs : list Q) :
  aggregate_values (x :: xs) =
  mkAggregatedStats
    (Z.of_nat (List.length (x :: xs)))
    (round2 (mean (x :: xs)))
    (if (1 <? Z.of_nat (List.length (x :: xs)))%Z
     then round2_sqrt (variance (x :: xs)) else 0)
    (round2 (py_min x xs))
    (round2 (py_max x xs)).
Proof.
  unfold aggregate_values, aggregate_values_st, reads.
  destruct (1 <? Z.of_nat (List.length (x :: xs)))%Z; reflexivity.
Qed.

Lemma aggregate_values_perm (l l' : list Q) :
  Permutation l l' -> aggregate_values l = aggregate_values l'.
Proof.
  intro Hp. destruct l as [| x xs]; destruct l' as [| y ys].
  - reflexivity.
  - apply Permutation_nil in Hp. discriminate Hp.
  - apply Permutation_sym, Permutation_nil in Hp. discriminate Hp.
  - rewrite !aggregate_values_cons.
    rewrite (Permutation_length Hp).
    rewrite (round2_comp _ _ (mean_perm _ _ Hp)).
    rewrite (round2_sqrt_comp _ _ (variance_perm _ _ Hp)).
    rewrite (round2_comp _ _ (py_min_perm _ _ _ _ Hp)).
    rewrite (round2_comp _ _ (py_max_perm _ _ _ _ Hp)).
    reflexivity.
Qed.




End Aggregation.

Section AggregationSpec.
Local Open Scope Q_scope.







End AggregationSpec.

(** ** metrics.py: batch summaries *)

Section Summaries.



Lemma res_mapM_length {A B} (f : A -> Res B) (l : list A) (l' : list B) :
  res_mapM f l = Ret l' -> List.length l' = List.length l.
Proof.
  revert l'. induction l as [| a l IH]; intros l' H; simpl in H.
  - injection H as <-. reflexivity.
  - destruct (f a) as [b | e]; simpl in H; [| discriminate H].
    destruct (res_mapM f l) as [bs | e]; simpl in H; [| discriminate H].
    injection H as <-. simpl. rewrite (IH bs eq_refl). reflexivity.
Qed.











Example summarize_results_scenario :
  summarize_results scenario_batch
  = Ret (mkBatchSummary 3 2 1
           (Some (mkAggregatedStats 2 150 70.71 100 200))
           None
           (Some (mkAggregatedStats 2 20 (Qred 14.14) 10 30))
           (Some (mkAggregatedStats 2 125 (Qred 35.36) 100 150))).
Proof. vm_compute. reflexivity. Qed.


End Summaries.

(** ** client.py: construction and wire format *)

Section WireFormat.

Lemma prefix_iff (a b : string) :
  String.prefix a b = true <-> exists post, b = (a ++ post)%string.
Proof.
  revert b. induction a as [| x a IH]; intro b.
  - split; [intros _; exists b; reflexivity | intros _; destruct b; reflexivity].
  - destruct b as [| y b]; simpl.
    + split; [discriminate | intros [post H]; discriminate H].
    + destruct (Ascii.ascii_dec x y) as [-> | Hne].
      * rewrite IH. split; intros [post H]; exists post.
        -- rewrite H. reflexivity.
        -- injection H as H. exact H.
      * split; [discriminate | intros [post H]; injection H as Hxy _; congruence].
Qed.

Lemma contains_iff (needle hay : string) :
  contains needle hay = true <->
  exists pre post, hay = (pre ++ needle ++ post)%string.
Proof.
  induction hay as [| y hay IH]; cbn [contains].
  - rewrite orb_false_r, prefix_iff. split.
    + intros [post H]. exists ""%string, post. exact H.
    + intros (pre & post & H). destruct pre as [| p pre]; [exists post; exact H |].
      discriminate H.
  - rewrite orb_true_iff, IH, prefix_iff. split.
    + intros [[post H] | (pre & post & H)].
      * exists ""%string, post. exact H.
      * exists (String y pre), post. simpl. rewrite H. reflexivity.
    + intros (pre & post & H). destruct pre as [| p pre].
      * left. exists post. exact H.
      * right. injection H as _ H. exists pre, post. exact H.
Qed.

(** C7 fails on the code where the text [/responses] stands outside the
    path: in the query, or where the host name starts with [responses]
    (the second slash of [//] precedes it). The code tests the whole endpoint
    string. *)
Lemma classification_not_by_path :
  url_path "https://api.example.test/v1/chat/completions?next=/responses"
  = "/v1/chat/completions" /\
  is_responses_api
    (LLMClient_init "https://api.example.test/v1/chat/completions?next=/responses"
       "key" "gpt-4" 120 None None false) = true /\
  ~ classified_by_path "https://api.example.test/v1/chat/completions?next=/responses" /\
  url_path "https://responses.example.test/v1/chat/completions" = "/v1/chat/completions" /\
  ~ classified_by_path "https://responses.example.test/v1/chat/completions".
Proof.
  split; [vm_compute; reflexivity |]. split; [vm_compute; reflexivity |].
  split; [| split; [vm_compute; reflexivity |]].
  - intros [H _]. specialize (H ltac:(vm_compute; reflexivity)).
    vm_compute in H. discriminate H.
  - intros [H _]. specialize (H ltac:(vm_compute; reflexivity)).
    vm_compute in H. discriminate H.
Qed.

(** C7, amended: construction classifies the endpoint as responses-style
    exactly when the endpoint string contains the text [/responses]; request
    building, response parsing and event parsing consult the stored flag only
    (they give the same results whatever the endpoint attribute holds
    afterwards), and the flag selects the wire format: [input] and
    [input_tokens]/[output_tokens] and typed events for responses-style,
    [messages] and [prompt_tokens]/[completion_tokens] and [choices] deltas
    otherwise. *)
Theorem format_detection_correct :
  (* classification at construction *)
  (forall endpoint api_key model timeout effort max_tokens no_cache,
      is_responses_api
        (LLMClient_init endpoint api_key model timeout effort max_tokens no_cache) = true
      <-> exists pre post, endpoint = (pre ++ "/responses" ++ post)%string) /\
  (* the flag is read, the endpoint is not looked at again *)
  (forall (E : Env) (c : LLMClient) (e : string) (h : list (string * string)),
      is_responses_api (with_endpoint c e h) = is_responses_api c /\
      _build_request_body (with_endpoint c e h) = _build_request_body c /\
      _extract_tokens_from_response (with_endpoint c e h) = _extract_tokens_from_response c /\
      _extract_content_from_response (with_endpoint c e h)
      = _extract_content_from_response c /\
      stream_event E (with_endpoint c e h) = stream_event E c) /\
  (* responses-style *)
  (forall (E : Env) (c : LLMClient),
      is_responses_api c = true ->
      (forall prompt stream,
          body_field (_build_request_body c prompt stream) "input" = Some (PStr prompt) /\
          body_field (_build_request_body c prompt stream) "messages" = None) /\
      (forall d u,
          dict_lookup "usage" d = Some (PDict u) ->
          _extract_tokens_from_response c (PDict d)
          = Ret (mkTokenMetrics
                   (match dict_lookup "input_tokens" u with Some v => v | None => PInt 0 end)
                   (match dict_lookup "output_tokens" u with Some v => v | None => PInt 0 end)
                   (match dict_lookup "total_tokens" u with Some v => v | None => PInt 0 end))) /\
      stream_event E c = responses_event E) /\
  (* chat-completions-style *)
  (forall (E : Env) (c : LLMClient),
      is_responses_api c = false ->
      (forall prompt stream,
          body_field (_build_request_body c prompt stream) "input" = None /\
          body_field (_build_request_body c prompt stream) "messages"
          = Some (PList [PDict [("role", PStr "user"); ("content", PStr prompt)]])) /\
      (forall d u,
          dict_lookup "usage" d = Some (PDict u) ->
          _extract_tokens_from_response c (PDict d)
          = Ret (mkTokenMetrics
                   (match dict_lookup "prompt_tokens" u with Some v => v | None => PInt 0 end)
                   (match dict_lookup "completion_tokens" u with Some v => v | None => PInt 0 end)
                   (match dict_lookup "total_tokens" u with Some v => v | None => PInt 0 end))) /\
      stream_event E c = chat_event E).
Proof.
  split; [| split; [| split]].
  - intros. unfold LLMClient_init. cbn [is_responses_api]. apply contains_iff.
  - intros E c e h. repeat split.
  - intros E c Hc. split; [| split].
    + intros prompt stream. unfold _build_request_body. rewrite Hc.
      destruct (configured_effort c), (configured_max_tokens c), (no_cache c);
        split; reflexivity.
    + intros d u Hu. unfold _extract_tokens_from_response. rewrite Hc.
      cbn [py_get res_bind]. rewrite Hu. reflexivity.
    + unfold stream_event. rewrite Hc. reflexivity.
  - intros E c Hc. split; [| split].
    + intros prompt stream. unfold _build_request_body. rewrite Hc.
      destruct (configured_effort c), (configured_max_tokens c);
        split; reflexivity.
    + intros d u Hu. unfold _extract_tokens_from_response. rewrite Hc.
      cbn [py_get res_bind]. rewrite Hu. reflexivity.
    + unfold stream_event. rewrite Hc. reflexivity.
Qed.

End WireFormat.

(** ** client.py: the buffered call *)

Section BufferedCall.

Lemma failure_well_tagged (msg : error_message_t) : well_tagged (failure msg).
Proof. right. repeat split; discriminate. Qed.

Lemma call_handlers_run (c : LLMClient) (e : exn) (w : World) :
  call_handlers c e w = (Ret (failure (handler_message c e)), w).
Proof. destruct e; reflexivity. Qed.

Lemma call_api_run (E : Env) (c : LLMClient) (prompt : string) (w : World) :
  call_api E c prompt w
  = match call_api_try E c (_build_request_body c prompt false) (clock E (ticks w))
            (after_tick w) with
    | (Ret r, w') => (Ret r, w')
    | (Raise e, w') => (Ret (failure (handler_message c e)), w')
    end.
Proof.
  unfold call_api, bind, perf_counter, try_except. fold (after_tick w).
  destruct (call_api_try _ _ _ _ _) as [[r | e] w']; [reflexivity |].
  apply call_handlers_run.
Qed.

Lemma status_failure_cases (s : Z) :
  (s = 401 /\ status_failure s = Some (failure ErrAuthentication)) \/
  (s = 403 /\ status_failure s = Some (failure ErrPermission)) \/
  (s = 429 /\ status_failure s = Some (failure ErrRateLimit)) \/
  (500 <= s /\ status_failure s = Some (failure (ErrServer s))) \/
  (s < 500 /\ s <> 200 /\ s <> 401 /\ s <> 403 /\ s <> 429 /\
   status_failure s = Some (failure (ErrHTTP s))) \/
  (s = 200 /\ status_failure s = None).
Proof.
  unfold status_failure.
  destruct (Z.eqb_spec s 401); [left; auto |].
  destruct (Z.eqb_spec s 403); [right; left; auto |].
  destruct (Z.eqb_spec s 429); [right; right; left; auto |].
  destruct (Z.leb_spec 500 s); [right; right; right; left; auto |].
  destruct (Z.eqb_spec s 200); simpl.
  - right; right; right; right; right. auto.
  - right; right; right; right; left. repeat split; auto.
Qed.

Lemma call_api_try_response (E : Env) (c : LLMClient) (body : pyval) (start : Q)
  (w : World) (s : Z) (text : string) :
  http_post E (endpoint c) (headers c) body = PostResponse s text ->
  call_api_try E c body start w
  = match status_failure s with
    | Some r => (Ret r, after_tick w)
    | None =>
        match json_loads E text with
        | Ret data =>
            buffered_success E c ((clock E (ticks w) - start) * 1000)%Q data (after_tick w)
        | Raise e =>
            if is_JSONDecodeError e then (Ret (failure (ErrJSON e)), after_tick w)
            else (Raise e, after_tick w)
        end
    end.
Proof.
  intro H. unfold call_api_try. rewrite H.
  unfold bind at 1. unfold perf_counter. fold (after_tick w).
  destruct (status_failure s) as [r |]; [reflexivity |].
  unfold bind at 1. unfold try_except, bind, lift, ret.
  destruct (json_loads E text) as [data | e].
  - reflexivity.
  - destruct (is_JSONDecodeError e); reflexivity.
Qed.

Lemma count_tokens_tiktoken_run (E : Env) (text : pyval) (model : string) (w : World) :
  count_tokens_tiktoken E text model w = (token_count E text model, logged w text model).
Proof. reflexivity. Qed.

Lemma fallback_tokens_run (E : Env) (c : LLMClient) (content : pyval) (tk : TokenMetrics)
  (w : World) :
  fallback_tokens E c content tk w
  = if needs_fallback (completion_tokens tk) content then
      (res_bind (token_count E content (model c)) (fun n =>
       res_bind (py_add_int (prompt_tokens tk) n) (fun total =>
       Ret (mkTokenMetrics (prompt_tokens tk) (PInt n) total))),
       logged w content (model c))
    else (Ret tk, w).
Proof.
  unfold fallback_tokens, needs_fallback.
  destruct (py_eq_zero (completion_tokens tk) && truthy content); [| reflexivity].
  unfold bind. rewrite count_tokens_tiktoken_run.
  destruct (token_count E content (model c)) as [n | e]; [| reflexivity].
  unfold lift, ret. simpl res_bind.
  destruct (py_add_int (prompt_tokens tk) n); reflexivity.
Qed.

Lemma buffered_success_run (E : Env) (c : LLMClient) (lat : Q) (data : pyval) (w : World) :
  buffered_success E c lat data w
  = match _extract_content_from_response c data with
    | Raise e => (Raise e, w)
    | Ret content =>
        match _extract_tokens_from_response c data with
        | Raise e => (Raise e, w)
        | Ret tk =>
            match fallback_tokens E c content tk w with
            | (Raise e, w') => (Raise e, w')
            | (Ret tk', w') =>
                (Ret (mkLLMResponse true (Some content)
                        (Some (mkTimingMetrics (round2 lat) None)) (Some tk') None
                        (Some data)), w')
            end
        end
    end.
Proof.
  unfold buffered_success, bind, lift, ret.
  destruct (_extract_content_from_response c data) as [content | e]; [| reflexivity].
  destruct (_extract_tokens_from_response c data) as [tk | e]; [| reflexivity].
  destruct (fallback_tokens E c content tk w) as [[tk' | e] w']; reflexivity.
Qed.

Lemma buffered_success_well_tagged (E : Env) (c : LLMClient) (lat : Q) (data : pyval)
  (w : World) (r : LLMResponse) (w' : World) :
  buffered_success E c lat data w = (Ret r, w') -> well_tagged r.
Proof.
  rewrite buffered_success_run.
  destruct (_extract_content_from_response c data) as [content | e]; [| discriminate].
  destruct (_extract_tokens_from_response c data) as [tk | e]; [| discriminate].
  destruct (fallback_tokens E c content tk w) as [[tk' | e] w'']; [| discriminate].
  intro H. injection H as <- _. left. repeat split; discriminate.
Qed.

Lemma status_failure_is_failure (s : Z) (r : LLMResponse) :
  status_failure s = Some r -> exists msg, r = failure msg.
Proof.
  destruct (status_failure_cases s)
    as [[_ H] | [[_ H] | [[_ H] | [[_ H] | [(_ & _ & _ & _ & _ & H) | [_ H]]]]]];
    rewrite H; intro Hr; try discriminate Hr; injection Hr as <-; eexists; reflexivity.
Qed.

Lemma call_api_try_well_tagged (E : Env) (c : LLMClient) (body : pyval) (start : Q)
  (w : World) (r : LLMResponse) (w' : World) :
  call_api_try E c body start w = (Ret r, w') -> well_tagged r.
Proof.
  destruct (http_post E (endpoint c) (headers c) body) as [e | s text] eqn:Hpost.
  - unfold call_api_try. rewrite Hpost. discriminate.
  - rewrite (call_api_try_response E c body start w s text Hpost).
    destruct (status_failure s) as [r0 |] eqn:Hs.
    + intro H. injection H as <- _.
      destruct (status_failure_is_failure s r0 Hs) as [msg ->]. apply failure_well_tagged.
    + destruct (json_loads E text) as [data | e].
      * apply buffered_success_well_tagged.
      * destruct (is_JSONDecodeError e); [| discriminate].
        intro H. injection H as <- _. apply failure_well_tagged.
Qed.

(** C3: whatever the transport does, [call_api] returns a tagged result and
    raises nothing: 401, 403 and 429 give the authentication, permission and
    rate-limit failures, a status of 500 or more the server failure with the
    status, any other status but 200 the HTTP failure with the status, a 200
    body that is not JSON the parse failure, a transport timeout the timeout
    failure with the configured timeout, a connection error the connection
    failure, and any other exception the unknown failure with its cause. *)
Theorem call_api_classifies_every_outcome (E : Env) (c : LLMClient) (prompt : string)
  (w : World) :
  exists (r : LLMResponse) (w' : World),
    call_api E c prompt w = (Ret r, w') /\
    well_tagged r /\
    (* the status codes *)
    (forall s text,
        http_post E (endpoint c) (headers c) (_build_request_body c prompt false)
        = PostResponse s text ->
        (s = 401 -> r = failure ErrAuthentication) /\
        (s = 403 -> r = failure ErrPermission) /\
        (s = 429 -> r = failure ErrRateLimit) /\
        (500 <= s -> r = failure (ErrServer s)) /\
        (s < 500 -> s <> 200 -> s <> 401 -> s <> 403 -> s <> 429 ->
         r = failure (ErrHTTP s)) /\
        (* a 200 response whose body is not JSON *)
        (forall msg, s = 200 -> json_loads E text = Raise (JSONDecodeError msg) ->
                     r = failure (ErrJSON (JSONDecodeError msg))) /\
        (* a 200 response that makes the decoding raise something else *)
        (forall e, s = 200 -> json_loads E text = Raise e -> is_JSONDecodeError e = false ->
                   r = failure (handler_message c e)) /\
        (* and otherwise a success *)
        (s = 200 -> success r = true ->
         exists data, json_loads E text = Ret data /\ raw_response r = Some data)) /\
    (* the transport raised *)
    (http_post E (endpoint c) (headers c) (_build_request_body c prompt false)
     = PostRaises TimeoutException -> r = failure (ErrTimeout (timeout c))) /\
    (forall msg,
        http_post E (endpoint c) (headers c) (_build_request_body c prompt false)
        = PostRaises (ConnectError msg) -> r = failure (ErrConnect (ConnectError msg))) /\
    (forall e,
        http_post E (endpoint c) (headers c) (_build_request_body c prompt false)
        = PostRaises e ->
        e <> TimeoutException -> (forall msg, e <> ConnectError msg) ->
        r = failure (ErrUnknown e)).
Proof.
  rewrite call_api_run.
  set (body := _build_request_body c prompt false).
  set (start := clock E (ticks w)).
  destruct (call_api_try E c body start (after_tick w)) as [[r | e] w'] eqn:Htry.
  - exists r, w'. split; [reflexivity |].
    split; [apply (call_api_try_well_tagged _ _ _ _ _ _ _ Htry) |].
    split; [| split; [| split]].
    + intros s text Hpost.
      rewrite (call_api_try_response E c body start _ s text Hpost) in Htry.
      destruct (status_failure_cases s)
        as [[Hs H] | [[Hs H] | [[Hs H] | [[Hs H] | [(Hs & H1 & H2 & H3 & H4 & H) | [Hs H]]]]]];
        rewrite H in Htry;
        try (injection Htry as <- _; repeat split; intros; try reflexivity; lia).
      destruct (json_loads E text) as [data | e] eqn:Hj.
      * repeat split; intros; try lia; try discriminate.
        exists data. split; [reflexivity |].
        rewrite buffered_success_run in Htry.
        destruct (_extract_content_from_response c data); [| discriminate].
        destruct (_extract_tokens_from_response c data); [| discriminate].
        destruct (fallback_tokens E c a a0 (after_tick (after_tick w))) as [[tk' | e'] w''];
          [| discriminate].
        injection Htry as <- _. reflexivity.
      * destruct (is_JSONDecodeError e) eqn:He; [| discriminate].
        injection Htry as <- _.
        repeat split; intros; try lia.
        -- match goal with H : Raise _ = Raise _ |- _ => injection H as -> end. reflexivity.
        -- match goal with H : Raise _ = Raise _ |- _ => injection H as -> end. congruence.
        -- discriminate.
    + intro Hpost. unfold call_api_try in Htry. fold body in Htry. rewrite Hpost in Htry.
      discriminate.
    + intros msg Hpost. unfold call_api_try in Htry. fold body in Htry.
      rewrite Hpost in Htry. discriminate.
    + intros e Hpost. unfold call_api_try in Htry. fold body in Htry.
      rewrite Hpost in Htry. discriminate.
  - exists (failure (handler_message c e)), w'. split; [reflexivity |].
    split; [apply failure_well_tagged |].
    split; [| split; [| split]].
    + intros s text Hpost.
      rewrite (call_api_try_response E c body start _ s text Hpost) in Htry.
      destruct (status_failure_cases s)
        as [[Hs H] | [[Hs H] | [[Hs H] | [[Hs H] | [(Hs & H1 & H2 & H3 & H4 & H) | [Hs H]]]]]];
        rewrite H in Htry; try discriminate Htry.
      destruct (json_loads E text) as [data | e0] eqn:Hj.
      * repeat split; intros; try lia; try discriminate.
      * destruct (is_JSONDecodeError e0) eqn:He; [discriminate |].
        injection Htry as -> _.
        repeat split; intros; try lia.
        -- match goal with H : Raise _ = Raise _ |- _ => injection H as -> end.
           discriminate He.
        -- match goal with H : Raise _ = Raise _ |- _ => injection H as -> end. reflexivity.
        -- discriminate.
    + intro Hpost. unfold call_api_try in Htry. fold body in Htry. rewrite Hpost in Htry.
      injection Htry as <- _. reflexivity.
    + intros msg Hpost. unfold call_api_try in Htry. fold body in Htry.
      rewrite Hpost in Htry. injection Htry as <- _. reflexivity.
    + intros e0 Hpost Hnt Hnc. unfold call_api_try in Htry. fold body in Htry.
      rewrite Hpost in Htry. injection Htry as <- _.
      destruct e0; try reflexivity; [contradiction Hnt; reflexivity |].
      exfalso. apply (Hnc msg). reflexivity.
Qed.

End BufferedCall.

(** ** client.py: the streaming call *)

Section StreamingCall.

Lemma keeps_ret {A} (a : A) : keeps_calls (ret a).
Proof. intro w. reflexivity. Qed.

Lemma keeps_raise {A} (e : exn) : keeps_calls (@raise A e).
Proof. intro w. reflexivity. Qed.

Lemma keeps_lift {A} (r : Res A) : keeps_calls (lift r).
Proof. intro w. reflexivity. Qed.

Lemma keeps_perf_counter (E : Env) : keeps_calls (perf_counter E).
Proof. intro w. reflexivity. Qed.

Lemma keeps_bind {A B} (m : M A) (k : A -> M B) :
  keeps_calls m -> (forall a, keeps_calls (k a)) -> keeps_calls (bind m k).
Proof.
  intros Hm Hk w. unfold bind. specialize (Hm w).
  destruct (m w) as [[a | e] w1]; simpl in Hm.
  - rewrite (Hk a w1). exact Hm.
  - exact Hm.
Qed.

Lemma keeps_try_except {A} (body : M A) (handles : exn -> bool) (handler : exn -> M A) :
  keeps_calls body -> (forall e, keeps_calls (handler e)) ->
  keeps_calls (try_except body handles handler).
Proof.
  intros Hb Hh w. unfold try_except. specialize (Hb w).
  destruct (body w) as [[a | e] w1]; simpl in Hb.
  - exact Hb.
  - destruct (handles e); [rewrite (Hh e w1) |]; exact Hb.
Qed.

Lemma keeps_if {A} (b : bool) (m1 m2 : M A) :
  keeps_calls m1 -> keeps_calls m2 -> keeps_calls (if b then m1 else m2).
Proof. destruct b; auto. Qed.

Ltac keeps :=
  repeat first
    [ apply keeps_ret | apply keeps_raise | apply keeps_lift | apply keeps_perf_counter
    | apply keeps_bind; [| intro]
    | apply keeps_try_except; [| intro]
    | apply keeps_if
    | match goal with |- keeps_calls (match ?x with _ => _ end) => destruct x end ].

Lemma keeps_stamp_if_none (E : Env) (start : Q) (t : option Q) :
  keeps_calls (stamp_if_none E start t).
Proof. unfold stamp_if_none. keeps. Qed.

Lemma keeps_responses_event (E : Env) (start : Q) (chunk : pyval) (st : stream_state) :
  keeps_calls (responses_event E start chunk st).
Proof.
  unfold responses_event.
  repeat first [ apply keeps_stamp_if_none | progress keeps ].
Qed.

Lemma keeps_chat_event (E : Env) (start : Q) (chunk : pyval) (st : stream_state) :
  keeps_calls (chat_event E start chunk st).
Proof.
  unfold chat_event.
  repeat first [ apply keeps_stamp_if_none | progress keeps ].
Qed.

Lemma keeps_stream_event (E : Env) (c : LLMClient) (start : Q) (chunk : pyval)
  (st : stream_state) : keeps_calls (stream_event E c start chunk st).
Proof.
  unfold stream_event. apply keeps_if; [apply keeps_responses_event | apply keeps_chat_event].
Qed.

Lemma keeps_sse_loop (E : Env) (c : LLMClient) (start : Q) (lines : list string)
  (st : stream_state) : keeps_calls (sse_loop E c start lines st).
Proof.
  revert st. induction lines as [| line rest IH]; intro st; simpl.
  - apply keeps_ret.
  - destruct (classify_line line).
    + apply IH.
    + apply keeps_ret.
    + apply keeps_bind; [| intro st'; apply IH].
      apply keeps_try_except; [| intro; apply keeps_ret].
      apply keeps_bind; [apply keeps_lift | intro; apply keeps_stream_event].
Qed.

Lemma token_count_str (E : Env) (s : string) (model : string) :
  exists n, token_count E (PStr s) model = Ret n.
Proof.
  unfold token_count, res_try.
  destruct (res_bind _ _) as [n | e]; [exists n; reflexivity |].
  simpl. eexists. reflexivity.
Qed.

Lemma TimingMetrics_init_stream (total : Q) (st : stream_state) :
  TimingMetrics_init total (stream_timing_kwargs st) = Raise ttfr_keyword_error.
Proof. reflexivity. Qed.

Lemma stream_finish_run (E : Env) (c : LLMClient) (start : Q) (st : stream_state)
  (w : World) :
  stream_finish E c start st w
  = match py_join (content_chunks st) with
    | Raise e => (Raise e, after_tick w)
    | Ret full =>
        (Raise ttfr_keyword_error,
         if needs_fallback (stream_completion_tokens st) (PStr full)
         then logged (after_tick w) (PStr full) (model c)
         else after_tick w)
    end.
Proof.
  unfold stream_finish. unfold bind at 1. unfold perf_counter. fold (after_tick w).
  unfold bind at 1. unfold lift at 1.
  destruct (py_join (content_chunks st)) as [full | e]; [| reflexivity].
  unfold bind at 1. fold (needs_fallback (stream_completion_tokens st) (PStr full)).
  destruct (needs_fallback (stream_completion_tokens st) (PStr full)).
  - unfold bind at 1. rewrite count_tokens_tiktoken_run.
    destruct (token_count_str E full (model c)) as [n Hn]. rewrite Hn.
    unfold ret at 1. unfold bind, lift. rewrite TimingMetrics_init_stream. reflexivity.
  - unfold ret at 1. unfold bind, lift. rewrite TimingMetrics_init_stream. reflexivity.
Qed.

Lemma call_api_stream_run (E : Env) (c : LLMClient) (prompt : string) (w : World) :
  call_api_stream E c prompt w
  = match call_api_stream_try E c (_build_request_body c prompt true) (clock E (ticks w))
            (after_tick w) with
    | (Ret r, w') => (Ret r, w')
    | (Raise e, w') => (Ret (failure (handler_message c e)), w')
    end.
Proof.
  unfold call_api_stream, bind, perf_counter, try_except. fold (after_tick w).
  destruct (call_api_stream_try _ _ _ _ _) as [[r | e] w']; [reflexivity |].
  apply call_handlers_run.
Qed.

Lemma call_api_stream_try_response (E : Env) (c : LLMClient) (body : pyval) (start : Q)
  (w : World) (s : Z) (lines : list string) (broken : option exn) :
  http_stream E (endpoint c) (headers c) body = StreamResponse s lines broken ->
  call_api_stream_try E c body start w
  = match status_failure s with
    | Some r => (Ret r, w)
    | None =>
        match sse_loop E c start lines initial_stream_state w with
        | (Raise e, w1) => (Raise e, w1)
        | (Ret (st, left_by_break), w1) =>
            match left_by_break, broken with
            | false, Some e => (Raise e, w1)
            | _, _ => stream_finish E c start st w1
            end
        end
    end.
Proof.
  intro H. unfold call_api_stream_try. rewrite H.
  destruct (status_failure s); [reflexivity |].
  unfold bind.
  destruct (sse_loop E c start lines initial_stream_state w) as [[[st b] | e] w1];
    [| reflexivity].
  destruct b, broken; reflexivity.
Qed.

(** The streaming call never hands back a success: with status 200 and a
    stream read to its end, the keyword [ttfr_ms] makes the [TimingMetrics]
    constructor raise, and the last [except] clause turns that into a
    failure. *)
Lemma call_api_stream_try_never_succeeds (E : Env) (c : LLMClient) (body : pyval)
  (start : Q) (w : World) (r : LLMResponse) (w' : World) :
  call_api_stream_try E c body start w = (Ret r, w') -> exists msg, r = failure msg.
Proof.
  destruct (http_stream E (endpoint c) (headers c) body) as [e | s lines broken] eqn:Hs.
  - unfold call_api_stream_try. rewrite Hs. discriminate.
  - rewrite (call_api_stream_try_response E c body start w s lines broken Hs).
    destruct (status_failure s) as [r0 |] eqn:Hst.
    + intro H. injection H as <- _. apply (status_failure_is_failure s r0 Hst).
    + destruct (sse_loop E c start lines initial_stream_state w) as [[[st b] | e] w1];
        [| discriminate].
      assert (Hfin : stream_finish E c start st w1 = (Ret r, w') -> exists msg, r = failure msg).
      { rewrite stream_finish_run. destruct (py_join (content_chunks st)); discriminate. }
      destruct b, broken; try exact Hfin. discriminate.
Qed.

(** X1: whatever the transport, the stream and the clock do, the streaming
    call returns a failure. *)
Theorem call_api_stream_never_succeeds (E : Env) (c : LLMClient) (prompt : string)
  (w : World) :
  exists (msg : error_message_t) (w' : World),
    call_api_stream E c prompt w = (Ret (failure msg), w').
Proof.
  rewrite call_api_stream_run.
  destruct (call_api_stream_try _ _ _ _ _) as [[r | e] w'] eqn:Htry.
  - destruct (call_api_stream_try_never_succeeds _ _ _ _ _ _ _ Htry) as [msg ->].
    exists msg, w'. reflexivity.
  - exists (handler_message c e), w'. reflexivity.
Qed.

Ltac step_hyp H :=
  repeat first
    [ progress (unfold bind, lift, ret, raise in H)
    | match type of H with
      | context [match ?x with _ => _ end] => destruct x eqn:?
      | context [if ?x then _ else _] => destruct x eqn:?
      end
    | discriminate H ].

Lemma stamp_if_none_run (E : Env) (start : Q) (t : option Q) (w : World) :
  stamp_if_none E start t w
  = match t with
    | Some x => (Ret (Some x), w)
    | None => (Ret (Some (elapsed_ms E start w)), after_tick w)
    end.
Proof. destruct t; reflexivity. Qed.

Lemma responses_event_step (E : Env) (start : Q) (chunk : pyval) (st st' : stream_state)
  (w w' : World) :
  responses_event E start chunk st w = (Ret st', w') -> content_step E start w st st'.
Proof.
  unfold responses_event. intro H.
  unfold bind at 1 in H. unfold lift at 1 in H.
  destruct (py_get chunk "type" (PStr "")) as [ty | e]; [| discriminate H].
  destruct (py_eq_str ty "response.output_text.delta").
  - unfold bind at 1 in H. unfold lift at 1 in H.
    destruct (py_get chunk "delta" (PStr "")) as [delta | e]; [| discriminate H].
    destruct (truthy delta) eqn:Htr.
    + unfold bind in H. rewrite stamp_if_none_run in H. unfold ret in H.
      right. exists delta. split; [exact Htr |].
      destruct (ttft st); injection H as <- _; split; reflexivity.
    + injection H as <- _. left. split; reflexivity.
  - left. step_hyp H; try (injection H as <- _); try (split; reflexivity);
      rewrite stamp_if_none_run in *; step_hyp H.
    all: try (injection H as <- _); try (split; reflexivity).
    all: repeat match goal with
           | H : (_, _) = (_, _) |- _ => injection H as ? ?; subst
           | H : Ret _ = Ret _ |- _ => injection H as ?; subst
           end; try (split; reflexivity); try discriminate.
Qed.

Lemma chat_event_step (E : Env) (start : Q) (chunk : pyval) (st st' : stream_state)
  (w w' : World) :
  chat_event E start chunk st w = (Ret st', w') -> content_step E start w st st'.
Proof.
  unfold chat_event. intro H.
  unfold bind at 1 in H. unfold lift at 1 in H.
  destruct (py_get chunk "choices" (PList [])) as [choices | e]; [| discriminate H].
  unfold bind at 1 in H.
  destruct (truthy choices).
  - unfold bind at 1 in H. unfold lift at 1 in H.
    destruct (py_index0 choices) as [first | e]; [| discriminate H].
    unfold bind at 1 in H. unfold lift at 1 in H.
    destruct (py_get first "delta" (PDict [])) as [delta | e]; [| discriminate H].
    unfold bind at 1 in H. unfold lift at 1 in H.
    destruct (py_get delta "content" (PStr "")) as [chunk_content | e]; [| discriminate H].
    destruct (truthy chunk_content) eqn:Htr.
    + unfold bind at 1 in H. rewrite stamp_if_none_run in H.
      right. exists chunk_content. split; [exact Htr |].
      destruct (ttft st); unfold ret at 1 in H; step_hyp H;
        injection H as <- _; split; reflexivity.
    + unfold ret at 1 in H. left. step_hyp H; injection H as <- _; split; reflexivity.
  - unfold ret at 1 in H. left. step_hyp H; injection H as <- _; split; reflexivity.
Qed.

Lemma stream_event_step (E : Env) (c : LLMClient) (start : Q) (chunk : pyval)
  (st st' : stream_state) (w w' : World) :
  stream_event E c start chunk st w = (Ret st', w') -> content_step E start w st st'.
Proof.
  unfold stream_event. destruct (is_responses_api c);
    [apply responses_event_step | apply chat_event_step].
Qed.

(** the body of the loop for one data line *)
Lemma data_line_step (E : Env) (c : LLMClient) (start : Q) (data_str : string)
  (st st' : stream_state) (w w' : World) :
  try_except
    (chunk_data <- lift (json_loads E data_str) ;;
     stream_event E c start chunk_data st)
    is_JSONDecodeError (fun _ => ret st) w = (Ret st', w') ->
  content_step E start w st st'.
Proof.
  unfold try_except, bind, lift.
  destruct (json_loads E data_str) as [chunk | e].
  - destruct (stream_event E c start chunk st w) as [[st1 | e] w1] eqn:Hev.
    + intro H. injection H as <- _. apply (stream_event_step _ _ _ _ _ _ _ _ Hev).
    + destruct (is_JSONDecodeError e); [| discriminate].
      intro H. injection H as <- _. left. split; reflexivity.
  - destruct (is_JSONDecodeError e); [| discriminate].
    intro H. injection H as <- _. left. split; reflexivity.
Qed.

Lemma content_step_keeps_ttft (E : Env) (start : Q) (w : World) (st st' : stream_state)
  (t : Q) :
  content_step E start w st st' -> ttft st = Some t -> ttft st' = Some t.
Proof.
  intros [[_ H] | (frag & _ & _ & H)] Ht; rewrite H, Ht; reflexivity.
Qed.

Lemma content_step_invariant (E : Env) (start : Q) (w : World) (st st' : stream_state) :
  content_step E start w st st' ->
  (ttft st = None <-> content_chunks st = []) ->
  (ttft st' = None <-> content_chunks st' = []).
Proof.
  intros [[Hc Ht] | (frag & _ & Hc & Ht)] Hinv.
  - rewrite Hc, Ht. exact Hinv.
  - rewrite Hc, Ht. split.
    + destruct (ttft st); discriminate.
    + intro H. destruct (content_chunks st); discriminate H.
Qed.

(** X2: once set, [ttft] keeps its value to the end of the loop. *)
Lemma sse_loop_keeps_ttft (E : Env) (c : LLMClient) (start : Q) (lines : list string)
  (st st' : stream_state) (b : bool) (w w' : World) (t : Q) :
  sse_loop E c start lines st w = (Ret (st', b), w') ->
  ttft st = Some t -> ttft st' = Some t.
Proof.
  revert st w. induction lines as [| line rest IH]; intros st w H Ht; simpl in H.
  - injection H as <- _ _. exact Ht.
  - destruct (classify_line line).
    + apply (IH st w H Ht).
    + injection H as <- _ _. exact Ht.
    + unfold bind at 1 in H.
      destruct (try_except _ _ _ w) as [[st1 | e] w1] eqn:Hline; [| discriminate H].
      apply (IH st1 w1 H).
      apply (content_step_keeps_ttft E start w st st1); [| exact Ht].
      apply (data_line_step E c start data_str st st1 w w1 Hline).
Qed.

(** X3: [ttft] is set exactly when a content fragment has been appended. *)
Lemma sse_loop_ttft_invariant (E : Env) (c : LLMClient) (start : Q) (lines : list string)
  (st st' : stream_state) (b : bool) (w w' : World) :
  sse_loop E c start lines st w = (Ret (st', b), w') ->
  (ttft st = None <-> content_chunks st = []) ->
  (ttft st' = None <-> content_chunks st' = []).
Proof.
  revert st w. induction lines as [| line rest IH]; intros st w H Hinv; simpl in H.
  - injection H as <- _ _. exact Hinv.
  - destruct (classify_line line).
    + apply (IH st w H Hinv).
    + injection H as <- _ _. exact Hinv.
    + unfold bind at 1 in H.
      destruct (try_except _ _ _ w) as [[st1 | e] w1] eqn:Hline; [| discriminate H].
      apply (IH st1 w1 H).
      apply (content_step_invariant E start w st st1); [| exact Hinv].
      apply (data_line_step E c start data_str st st1 w w1 Hline).
Qed.

End StreamingCall.

(** ** The fallback tokenizer *)

Section Fallback.

Lemma after_tick_calls (w : World) : tokenizer_calls (after_tick w) = tokenizer_calls w.
Proof. reflexivity. Qed.

Lemma status_failure_200 : status_failure 200 = None.
Proof. reflexivity. Qed.

Lemma status_failure_None (s : Z) : status_failure s = None -> s = 200.
Proof.
  destruct (status_failure_cases s)
    as [[_ H] | [[_ H] | [[_ H] | [[_ H] | [(_ & _ & _ & _ & _ & H) | [Hs _]]]]]];
    try (rewrite H; discriminate). intros _. exact Hs.
Qed.

Lemma call_api_calls (E : Env) (c : LLMClient) (prompt : string) (w : World) :
  tokenizer_calls (snd (call_api E c prompt w))
  = (tokenizer_calls w ++ buffered_fallback_calls E c prompt)%list.
Proof.
  rewrite call_api_run. unfold buffered_fallback_calls.
  set (body := _build_request_body c prompt false).
  set (start := clock E (ticks w)).
  assert (Hsnd : forall (x : Res LLMResponse * World),
             snd (match x with
                  | (Ret r, w') => (Ret r, w')
                  | (Raise e, w') => (Ret (failure (handler_message c e)), w')
                  end) = snd x).
  { intros [[r | e] w']; reflexivity. }
  rewrite Hsnd.
  destruct (http_post E (endpoint c) (headers c) body) as [e | s text] eqn:Hpost.
  - unfold call_api_try. rewrite Hpost. simpl. rewrite app_nil_r. reflexivity.
  - rewrite (call_api_try_response E c body start _ s text Hpost).
    destruct (status_failure s) as [r0 |]; [simpl; rewrite app_nil_r; reflexivity |].
    destruct (json_loads E text) as [data | e].
    + rewrite buffered_success_run.
      destruct (_extract_content_from_response c data) as [content | e];
        [| simpl; rewrite app_nil_r; reflexivity].
      destruct (_extract_tokens_from_response c data) as [tk | e];
        [| simpl; rewrite app_nil_r; reflexivity].
      rewrite fallback_tokens_run.
      destruct (needs_fallback (completion_tokens tk) content).
      * destruct (res_bind _ _); reflexivity.
      * simpl. rewrite app_nil_r. reflexivity.
    + destruct (is_JSONDecodeError e); simpl; rewrite app_nil_r; reflexivity.
Qed.

Lemma stream_finish_calls (E : Env) (c : LLMClient) (start : Q) (st : stream_state)
  (w : World) :
  tokenizer_calls (snd (stream_finish E c start st w))
  = (tokenizer_calls w
     ++ match py_join (content_chunks st) with
        | Ret full =>
            if needs_fallback (stream_completion_tokens st) (PStr full)
            then [(PStr full, model c)] else []
        | Raise _ => []
        end)%list.
Proof.
  rewrite stream_finish_run.
  destruct (py_join (content_chunks st)) as [full | e];
    [| simpl; rewrite app_nil_r; reflexivity].
  destruct (needs_fallback (stream_completion_tokens st) (PStr full)); simpl;
    [| rewrite app_nil_r]; reflexivity.
Qed.

Lemma call_api_stream_calls (E : Env) (c : LLMClient) (prompt : string) (w : World) :
  tokenizer_calls (snd (call_api_stream E c prompt w))
  = (tokenizer_calls w ++ streaming_fallback_calls E c prompt w)%list.
Proof.
  rewrite call_api_stream_run. unfold streaming_fallback_calls.
  set (body := _build_request_body c prompt true).
  set (start := clock E (ticks w)).
  assert (Hsnd : forall (x : Res LLMResponse * World),
             snd (match x with
                  | (Ret r, w') => (Ret r, w')
                  | (Raise e, w') => (Ret (failure (handler_message c e)), w')
                  end) = snd x).
  { intros [[r | e] w']; reflexivity. }
  rewrite Hsnd.
  destruct (http_stream E (endpoint c) (headers c) body) as [e | s lines broken] eqn:Hs.
  - unfold call_api_stream_try. rewrite Hs. simpl. rewrite app_nil_r. reflexivity.
  - rewrite (call_api_stream_try_response E c body start _ s lines broken Hs).
    destruct (status_failure s) as [r0 |]; [simpl; rewrite app_nil_r; reflexivity |].
    pose proof (keeps_sse_loop E c start lines initial_stream_state (after_tick w)) as Hk.
    destruct (sse_loop E c start lines initial_stream_state (after_tick w))
      as [[[st b] | e] w1]; simpl in Hk.
    + assert (Hfin : tokenizer_calls (snd (stream_finish E c start st w1))
                     = (tokenizer_calls w
                        ++ match py_join (content_chunks st) with
                           | Ret full =>
                               if needs_fallback (stream_completion_tokens st) (PStr full)
                               then [(PStr full, model c)] else []
                           | Raise _ => []
                           end)%list).
      { rewrite stream_finish_calls, Hk. reflexivity. }
      destruct b, broken; try exact Hfin.
      simpl. rewrite Hk, app_nil_r. reflexivity.
    + simpl. rewrite Hk, app_nil_r. reflexivity.
Qed.

Lemma needs_fallback_iff (completion content : pyval) :
  needs_fallback completion content = true
  <-> py_eq_zero completion = true /\ truthy content = true.
Proof. unfold needs_fallback. apply andb_true_iff. Qed.

Lemma needs_fallback_int_str (n : Z) (s : string) :
  needs_fallback (PInt n) (PStr s) = true <-> n = 0 /\ s <> ""%string.
Proof.
  rewrite needs_fallback_iff. simpl. rewrite Z.eqb_eq, negb_true_iff.
  split; intros [H1 H2]; split; try exact H1.
  - intro Hs. apply String.eqb_eq in Hs. congruence.
  - destruct (String.eqb_spec s ""); [contradiction | reflexivity].
Qed.

Lemma app_one_neq {A} (l : list A) (a : A) : (l ++ [a])%list <> l.
Proof.
  intro H. apply (f_equal (@List.length A)) in H. rewrite length_app in H. simpl in H. lia.
Qed.

(** C4: in both calls the fallback tokenizer runs exactly when the call got
    as far as a decoded 200 response (for the streaming call: the end of the
    stream), the completion count read from the usage data is zero and the
    content is non-empty; it is then called once, with the content and the
    model. In the buffered call the completion count becomes the
    tokenizer's count and the total becomes prompt + completion. *)
Theorem fallback_tokenizer_iff :
  (* buffered: when the tokenizer runs *)
  (forall (E : Env) (c : LLMClient) (prompt : string) (w : World),
      tokenizer_calls (snd (call_api E c prompt w)) <> tokenizer_calls w <->
      exists text data content tk,
        http_post E (endpoint c) (headers c) (_build_request_body c prompt false)
        = PostResponse 200 text /\
        json_loads E text = Ret data /\
        _extract_content_from_response c data = Ret content /\
        _extract_tokens_from_response c data = Ret tk /\
        py_eq_zero (completion_tokens tk) = true /\ truthy content = true) /\
  (* buffered: what it is called with, and what becomes of the counts *)
  (forall (E : Env) (c : LLMClient) (prompt : string) (w : World) text data content tk,
      http_post E (endpoint c) (headers c) (_build_request_body c prompt false)
      = PostResponse 200 text ->
      json_loads E text = Ret data ->
      _extract_content_from_response c data = Ret content ->
      _extract_tokens_from_response c data = Ret tk ->
      py_eq_zero (completion_tokens tk) = true -> truthy content = true ->
      tokenizer_calls (snd (call_api E c prompt w))
      = (tokenizer_calls w ++ [(content, model c)])%list /\
      forall n p,
        token_count E content (model c) = Ret n -> prompt_tokens tk = PInt p ->
        exists r, fst (call_api E c prompt w) = Ret r /\ success r = true /\
                  resp_tokens r
                  = Some (mkTokenMetrics (PInt p) (PInt n) (PInt (p + n)))) /\
  (* streaming: when the tokenizer runs *)
  (forall (E : Env) (c : LLMClient) (prompt : string) (w : World),
      tokenizer_calls (snd (call_api_stream E c prompt w)) <> tokenizer_calls w <->
      exists lines broken st left_by_break w1 full,
        http_stream E (endpoint c) (headers c) (_build_request_body c prompt true)
        = StreamResponse 200 lines broken /\
        sse_loop E c (clock E (ticks w)) lines initial_stream_state (after_tick w)
        = (Ret (st, left_by_break), w1) /\
        (left_by_break = true \/ broken = None) /\
        py_join (content_chunks st) = Ret full /\
        py_eq_zero (stream_completion_tokens st) = true /\ full <> ""%string) /\
  (* streaming: what it is called with *)
  (forall (E : Env) (c : LLMClient) (prompt : string) (w : World)
          lines broken st left_by_break w1 full,
      http_stream E (endpoint c) (headers c) (_build_request_body c prompt true)
      = StreamResponse 200 lines broken ->
      sse_loop E c (clock E (ticks w)) lines initial_stream_state (after_tick w)
      = (Ret (st, left_by_break), w1) ->
      (left_by_break = true \/ broken = None) ->
      py_join (content_chunks st) = Ret full ->
      py_eq_zero (stream_completion_tokens st) = true -> full <> ""%string ->
      tokenizer_calls (snd (call_api_stream E c prompt w))
      = (tokenizer_calls w ++ [(PStr full, model c)])%list) /\
  (* an int count is zero, a str content is non-empty *)
  (forall (n : Z) (s : string),
      (py_eq_zero (PInt n) = true /\ truthy (PStr s) = true) <-> (n = 0 /\ s <> ""%string)).
Proof.
  split; [| split; [| split; [| split]]].
  - intros E c prompt w. rewrite call_api_calls. unfold buffered_fallback_calls. split.
    + intro Hne.
      destruct (http_post _ _ _ _) as [e | s text] eqn:Hpost;
        [rewrite app_nil_r in Hne; contradiction Hne; reflexivity |].
      destruct (status_failure s) as [r0 |] eqn:Hst;
        [rewrite app_nil_r in Hne; contradiction Hne; reflexivity |].
      apply status_failure_None in Hst. subst s.
      destruct (json_loads E text) as [data | e] eqn:Hj;
        [| rewrite app_nil_r in Hne; contradiction Hne; reflexivity].
      destruct (_extract_content_from_response c data) as [content | e] eqn:Hc;
        [| rewrite app_nil_r in Hne; contradiction Hne; reflexivity].
      destruct (_extract_tokens_from_response c data) as [tk | e] eqn:Htk;
        [| rewrite app_nil_r in Hne; contradiction Hne; reflexivity].
      destruct (needs_fallback (completion_tokens tk) content) eqn:Hnf;
        [| rewrite app_nil_r in Hne; contradiction Hne; reflexivity].
      apply needs_fallback_iff in Hnf. destruct Hnf as [Hz Ht].
      exists text, data, content, tk. repeat split; first [assumption | reflexivity].
    + intros (text & data & content & tk & Hpost & Hj & Hc & Htk & Hz & Ht).
      rewrite Hpost, status_failure_200, Hj, Hc, Htk.
      rewrite (proj2 (needs_fallback_iff _ _) (conj Hz Ht)). apply app_one_neq.
  - intros E c prompt w text data content tk Hpost Hj Hc Htk Hz Ht.
    pose proof (proj2 (needs_fallback_iff _ _) (conj Hz Ht)) as Hnf.
    split.
    + rewrite call_api_calls. unfold buffered_fallback_calls.
      rewrite Hpost, status_failure_200, Hj, Hc, Htk, Hnf. reflexivity.
    + intros n p Hn Hp. rewrite call_api_run.
      rewrite (call_api_try_response E c _ _ _ 200 text Hpost).
      rewrite status_failure_200, Hj, buffered_success_run, Hc, Htk, fallback_tokens_run.
      rewrite Hnf, Hn, Hp. simpl. eexists. repeat split.
  - intros E c prompt w. rewrite call_api_stream_calls. unfold streaming_fallback_calls.
    split.
    + intro Hne.
      destruct (http_stream _ _ _ _) as [e | s lines broken] eqn:Hs;
        [rewrite app_nil_r in Hne; contradiction Hne; reflexivity |].
      destruct (status_failure s) as [r0 |] eqn:Hst;
        [rewrite app_nil_r in Hne; contradiction Hne; reflexivity |].
      apply status_failure_None in Hst. subst s.
      destruct (sse_loop _ _ _ _ _ _) as [[[st b] | e] w1] eqn:Hloop;
        [| rewrite app_nil_r in Hne; contradiction Hne; reflexivity].
      assert (Hreach : b = true \/ broken = None).
      { destruct b; [left; reflexivity |]. destruct broken; [| right; reflexivity].
        rewrite app_nil_r in Hne. contradiction Hne. reflexivity. }
      assert (Hcalls :
                (tokenizer_calls w
                 ++ match py_join (content_chunks st) with
                    | Ret full =>
                        if needs_fallback (stream_completion_tokens st) (PStr full)
                        then [(PStr full, model c)] else []
                    | Raise _ => []
                    end)%list <> tokenizer_calls w).
      { destruct b, broken; try exact Hne. destruct Hreach; discriminate. }
      destruct (py_join (content_chunks st)) as [full | e] eqn:Hjoin;
        [| rewrite app_nil_r in Hcalls; contradiction Hcalls; reflexivity].
      destruct (needs_fallback (stream_completion_tokens st) (PStr full)) eqn:Hnf;
        [| rewrite app_nil_r in Hcalls; contradiction Hcalls; reflexivity].
      apply needs_fallback_iff in Hnf. destruct Hnf as [Hz Ht].
      exists lines, broken, st, b, w1, full.
      split; [reflexivity |]. split; [exact Hloop |]. split; [exact Hreach |].
      split; [exact Hjoin |]. split; [exact Hz |].
      intro Hfull. subst full. discriminate Ht.
    + intros (lines & broken & st & b & w1 & full & Hs & Hloop & Hreach & Hjoin & Hz
              & Hfull).
      rewrite Hs, status_failure_200, Hloop, Hjoin.
      assert (Hnf : needs_fallback (stream_completion_tokens st) (PStr full) = true).
      { apply needs_fallback_iff. split; [exact Hz |]. simpl.
        destruct (String.eqb_spec full ""); [contradiction | reflexivity]. }
      rewrite Hnf.
      destruct b, broken; try apply app_one_neq. destruct Hreach; discriminate.
  - intros E c prompt w lines broken st b w1 full Hs Hloop Hreach Hjoin Hz Hfull.
    rewrite call_api_stream_calls. unfold streaming_fallback_calls.
    rewrite Hs, status_failure_200, Hloop, Hjoin.
    assert (Hnf : needs_fallback (stream_completion_tokens st) (PStr full) = true).
    { apply needs_fallback_iff. split; [exact Hz |]. simpl.
      destruct (String.eqb_spec full ""); [contradiction | reflexivity]. }
    rewrite Hnf.
    destruct b, broken; try reflexivity. destruct Hreach; discriminate.
  - intros n s. rewrite <- needs_fallback_iff. apply needs_fallback_int_str.
Qed.

End Fallback.

(** ** Concrete runs *)

Section ConcreteRuns.

(** The buffered scenario of the specification: content ["hi"], tokens
    (5, 1, 6). *)
Example call_api_scenario_success :
  fst (call_api (buffered_env usage_5_1_6_text usage_5_1_6) chat_client "hi" w0)
  = Ret (mkLLMResponse true (Some (PStr "hi"))
           (Some (mkTimingMetrics 1000 None))
           (Some (mkTokenMetrics (PInt 5) (PInt 1) (PInt 6))) None
           (Some (chat_body_value usage_5_1_6))).
Proof. vm_compute. reflexivity. Qed.

(** A usage object without a completion count: the tokenizer is called once
    on the content, and the total is recomputed. *)
Example call_api_fallback_run :
  call_api (buffered_env usage_5_text usage_5) chat_client "hi" w0
  = (Ret (mkLLMResponse true (Some (PStr "hi"))
            (Some (mkTimingMetrics 1000 None))
            (Some (mkTokenMetrics (PInt 5) (PInt 2) (PInt 7))) None
            (Some (chat_body_value usage_5))),
     mkWorld 2 [(PStr "hi", "gpt-4")]).
Proof. vm_compute. reflexivity. Qed.

(** The 429 scenario of the specification. *)
Example call_api_scenario_rate_limited :
  fst (call_api (status_env 429) chat_client "hi" w0) = Ret (failure ErrRateLimit).
Proof. vm_compute. reflexivity. Qed.

(** C1, on the code: in the streaming scenario of the specification the
    loop gathers what the specification expects (fragments a and b, two
    completion tokens, a ttft, no ttfr), but the call returns a failure:
    [TimingMetrics] has no field [ttfr_ms], its constructor raises
    [TypeError], and the last [except] clause reports it as an unknown
    error. *)
Theorem streaming_scenario_returns_failure :
  sse_loop (stream_env seconds scenario_lines) responses_client 0 scenario_lines
    initial_stream_state (mkWorld 1 [])
  = (Ret (mkStreamState (Some 1000%Q) None [PStr "a"; PStr "b"] (PInt 2), true),
     mkWorld 2 []) /\
  call_api_stream (stream_env seconds scenario_lines) responses_client "hi" w0
  = (Ret (failure (ErrUnknown ttfr_keyword_error)), mkWorld 3 []).
Proof. split; vm_compute; reflexivity. Qed.

(** C8, on the code: a stream that ends with [DONE] before any content
    fragment leaves [ttft] unset in the loop, but the call returns a failure
    without any Timing, for the reason given at C1. *)
Theorem streaming_without_fragments_returns_failure :
  sse_loop (stream_env seconds ["data: [DONE]"]) responses_client 0 ["data: [DONE]"]
    initial_stream_state (mkWorld 1 [])
  = (Ret (initial_stream_state, true), mkWorld 1 []) /\
  ttft initial_stream_state = None /\
  call_api_stream (stream_env seconds ["data: [DONE]"]) responses_client "hi" w0
  = (Ret (failure (ErrUnknown ttfr_keyword_error)), mkWorld 2 []) /\
  resp_timing (failure (ErrUnknown ttfr_keyword_error)) = None.
Proof. repeat split; vm_compute; reflexivity. Qed.

(** C10, on the code: with a clock that does not advance the first fragment
    is stamped 0.0 ms and the keyword argument computed for [ttft_ms] is
    [None], but no Timing is returned: the call fails for the reason given at
    C1, and [run_single_test] records an error. *)
Theorem streaming_zero_ttft_returns_failure :
  sse_loop (stream_env frozen scenario_lines) responses_client 0 scenario_lines
    initial_stream_state (mkWorld 1 [])
  = (Ret (mkStreamState (Some 0%Q) None [PStr "a"; PStr "b"] (PInt 2), true),
     mkWorld 2 []) /\
  stream_timing_kwargs (mkStreamState (Some 0%Q) None [PStr "a"; PStr "b"] (PInt 2))
  = [("ttft_ms", None); ("ttfr_ms", None)] /\
  call_api_stream (stream_env frozen scenario_lines) responses_client "hi" w0
  = (Ret (failure (ErrUnknown ttfr_keyword_error)), mkWorld 3 []) /\
  fst (run_single_test (stream_env frozen scenario_lines) responses_client "hi" true w0)
  = Ret (mkTestResult "hi" "error" (Some (ErrUnknown ttfr_keyword_error))
           None None None None).
Proof. repeat split; vm_compute; reflexivity. Qed.

End ConcreteRuns.

(** ** client.py: the token record of a buffered call *)

Section BufferedTokens.

Lemma extract_tokens_usage (c : LLMClient) (data : pyval) (u : list (string * pyval)) :
  py_get data "usage" (PDict []) = Ret (PDict u) ->
  _extract_tokens_from_response c data
  = Ret (mkTokenMetrics (reported u (prompt_key c)) (reported u (completion_key c))
           (reported u "total_tokens")).
Proof.
  intro H. unfold _extract_tokens_from_response, prompt_key, completion_key.
  rewrite H. simpl. destruct (is_responses_api c); reflexivity.
Qed.

Lemma call_api_success_inv (E : Env) (c : LLMClient) (prompt : string) (w : World)
  (r : LLMResponse) (w' : World) (text : string) (data : pyval) :
  call_api E c prompt w = (Ret r, w') -> success r = true ->
  http_post E (endpoint c) (headers c) (_build_request_body c prompt false)
  = PostResponse 200 text ->
  json_loads E text = Ret data ->
  exists ct tk tk',
    _extract_content_from_response c data = Ret ct /\
    _extract_tokens_from_response c data = Ret tk /\
    fst (fallback_tokens E c ct tk (after_tick (after_tick w))) = Ret tk' /\
    content r = Some ct /\ resp_tokens r = Some tk'.
Proof.
  intros Hrun Hok Hpost Hj. rewrite call_api_run in Hrun.
  rewrite (call_api_try_response E c _ _ _ 200 text Hpost) in Hrun.
  rewrite status_failure_200, Hj, buffered_success_run in Hrun.
  destruct (_extract_content_from_response c data) as [ct | e];
    [| injection Hrun as <- _; discriminate Hok].
  destruct (_extract_tokens_from_response c data) as [tk | e];
    [| injection Hrun as <- _; discriminate Hok].
  destruct (fallback_tokens E c ct tk (after_tick (after_tick w)))
    as [[tk' | e] w1] eqn:Hfb; [| injection Hrun as <- _; discriminate Hok].
  injection Hrun as <- _. exists ct, tk, tk'.
  repeat split; try reflexivity. rewrite Hfb. reflexivity.
Qed.

(** C2 fails on the code: a usage object with 5 prompt tokens and 1
    completion token and no [total_tokens] gives the record (5, 1, 0). *)
Lemma buffered_total_not_sum :
  fst (call_api (buffered_env usage_5_1_text usage_5_1) chat_client "hi" w0)
  = Ret (mkLLMResponse true (Some (PStr "hi"))
           (Some (mkTimingMetrics 1000 None))
           (Some (mkTokenMetrics (PInt 5) (PInt 1) (PInt 0))) None
           (Some (chat_body_value usage_5_1))) /\
  ~ total_is_sum_whenever_supplied (buffered_env usage_5_1_text usage_5_1) chat_client
      "hi" w0.
Proof.
  split; [vm_compute; reflexivity |].
  intro H.
  destruct (H (mkLLMResponse true (Some (PStr "hi"))
                 (Some (mkTimingMetrics 1000 None))
                 (Some (mkTokenMetrics (PInt 5) (PInt 1) (PInt 0))) None
                 (Some (chat_body_value usage_5_1)))
              (mkWorld 2 []) (chat_body_text usage_5_1_text)
              (chat_body_value usage_5_1) usage_5_1 5 1)
    as (tk & a & b & Htk & Ha & Hb & Ht);
    try (vm_compute; reflexivity).
  injection Htk as <-. simpl in Ha, Hb, Ht.
  injection Ha as <-. injection Hb as <-. discriminate Ht.
Qed.

(** C2, amended: when the usage object supplied a prompt count [p] and a
    completion count [n], the record keeps [p]; if the fallback tokenizer ran
    ([n] is zero and the content is non-empty) the completion count is the
    tokenizer's and the total is prompt + completion; otherwise the
    completion count is [n] and the total is the server's [total_tokens]
    (0 when absent), so that total = prompt + completion whenever the
    server's own total is that sum. *)
Theorem buffered_total_tokens (E : Env) (c : LLMClient) (prompt : string) (w : World)
  (r : LLMResponse) (w' : World) (text : string) (data : pyval)
  (u : list (string * pyval)) (p n : Z) :
  call_api E c prompt w = (Ret r, w') -> success r = true ->
  http_post E (endpoint c) (headers c) (_build_request_body c prompt false)
  = PostResponse 200 text ->
  json_loads E text = Ret data ->
  py_get data "usage" (PDict []) = Ret (PDict u) ->
  dict_lookup (prompt_key c) u = Some (PInt p) ->
  dict_lookup (completion_key c) u = Some (PInt n) ->
  exists content tk,
    _extract_content_from_response c data = Ret content /\
    resp_tokens r = Some tk /\
    prompt_tokens tk = PInt p /\
    (n = 0 /\ truthy content = true ->
     exists k, token_count E content (model c) = Ret k /\
               completion_tokens tk = PInt k /\ total_tokens tk = PInt (p + k)) /\
    (~ (n = 0 /\ truthy content = true) ->
     completion_tokens tk = PInt n /\ total_tokens tk = reported u "total_tokens") /\
    (reported u "total_tokens" = PInt (p + n) ->
     exists b, completion_tokens tk = PInt b /\ total_tokens tk = PInt (p + b)).
Proof.
  intros Hrun Hok Hpost Hj Hu Hp Hn.
  destruct (call_api_success_inv E c prompt w r w' text data Hrun Hok Hpost Hj)
    as (content & tk & tk' & Hc & Htk & Hfb & _ & Hr).
  rewrite (extract_tokens_usage c data u Hu) in Htk. injection Htk as <-.
  unfold reported in Hfb at 1 2 3. rewrite Hp, Hn in Hfb.
  rewrite fallback_tokens_run in Hfb. cbn [completion_tokens prompt_tokens] in Hfb.
  exists content, tk'. split; [exact Hc |]. split; [exact Hr |].
  destruct (needs_fallback (PInt n) content) eqn:Hnf.
  - apply needs_fallback_iff in Hnf. destruct Hnf as [Hz Ht].
    simpl in Hz. apply Z.eqb_eq in Hz. subst n.
    simpl in Hfb. destruct (token_count E content (model c)) as [k | e];
      [| discriminate Hfb].
    simpl in Hfb. injection Hfb as <-. cbn [prompt_tokens completion_tokens total_tokens].
    split; [reflexivity |]. split; [| split].
    + intros _. exists k. repeat split; reflexivity.
    + intro Hno. contradiction Hno. split; [reflexivity | exact Ht].
    + intros _. exists k. split; reflexivity.
  - simpl in Hfb. injection Hfb as <-. cbn [prompt_tokens completion_tokens total_tokens].
    split; [reflexivity |]. split; [| split].
    + intros [Hz Ht]. subst n.
      assert (needs_fallback (PInt 0) content = true)
        by (apply needs_fallback_iff; split; [reflexivity | exact Ht]).
      congruence.
    + intros _. split; reflexivity.
    + intro Htot. exists n. split; [reflexivity | exact Htot].
Qed.

Lemma buffered_total_tokens_witness :
  exists content tk,
    _extract_content_from_response chat_client (chat_body_value usage_5_1_6) = Ret content /\
    resp_tokens
      (mkLLMResponse true (Some (PStr "hi")) (Some (mkTimingMetrics 1000 None))
         (Some (mkTokenMetrics (PInt 5) (PInt 1) (PInt 6))) None
         (Some (chat_body_value usage_5_1_6))) = Some tk /\
    prompt_tokens tk = PInt 5 /\
    (reported usage_5_1_6 "total_tokens" = PInt (5 + 1) ->
     exists b, completion_tokens tk = PInt b /\ total_tokens tk = PInt (5 + b)).
Proof.
  destruct (buffered_total_tokens (buffered_env usage_5_1_6_text usage_5_1_6) chat_client
              "hi" w0
              (mkLLMResponse true (Some (PStr "hi")) (Some (mkTimingMetrics 1000 None))
                 (Some (mkTokenMetrics (PInt 5) (PInt 1) (PInt 6))) None
                 (Some (chat_body_value usage_5_1_6)))
              (mkWorld 2 []) (chat_body_text usage_5_1_6_text)
              (chat_body_value usage_5_1_6) usage_5_1_6 5 1)
    as (content & tk & Hc & Htk & Hp & _ & _ & Hsum);
    try (vm_compute; reflexivity).
  exists content, tk. repeat split; assumption.
Defined.

End BufferedTokens.

(** ** main.py: throughput of one test *)

Section SingleTest.

Lemma rounded_if_truthy_zero (x : Q) : (x == 0)%Q -> rounded_if_truthy (Some x) = None.
Proof.
  intro H. unfold rounded_if_truthy.
  apply Qeq_bool_iff in H. rewrite H. reflexivity.
Qed.

Lemma calculate_tps_zero_tokens (latency_ms : Q) :
  exists x, calculate_tps (PInt 0) latency_ms = Ret x /\ (x == 0)%Q.
Proof.
  unfold calculate_tps. destruct (Qle_bool latency_ms 0) eqn:Hl.
  - exists 0%Q. split; reflexivity.
  - apply Qle_bool_false_iff in Hl. unfold py_truediv, py_number, res_bind.
    rewrite Qeq_bool_false_of_neq.
    + eexists. split; [reflexivity |]. unfold Qdiv. apply Qmult_0_l.
    + intro H. unfold Qdiv in H. apply Qmult_integral in H.
      destruct H as [H | H]; [lra | discriminate H].
Qed.

(** X4: a buffered test whose computed throughput is exactly zero stores no
    throughput, and so adds nothing to the tps sample of a summary. *)
Theorem run_single_test_zero_tps (E : Env) (c : LLMClient) (p : string) (w w' : World)
  (r : LLMResponse) (tk : TokenMetrics) (tm : TimingMetrics) (x : Q) :
  call_api E c p w = (Ret r, w') -> success r = true ->
  resp_tokens r = Some tk -> resp_timing r = Some tm ->
  calculate_tps (completion_tokens tk) (total_latency_ms tm) = Ret x -> (x == 0)%Q ->
  run_single_test E c p false w
  = (Ret (mkTestResult p "success" None (content r) (Some tm) (Some tk) None), w') /\
  tps_samples [mkTestResult p "success" None (content r) (Some tm) (Some tk) None] = [].
Proof.
  intros Hrun Hok Htk Htm Htps Hx. split; [| reflexivity].
  unfold run_single_test. unfold bind at 1. rewrite Hrun, Hok, Htk, Htm.
  unfold bind, lift, ret. rewrite Htps, (rounded_if_truthy_zero x Hx). reflexivity.
Qed.

Lemma run_single_test_zero_tps_witness :
  fst (run_single_test empty_content_env chat_client "hi" false w0)
  = Ret (mkTestResult "hi" "success" None (Some (PStr ""))
           (Some (mkTimingMetrics 1000 None))
           (Some (mkTokenMetrics (PInt 0) (PInt 0) (PInt 0))) None).
Proof.
  destruct (run_single_test_zero_tps empty_content_env chat_client "hi" w0 (mkWorld 2 [])
              (mkLLMResponse true (Some (PStr "")) (Some (mkTimingMetrics 1000 None))
                 (Some (mkTokenMetrics (PInt 0) (PInt 0) (PInt 0))) None
                 (Some empty_body_value))
              (mkTokenMetrics (PInt 0) (PInt 0) (PInt 0)) (mkTimingMetrics 1000 None)
              (0 / (1000 / 1000))%Q) as [H _];
    [vm_compute; reflexivity .. | rewrite H; reflexivity].
Defined.

Lemma sse_loop_keeps_ttft_witness :
  ttft (mkStreamState (Some 1000%Q) None [PStr "a"; PStr "b"] (PInt 2)) = Some 1000%Q.
Proof.
  apply (sse_loop_keeps_ttft (stream_env seconds scenario_lines) responses_client 0
           ["data: " ++ delta_text "b"; "data: " ++ completed_text; "data: [DONE]"]
           (mkStreamState (Some 1000%Q) None [PStr "a"] (PInt 0))
           (mkStreamState (Some 1000%Q) None [PStr "a"; PStr "b"] (PInt 2))
           true (mkWorld 2 []) (mkWorld 2 []) 1000%Q);
    vm_compute; reflexivity.
Defined.

Lemma sse_loop_ttft_invariant_witness :
  ttft (mkStreamState (Some 1000%Q) None [PStr "a"; PStr "b"] (PInt 2)) = None <->
  content_chunks (mkStreamState (Some 1000%Q) None [PStr "a"; PStr "b"] (PInt 2)) = [].
Proof.
  apply (sse_loop_ttft_invariant (stream_env seconds scenario_lines) responses_client 0
           scenario_lines initial_stream_state
           (mkStreamState (Some 1000%Q) None [PStr "a"; PStr "b"] (PInt 2))
           true (mkWorld 1 []) (mkWorld 2 [])).
  - vm_compute. reflexivity.
  - simpl. split; reflexivity.
Defined.

End SingleTest.

(** ** main.py: merging the configuration file and the command line *)

Section MergeConfig.

Lemma dict_lookup_set_same (k : string) (v : pyval) (d : list (string * pyval)) :
  dict_lookup k (dict_set k v d) = Some v.
Proof.
  induction d as [| [k' v'] d IH]; simpl.
  - rewrite String.eqb_refl. reflexivity.
  - destruct (String.eqb_spec k k') as [-> | Hne]; simpl.
    + rewrite String.eqb_refl. reflexivity.
    + destruct (String.eqb_spec k k'); [contradiction | exact IH].
Qed.

Lemma dict_lookup_set_other (k k0 : string) (v : pyval) (d : list (string * pyval)) :
  k0 <> k -> dict_lookup k0 (dict_set k v d) = dict_lookup k0 d.
Proof.
  intro Hne. induction d as [| [k' v'] d IH]; simpl.
  - destruct (String.eqb_spec k0 k); [contradiction | reflexivity].
  - destruct (String.eqb_spec k k') as [-> | Hk]; simpl.
    + destruct (String.eqb_spec k0 k'); [contradiction | reflexivity].
    + destruct (String.eqb_spec k0 k'); [reflexivity | exact IH].
Qed.

Lemma merge_item_other (merged : list (string * pyval)) (key : string) (value : pyval)
  (k : string) :
  k <> key -> dict_lookup k (merge_item merged (key, value)) = dict_lookup k merged.
Proof.
  intro Hne. unfold merge_item. destruct (cli_value_given value).
  - apply dict_lookup_set_other. exact Hne.
  - destruct (dict_lookup key merged); [reflexivity |].
    apply dict_lookup_set_other. exact Hne.
Qed.

Lemma merge_item_same (merged : list (string * pyval)) (key : string) (value : pyval) :
  dict_lookup key (merge_item merged (key, value))
  = if cli_value_given value then Some value
    else match dict_lookup key merged with
         | Some old => Some old
         | None => Some value
         end.
Proof.
  unfold merge_item. destruct (cli_value_given value).
  - apply dict_lookup_set_same.
  - destruct (dict_lookup key merged) eqn:H; [exact H | apply dict_lookup_set_same].
Qed.

Lemma merge_not_in_cli (cli config : list (string * pyval)) (k : string) :
  ~ In k (map fst cli) ->
  dict_lookup k (merge_config_with_cli config cli) = dict_lookup k config.
Proof.
  unfold merge_config_with_cli. revert config.
  induction cli as [| [key value] cli IH]; intros config Hk; simpl.
  - reflexivity.
  - rewrite IH.
    + apply merge_item_other. intro E. apply Hk. left. symmetry. exact E.
    + intro H. apply Hk. right. exact H.
Qed.

Lemma merge_lookup (config cli : list (string * pyval)) (k : string) :
  NoDup (map fst cli) ->
  dict_lookup k (merge_config_with_cli config cli)
  = match dict_lookup k cli with
    | Some value =>
        if cli_value_given value then Some value
        else match dict_lookup k config with
             | Some old => Some old
             | None => Some value
             end
    | None => dict_lookup k config
    end.
Proof.
  revert config. induction cli as [| [key value] cli IH]; intros config Hnd.
  - reflexivity.
  - inversion Hnd as [| ? ? Hnotin Hnd']; subst.
    destruct (String.eqb_spec k key) as [-> | Hne].
    + cbn [dict_lookup]. rewrite String.eqb_refl.
      change (merge_config_with_cli config ((key, value) :: cli))
        with (merge_config_with_cli (merge_item config (key, value)) cli).
      rewrite (merge_not_in_cli cli _ key Hnotin). apply merge_item_same.
    + cbn [dict_lookup]. destruct (String.eqb_spec k key); [contradiction |].
      change (merge_config_with_cli config ((key, value) :: cli))
        with (merge_config_with_cli (merge_item config (key, value)) cli).
      rewrite (IH _ Hnd'). rewrite (merge_item_other config key value k Hne).
      reflexivity.
Qed.

(** X5: what the merged configuration holds under a key: the command-line value
    when one was given; otherwise the value of the configuration file, and
    the command line's empty value only when the file has none. Keys the
    command line does not know keep the file's value, and the keys of the
    merged configuration are those of the file and of the command line. *)
Theorem merge_config_with_cli_lookup (config cli : list (string * pyval))
  (Hkeys : NoDup (map fst cli)) :
  (forall k,
      dict_lookup k (merge_config_with_cli config cli)
      = match dict_lookup k cli with
        | Some value =>
            if cli_value_given value then Some value
            else match dict_lookup k config with
                 | Some old => Some old
                 | None => Some value
                 end
        | None => dict_lookup k config
        end) /\
  (forall k,
      dict_lookup k (merge_config_with_cli config cli) = None <->
      dict_lookup k config = None /\ dict_lookup k cli = None) /\
  (forall k value,
      dict_lookup k cli = Some value -> cli_value_given value = false ->
      forall old, dict_lookup k config = Some old ->
                  dict_lookup k (merge_config_with_cli config cli) = Some old).
Proof.
  split; [intro k; apply merge_lookup; exact Hkeys |]. split.
  - intro k. rewrite (merge_lookup config cli k Hkeys).
    destruct (dict_lookup k cli) as [value |].
    + destruct (cli_value_given value).
      * split; [discriminate | intros [_ H]; discriminate H].
      * destruct (dict_lookup k config); split;
          try discriminate; intros [H1 H2]; discriminate.
    + split; [intro H; split; [exact H | reflexivity] | intros [H _]; exact H].
  - intros k value Hk Hgiven old Hold.
    rewrite (merge_lookup config cli k Hkeys), Hk, Hgiven, Hold. reflexivity.
Qed.

Lemma merge_config_with_cli_lookup_witness :
  dict_lookup "runs"
    (merge_config_with_cli [("runs", PInt 3); ("model", PStr "gpt-4")]
       [("runs", PInt 0); ("model", PNone); ("streaming", PBool false);
        ("endpoint", PStr "https://example.test/v1/responses")])
  = Some (PInt 3).
Proof.
  refine (proj1 (merge_config_with_cli_lookup
                   [("runs", PInt 3); ("model", PStr "gpt-4")]
                   [("runs", PInt 0); ("model", PNone); ("streaming", PBool false);
                    ("endpoint", PStr "https://example.test/v1/responses")] _) "runs").
  repeat constructor; simpl; intuition discriminate.
Defined.

End MergeConfig.

(** ** main.py: prompt files *)

Section PromptFiles.

Variable p : ascii -> bool.

Lemma head_ok_lstrip (s : string) : head_ok p (lstrip_while p s) = true.
Proof.
  induction s as [| a s IH]; simpl; [reflexivity |].
  destruct (p a) eqn:Ha; [exact IH | simpl; rewrite Ha; reflexivity].
Qed.

Lemma lstrip_head_ok (s : string) : head_ok p s = true -> lstrip_while p s = s.
Proof.
  destruct s as [| a s]; simpl; [reflexivity |].
  intro H. apply negb_true_iff in H. rewrite H. reflexivity.
Qed.

Lemma lstrip_split (s : string) : exists w, s = (w ++ lstrip_while p s)%string.
Proof.
  induction s as [| a s [w Hw]]; simpl.
  - exists "". reflexivity.
  - destruct (p a).
    + exists (String a w). simpl. rewrite <- Hw. reflexivity.
    + exists "". reflexivity.
Qed.

Lemma string_app_assoc (a b c : string) : ((a ++ b) ++ c = a ++ (b ++ c))%string.
Proof. induction a as [| x a IH]; simpl; [reflexivity | rewrite IH; reflexivity]. Qed.

Lemma string_app_nil_r (a : string) : (a ++ "")%string = a.
Proof. induction a as [| x a IH]; simpl; [reflexivity | rewrite IH; reflexivity]. Qed.

Lemma rev_string_app (a b : string) :
  rev_string (a ++ b) = (rev_string b ++ rev_string a)%string.
Proof.
  induction a as [| x a IH]; simpl.
  - rewrite string_app_nil_r. reflexivity.
  - rewrite IH, string_app_assoc. reflexivity.
Qed.

Lemma rev_string_involutive (a : string) : rev_string (rev_string a) = a.
Proof.
  induction a as [| x a IH]; simpl; [reflexivity |].
  rewrite rev_string_app, IH. reflexivity.
Qed.

Lemma rstrip_split (s : string) : exists u, s = (rstrip_while p s ++ u)%string.
Proof.
  destruct (lstrip_split (rev_string s)) as [w Hw].
  exists (rev_string w). unfold rstrip_while.
  rewrite <- rev_string_app, <- Hw, rev_string_involutive. reflexivity.
Qed.

Lemma rstrip_idempotent (s : string) :
  rstrip_while p (rstrip_while p s) = rstrip_while p s.
Proof.
  unfold rstrip_while. rewrite rev_string_involutive.
  rewrite (lstrip_head_ok _ (head_ok_lstrip _)). reflexivity.
Qed.

Lemma head_ok_rstrip (s : string) : head_ok p s = true -> head_ok p (rstrip_while p s) = true.
Proof.
  intro H. destruct (rstrip_split s) as [u Hu].
  destruct (rstrip_while p s) as [| a t]; [reflexivity |].
  rewrite Hu in H. exact H.
Qed.

End PromptFiles.

Lemma strip_idempotent (s : string) : strip (strip s) = strip s.
Proof.
  unfold strip.
  rewrite (lstrip_head_ok is_space
             (rstrip_while is_space (lstrip_while is_space s))).
  - apply rstrip_idempotent.
  - apply head_ok_rstrip, head_ok_lstrip.
Qed.

Lemma flat_map_filter_map {A B} (keep : B -> bool) (f : A -> B) (l : list A) :
  flat_map (fun x => if keep (f x) then [f x] else []) l
  = filter keep (map f l).
Proof.
  induction l as [| a l IH]; simpl; [reflexivity |].
  destruct (keep (f a)); simpl; rewrite IH; reflexivity.
Qed.

Lemma is_prompt_line_iff (line : string) :
  is_prompt_line line = true <-> line <> "" /\ String.prefix "#" line = false.
Proof.
  unfold is_prompt_line. rewrite andb_true_iff, !negb_true_iff. split.
  - intros [H1 H2]. split; [| exact H2]. intro E. subst line. discriminate H1.
  - intros [H1 H2]. split; [| exact H2].
    destruct (String.eqb_spec line ""); [contradiction | reflexivity].
Qed.

(** X6: the prompts read from a file are the stripped lines that are neither
    empty nor comments, in the order of the file; none of them is empty,
    starts with [#] or has white space around it, and there is at least
    one. *)
Theorem load_prompts_from_file_prompts (lines prompts : list string) :
  load_prompts_from_file (Some lines) = Ret prompts ->
  prompts = filter is_prompt_line (map strip lines) /\
  prompts <> [] /\
  (forall q, In q prompts ->
             q <> "" /\ String.prefix "#" q = false /\ strip q = q /\
             exists line, In line lines /\ q = strip line).
Proof.
  unfold load_prompts_from_file.
  rewrite (flat_map_filter_map is_prompt_line strip lines).
  destruct (filter is_prompt_line (map strip lines)) as [| q0 qs] eqn:Hf;
    [discriminate |].
  intro H. injection H as <-. split; [reflexivity |]. split; [discriminate |].
  intros q Hq. rewrite <- Hf in Hq. apply filter_In in Hq. destruct Hq as [Hin Hok].
  apply is_prompt_line_iff in Hok. destruct Hok as [Hne Hhash].
  apply in_map_iff in Hin. destruct Hin as (line & Hline & Hin).
  split; [exact Hne |]. split; [exact Hhash |]. split.
  - rewrite <- Hline. apply strip_idempotent.
  - exists line. split; [exact Hin | symmetry; exact Hline].
Qed.

(** X7: reading fails exactly when the file is missing or every line is blank
    or a comment. *)
Theorem load_prompts_from_file_fails (file : option (list string)) :
  (exists e, load_prompts_from_file file = Raise e) <->
  (file = None \/
   exists lines, file = Some lines /\
                 forall line, In line lines ->
                              strip line = "" \/ String.prefix "#" (strip line) = true).
Proof.
  destruct file as [lines |]; simpl.
  - rewrite (flat_map_filter_map is_prompt_line strip lines). split.
    + intros [e He]. right. exists lines. split; [reflexivity |].
      intros line Hin.
      destruct (filter is_prompt_line (map strip lines)) as [| q qs] eqn:Hf;
        [| discriminate He].
      destruct (is_prompt_line (strip line)) eqn:Hok.
      * assert (Hq : In (strip line) (filter is_prompt_line (map strip lines))).
        { apply filter_In. split; [apply in_map; exact Hin | exact Hok]. }
        rewrite Hf in Hq. contradiction.
      * unfold is_prompt_line in Hok. apply andb_false_iff in Hok.
        destruct Hok as [Hok | Hok]; apply negb_false_iff in Hok.
        -- left. apply String.eqb_eq. exact Hok.
        -- right. exact Hok.
    + intros [H | (lines' & Hl & Hall)]; [discriminate H |].
      injection Hl as <-.
      destruct (filter is_prompt_line (map strip lines)) as [| q qs] eqn:Hf.
      * eexists. reflexivity.
      * exfalso.
        assert (Hq : In q (filter is_prompt_line (map strip lines)))
          by (rewrite Hf; left; reflexivity).
        apply filter_In in Hq. destruct Hq as [Hin Hok].
        apply is_prompt_line_iff in Hok. destruct Hok as [Hne Hhash].
        apply in_map_iff in Hin. destruct Hin as (line & Hline & Hin).
        destruct (Hall line Hin) as [H | H]; rewrite Hline in H; congruence.
  - split; [intros _; left; reflexivity | intros _; eexists; reflexivity].
Qed.

Lemma load_prompts_from_file_prompts_witness :
  ["Say hello"; "Explain monads"]
  = filter is_prompt_line
      (map strip ["# prompts" ++ newline; newline; "  Say hello " ++ newline;
                  "Explain monads" ++ newline]).
Proof.
  apply (load_prompts_from_file_prompts
           ["# prompts" ++ newline; newline; "  Say hello " ++ newline;
            "Explain monads" ++ newline]
           ["Say hello"; "Explain monads"]).
  vm_compute. reflexivity.
Defined.

(** ** main.py: batches *)

Section Batches.


Lemma call_api_stream_returns_failure (E : Env) (c : LLMClient) (prompt : string)
  (w : World) :
  exists msg w', call_api_stream E c prompt w = (Ret (failure msg), w').
Proof.
  rewrite call_api_stream_run.
  destruct (call_api_stream_try _ _ _ _ _) as [[r | e] w'] eqn:Htry.
  - destruct (call_api_stream_try_never_succeeds _ _ _ _ _ _ _ Htry) as [msg ->].
    exists msg, w'. reflexivity.
  - exists (handler_message c e), w'. reflexivity.
Qed.

Lemma run_single_test_failure (E : Env) (c : LLMClient) (prompt : string)
  (streaming : bool) (w w' : World) (msg : error_message_t) :
  (if streaming then call_api_stream E c prompt else call_api E c prompt) w
  = (Ret (failure msg), w') ->
  run_single_test E c prompt streaming w = (Ret (error_result prompt (Some msg)), w').
Proof.
  intro H. unfold run_single_test, bind. rewrite H. reflexivity.
Qed.

(** In streaming mode every test is recorded as an error: the streaming
    call never succeeds. *)
Lemma run_single_test_streaming (E : Env) (c : LLMClient) (prompt : string) (w : World) :
  exists msg w',
    run_single_test E c prompt true w = (Ret (error_result prompt (Some msg)), w').
Proof.
  destruct (call_api_stream_returns_failure E c prompt w) as (msg & w' & H).
  exists msg, w'. apply (run_single_test_failure E c prompt true w w' msg H).
Qed.

Lemma run_single_test_result (E : Env) (c : LLMClient) (text : string)
  (streaming : bool) (w w' : World) (r : TestResult) :
  run_single_test E c text streaming w = (Ret r, w') ->
  prompt r = text /\ (status r = "success" \/ status r = "error").
Proof.
  unfold run_single_test, bind.
  destruct ((if streaming then call_api_stream E c text else call_api E c text) w)
    as [[resp | e] w1]; [| discriminate].
  destruct (success resp).
  - destruct (resp_tokens resp) as [tk |]; [destruct (resp_timing resp) as [tm |] |].
    + unfold lift, ret.
      destruct (calculate_tps (completion_tokens tk) (total_latency_ms tm));
        [| discriminate].
      intro H. injection H as <- _. split; [reflexivity | left; reflexivity].
    + unfold ret. intro H. injection H as <- _. split; [reflexivity | left; reflexivity].
    + unfold ret. intro H. injection H as <- _. split; [reflexivity | left; reflexivity].
  - unfold ret. intro H. injection H as <- _. split; [reflexivity | right; reflexivity].
Qed.

Lemma run_prompt_runs_shape (E : Env) (c : LLMClient) (p : string) (streaming : bool)
  (runs : nat) (results results' : list TestResult) (w w' : World) :
  run_prompt_runs E c p streaming runs results w = (Ret results', w') ->
  exists new,
    results' = (results ++ new)%list /\ map prompt new = repeat p runs /\
    Forall (fun r => status r = "success" \/ status r = "error") new.
Proof.
  revert results w. induction runs as [| runs IH]; intros results w H; simpl in H.
  - injection H as <- _. exists []. rewrite app_nil_r. repeat split. constructor.
  - unfold bind at 1 in H.
    destruct (run_single_test E c p streaming w) as [[r | e] w1] eqn:Hr;
      [| discriminate H].
    destruct (IH _ _ H) as (new & Hres & Hmap & Hall).
    destruct (run_single_test_result E c p streaming w w1 r Hr) as [Hp Hs].
    exists (r :: new). split; [| split].
    + rewrite Hres, <- app_assoc. reflexivity.
    + simpl. rewrite Hp, Hmap. reflexivity.
    + constructor; assumption.
Qed.

Lemma run_batch_loop_shape (E : Env) (c : LLMClient) (prompts : list string) (runs : Z)
  (streaming : bool) (results results' : list TestResult) (w w' : World) :
  run_batch_loop E c prompts runs streaming results w = (Ret results', w') ->
  exists new,
    results' = (results ++ new)%list /\
    map prompt new = flat_map (fun p => repeat p (Z.to_nat runs)) prompts /\
    Forall (fun r => status r = "success" \/ status r = "error") new.
Proof.
  revert results w. induction prompts as [| p ps IH]; intros results w H; simpl in H.
  - injection H as <- _. exists []. rewrite app_nil_r. repeat split. constructor.
  - unfold bind at 1 in H.
    destruct (run_prompt_runs E c p streaming (Z.to_nat runs) results w)
      as [[res1 | e] w1] eqn:Hruns; [| discriminate H].
    destruct (run_prompt_runs_shape _ _ _ _ _ _ _ _ _ Hruns) as (n1 & H1 & Hm1 & Ha1).
    destruct (IH _ _ H) as (n2 & H2 & Hm2 & Ha2).
    exists (n1 ++ n2)%list. split; [| split].
    + rewrite H2, H1, <- app_assoc. reflexivity.
    + simpl. rewrite map_app, Hm1, Hm2. reflexivity.
    + apply Forall_app. split; assumption.
Qed.

Lemma length_flat_map_repeat (prompts : list string) (n : nat) :
  List.length (flat_map (fun p => repeat p n) prompts) = (List.length prompts * n)%nat.
Proof.
  induction prompts as [| p ps IH]; simpl; [reflexivity |].
  rewrite length_app, repeat_length, IH. reflexivity.
Qed.

(** X8: a batch that completes holds one result per prompt and run, in prompt
    order then run order, each marked success or error; a run count of zero
    or less gives no result. *)
Theorem run_batch_tests_shape (E : Env) (c : LLMClient) (prompts : list string)
  (runs : Z) (streaming : bool) (results : list TestResult) (w w' : World) :
  run_batch_tests E c prompts runs streaming w = (Ret results, w') ->
  map prompt results = flat_map (fun p => repeat p (Z.to_nat runs)) prompts /\
  List.length results = (List.length prompts * Z.to_nat runs)%nat /\
  Forall (fun r => status r = "success" \/ status r = "error") results.
Proof.
  intro H. destruct (run_batch_loop_shape _ _ _ _ _ _ _ _ _ H) as (new & Hres & Hm & Ha).
  simpl in Hres. subst new. split; [exact Hm |]. split; [| exact Ha].
  rewrite <- (length_map prompt), Hm. apply length_flat_map_repeat.
Qed.

Lemma all_errors_no_success (results : list TestResult) :
  Forall (fun r => status r = "error") results -> filter is_success results = [].
Proof.
  induction 1 as [| r rs Hr _ IH]; simpl; [reflexivity |].
  unfold is_success at 1. rewrite Hr. exact IH.
Qed.

(** X9: a batch in streaming mode always completes, every result of it is an
    error, and its summary counts no success and has no statistics. *)
Theorem run_batch_tests_streaming (E : Env) (c : LLMClient) (prompts : list string)
  (runs : Z) (w : World) :
  exists results w',
    run_batch_tests E c prompts runs true w = (Ret results, w') /\
    Forall (fun r => status r = "error" /\ timing r = None /\ tps r = None) results /\
    summarize_results results
    = Ret (mkBatchSummary (Z.of_nat (List.length results)) 0
             (Z.of_nat (List.length results)) None None None None).
Proof.
  assert (Hloop : forall results w,
             Forall (fun r => status r = "error" /\ timing r = None /\ tps r = None)
               results ->
             exists results' w',
               run_batch_loop E c prompts runs true results w = (Ret results', w') /\
               Forall (fun r => status r = "error" /\ timing r = None /\ tps r = None)
                 results').
  { induction prompts as [| p ps IH]; intros results w1 Hall; simpl.
    - exists results, w1. split; [reflexivity | exact Hall].
    - assert (Hruns : forall n results w,
                 Forall (fun r => status r = "error" /\ timing r = None /\ tps r = None)
                   results ->
                 exists results' w',
                   run_prompt_runs E c p true n results w = (Ret results', w') /\
                   Forall (fun r => status r = "error" /\ timing r = None /\ tps r = None)
                     results').
      { induction n as [| n IHn]; intros rs w2 Hrs; simpl.
        - exists rs, w2. split; [reflexivity | exact Hrs].
        - destruct (run_single_test_streaming E c p w2) as (msg & w3 & Hr).
          unfold bind at 1. rewrite Hr. apply IHn. apply Forall_app.
          split; [exact Hrs |]. constructor; [repeat split | constructor]. }
      destruct (Hruns (Z.to_nat runs) results w1 Hall) as (rs1 & w2 & Hr1 & Ha1).
      unfold bind at 1. rewrite Hr1. apply IH. exact Ha1. }
  destruct (Hloop [] w (Forall_nil _)) as (results & w' & Hrun & Hall).
  exists results, w'. split; [exact Hrun |]. split; [exact Hall |].
  assert (Hnone : filter is_success results = []).
  { apply all_errors_no_success. eapply Forall_impl; [| exact Hall].
    intros r [H _]. exact H. }
  unfold summarize_results. rewrite Hnone. simpl.
  rewrite Z.sub_0_r. reflexivity.
Qed.



Lemma run_batch_tests_shape_witness :
  exists results w',
    run_batch_tests (buffered_env usage_5_1_6_text usage_5_1_6) chat_client
      ["hi"; "hi again"] 2 false w0 = (Ret results, w') /\
    map prompt results = ["hi"; "hi"; "hi again"; "hi again"] /\
    List.length results = 4%nat.
Proof.
  eexists _, _. split; [vm_compute; reflexivity |].
  destruct (run_batch_tests_shape (buffered_env usage_5_1_6_text usage_5_1_6) chat_client
              ["hi"; "hi again"] 2 false _ w0 _ eq_refl) as (Hm & Hl & _).
  split; [exact Hm | exact Hl].
Defined.

End Batches.

(** ** client.py: failures of the streaming call *)

Section StreamingOutcomes.

(** X11: the streaming call applies the status checks of the buffered call
    before it reads a line: with any status but 200 the result is the same
    failure, after one clock reading and no tokenizer call. An exception of
    the transport, before the response or in the middle of the stream, gives
    the failure of the matching [except] clause; what was gathered until
    then is dropped. *)
Theorem call_api_stream_failures (E : Env) (c : LLMClient) (prompt : string) (w : World) :
  (forall s lines broken,
      http_stream E (endpoint c) (headers c) (_build_request_body c prompt true)
      = StreamResponse s lines broken ->
      (s = 401 -> call_api_stream E c prompt w
                  = (Ret (failure ErrAuthentication), after_tick w)) /\
      (s = 403 -> call_api_stream E c prompt w
                  = (Ret (failure ErrPermission), after_tick w)) /\
      (s = 429 -> call_api_stream E c prompt w
                  = (Ret (failure ErrRateLimit), after_tick w)) /\
      (500 <= s -> call_api_stream E c prompt w
                   = (Ret (failure (ErrServer s)), after_tick w)) /\
      (s < 500 -> s <> 200 -> s <> 401 -> s <> 403 -> s <> 429 ->
       call_api_stream E c prompt w = (Ret (failure (ErrHTTP s)), after_tick w)) /\
      (forall st w1 e,
          s = 200 ->
          sse_loop E c (clock E (ticks w)) lines initial_stream_state (after_tick w)
          = (Ret (st, false), w1) ->
          broken = Some e ->
          call_api_stream E c prompt w = (Ret (failure (handler_message c e)), w1)) /\
      (forall e w1,
          s = 200 ->
          sse_loop E c (clock E (ticks w)) lines initial_stream_state (after_tick w)
          = (Raise e, w1) ->
          call_api_stream E c prompt w = (Ret (failure (handler_message c e)), w1))) /\
  (forall e,
      http_stream E (endpoint c) (headers c) (_build_request_body c prompt true)
      = StreamRaises e ->
      call_api_stream E c prompt w = (Ret (failure (handler_message c e)), after_tick w)) /\
  handler_message c TimeoutException = ErrTimeout (timeout c) /\
  (forall msg, handler_message c (ConnectError msg) = ErrConnect (ConnectError msg)).
Proof.
  split; [| split; [| split; [reflexivity | reflexivity]]].
  - intros s lines broken Hs. rewrite call_api_stream_run.
    rewrite (call_api_stream_try_response E c _ _ _ s lines broken Hs).
    destruct (status_failure_cases s)
      as [[Hc H] | [[Hc H] | [[Hc H] | [[Hc H] | [(Hc & H1 & H2 & H3 & H4 & H) | [Hc H]]]]]];
      rewrite H; repeat split; intros; try reflexivity; try lia.
    + match goal with Hl : sse_loop _ _ _ _ _ _ = _ |- _ => rewrite Hl end.
      subst broken. reflexivity.
    + match goal with Hl : sse_loop _ _ _ _ _ _ = _ |- _ => rewrite Hl end.
      reflexivity.
  - intros e Hs. rewrite call_api_stream_run. unfold call_api_stream_try.
    rewrite Hs. reflexivity.
Qed.

End StreamingOutcomes.

(** ** client.py: the request body *)

Section RequestBody.

Lemma dict_lookup_not_none (d : list (string * pyval)) (k : string) :
  Forall (fun kv => snd kv <> PNone) d -> dict_lookup k d <> Some PNone.
Proof.
  induction 1 as [| [k' v] d Hv _ IH]; simpl; [discriminate |].
  destruct (k =? k')%string; [| exact IH].
  intro H. injection H as H. exact (Hv H).
Qed.

(** X12: the request body always carries the model and the stream flag; each
    optional field is present exactly when it is configured (an effort that
    is not the empty text, a token limit that is not zero, the cache
    switch), under the name of the client's format; a chat-completions body
    never carries [store], whatever the cache switch says; and no key of a
    body has the value [None]. *)
Theorem request_body_fields (c : LLMClient) (prompt : string) (stream : bool) :
  let body := _build_request_body c prompt stream in
  body_field body "model" = Some (PStr (model c)) /\
  body_field body "stream" = Some (PBool stream) /\
  (is_responses_api c = true ->
   body_field body "reasoning"
   = match configured_effort c with
     | Some e => Some (PDict [("effort", PStr e)])
     | None => None
     end /\
   body_field body "max_output_tokens"
   = match configured_max_tokens c with Some n => Some (PInt n) | None => None end /\
   body_field body "store" = (if no_cache c then Some (PBool false) else None) /\
   body_field body "reasoning_effort" = None /\ body_field body "max_tokens" = None) /\
  (is_responses_api c = false ->
   body_field body "reasoning_effort"
   = match configured_effort c with Some e => Some (PStr e) | None => None end /\
   body_field body "max_tokens"
   = match configured_max_tokens c with Some n => Some (PInt n) | None => None end /\
   body_field body "store" = None /\
   body_field body "reasoning" = None /\ body_field body "max_output_tokens" = None) /\
  (forall k, body_field body k <> Some PNone) /\
  (configured_effort c = None <-> reasoning_effort c = None \/ reasoning_effort c = Some "") /\
  (configured_max_tokens c = None <-> max_tokens c = None \/ max_tokens c = Some 0).
Proof.
  cbv zeta. unfold _build_request_body.
  split; [destruct (is_responses_api c); reflexivity |].
  split; [destruct (is_responses_api c); reflexivity |].
  split; [| split; [| split; [| split]]].
  - intro H. rewrite H.
    destruct (configured_effort c), (configured_max_tokens c), (no_cache c);
      repeat split; reflexivity.
  - intro H. rewrite H.
    destruct (configured_effort c), (configured_max_tokens c); repeat split; reflexivity.
  - intro k. destruct (is_responses_api c); cbn [body_field];
      apply dict_lookup_not_none;
      destruct (configured_effort c), (configured_max_tokens c); try destruct (no_cache c);
      cbn [app]; repeat constructor; cbn [snd]; discriminate.
  - unfold configured_effort. destruct (reasoning_effort c) as [s |].
    + destruct (String.eqb_spec s "") as [-> | Hne].
      * split; [intros _; right; reflexivity | reflexivity].
      * split; [discriminate | intros [H | H]; [discriminate H | congruence]].
    + split; [intros _; left; reflexivity | reflexivity].
  - unfold configured_max_tokens. destruct (max_tokens c) as [n |].
    + destruct (Z.eqb_spec n 0) as [-> | Hne].
      * split; [intros _; right; reflexivity | reflexivity].
      * split; [discriminate | intros [H | H]; [discriminate H | congruence]].
    + split; [intros _; left; reflexivity | reflexivity].
Qed.

End RequestBody.

(** ** client.py: the content of a buffered response *)

Section ContentExtraction.

Lemma py_join_strs (l : list string) :
  py_join (map PStr l) = Ret (String.concat "" l).
Proof.
  induction l as [| s l IH]; [reflexivity |].
  cbn [map py_join]. rewrite IH. cbn [res_bind].
  destruct l as [| s' l]; [| reflexivity].
  simpl. f_equal. induction s as [| a s IHs]; [reflexivity |].
  simpl. f_equal. exact IHs.
Qed.

Lemma part_texts_run (parts : list (string * string)) :
  res_mapM (fun content =>
              res_bind (py_get content "type" PNone) (fun cty =>
                if py_eq_str cty "output_text" then
                  res_bind (py_get content "text" (PStr "")) (fun t => Ret [t])
                else Ret [])) (map output_part parts)
  = Ret (map (fun part => if (fst part =? "output_text")%string
                          then [PStr (snd part)] else []) parts).
Proof.
  induction parts as [| [k t] parts IH]; [reflexivity |].
  cbn [map res_mapM]. rewrite IH.
  unfold output_part at 1. cbn [py_get dict_lookup fst snd res_bind py_eq_str].
  cbn. destruct (k =? "output_text")%string; reflexivity.
Qed.

Lemma concat_map_flat_map {A B} (f : A -> list B) (l : list A) :
  List.concat (map f l) = flat_map f l.
Proof. induction l as [| a l IH]; [reflexivity |]. simpl. rewrite IH. reflexivity. Qed.

Lemma output_item_texts_run (item : string * list (string * string)) :
  output_item_texts (output_item item)
  = Ret (map PStr (message_texts [item])).
Proof.
  destruct item as [k parts]. unfold output_item_texts, output_item.
  cbn [fst snd py_get dict_lookup res_bind py_eq_str].
  cbn. unfold message_texts. cbn [flat_map fst snd]. rewrite app_nil_r.
  destruct (k =? "message")%string; [| reflexivity].
  rewrite part_texts_run. cbn [res_bind]. f_equal.
  rewrite concat_map_flat_map.
  induction parts as [| [k' t] parts IH]; [reflexivity |].
  cbn [flat_map fst snd]. rewrite map_app, IH.
  destruct (k' =? "output_text")%string; reflexivity.
Qed.

Lemma output_items_run (items : list (string * list (string * string))) :
  res_mapM output_item_texts (map output_item items)
  = Ret (map (fun item => map PStr (message_texts [item])) items).
Proof.
  induction items as [| item items IH]; [reflexivity |].
  cbn [map res_mapM]. rewrite output_item_texts_run, IH. reflexivity.
Qed.

Lemma message_texts_cons (item : string * list (string * string))
  (items : list (string * list (string * string))) :
  message_texts (item :: items) = (message_texts [item] ++ message_texts items)%list.
Proof. unfold message_texts. cbn [flat_map]. rewrite app_nil_r. reflexivity. Qed.

(** X13: the content of a buffered response. Responses format: the texts of the
    [output_text] parts of the [message] items, joined in order; items and
    parts of any other kind add nothing, and a body without [output] gives
    the empty text. Chat format: the [content] of the message of the first
    choice, whatever value it is ([None] for a JSON null), and the empty
    text when there is no choice. A body that is not an object raises in
    both formats. *)
Theorem extract_content_cases (c : LLMClient) :
  (is_responses_api c = true ->
   (forall items others,
       _extract_content_from_response c (responses_payload items others)
       = Ret (PStr (String.concat "" (message_texts items)))) /\
   (forall d, dict_lookup "output" d = None ->
              _extract_content_from_response c (PDict d) = Ret (PStr ""))) /\
  (is_responses_api c = false ->
   (forall d first more m v,
       dict_lookup "choices" d = Some (PList (PDict first :: more)) ->
       dict_lookup "message" first = Some (PDict m) ->
       dict_lookup "content" m = Some v ->
       _extract_content_from_response c (PDict d) = Ret v) /\
   (forall d, dict_lookup "choices" d = None \/ dict_lookup "choices" d = Some (PList []) ->
              _extract_content_from_response c (PDict d) = Ret (PStr "")) /\
   (forall d first more,
       dict_lookup "choices" d = Some (PList (PDict first :: more)) ->
       dict_lookup "message" first = None ->
       _extract_content_from_response c (PDict d) = Ret (PStr ""))) /\
  (forall data, (forall d, data <> PDict d) ->
                exists e, _extract_content_from_response c data = Raise e).
Proof.
  unfold _extract_content_from_response. split; [| split].
  - intro Hc. rewrite Hc. split.
    + intros items others. unfold responses_payload.
      cbn [py_get dict_lookup String.eqb Ascii.eqb Bool.eqb res_bind py_iter].
      cbn. rewrite output_items_run. cbn [res_bind].
      assert (Hcat : List.concat (map (fun item => map PStr (message_texts [item])) items)
                     = map PStr (message_texts items)).
      { induction items as [| item items IH]; [reflexivity |].
        cbn [map List.concat]. rewrite IH, (message_texts_cons item items), map_app.
        reflexivity. }
      rewrite Hcat, py_join_strs. reflexivity.
    + intros d Hd. cbn [py_get]. rewrite Hd. reflexivity.
  - intro Hc. rewrite Hc. split; [| split].
    + intros d first more m v Hd Hm Hv. cbn [py_get]. rewrite Hd.
      cbn [res_bind truthy py_index0 py_get]. rewrite Hm. cbn [res_bind py_get].
      rewrite Hv. reflexivity.
    + intros d [Hd | Hd]; cbn [py_get]; rewrite Hd; reflexivity.
    + intros d first more Hd Hm. cbn [py_get]. rewrite Hd.
      cbn [res_bind truthy py_index0 py_get]. rewrite Hm. reflexivity.
  - intros data Hd. destruct (is_responses_api c);
      destruct data; try (eexists; reflexivity); exfalso; eapply Hd; reflexivity.
Qed.

End ContentExtraction.

(** ** metrics.py: the tokenizer fallback chain *)

Section TokenCounting.

(** X14: [count_tokens_tiktoken]: on a str it always returns a count that is not
    negative; the count is the number of tokens of the model's encoding,
    of [cl100k_base] when the library does not know the model, and a third
    of the length, rounded down, when the library fails in any other way
    (the lookup raises something else than [KeyError], [cl100k_base] cannot
    be had either, or encoding raises). *)
Theorem token_count_cases (E : Env) (s : string) (m : string) :
  (exists n, token_count E (PStr s) m = Ret n /\ 0 <= n) /\
  (forall enc toks,
      encoding_for_model E m = Ret enc -> encode E enc s = Ret toks ->
      token_count E (PStr s) m = Ret (Z.of_nat (List.length toks))) /\
  (forall msg enc toks,
      encoding_for_model E m = Raise (KeyError msg) ->
      get_encoding E "cl100k_base" = Ret enc -> encode E enc s = Ret toks ->
      token_count E (PStr s) m = Ret (Z.of_nat (List.length toks))) /\
  (forall e, encoding_for_model E m = Raise e -> is_KeyError e = false ->
             token_count E (PStr s) m = Ret (Z.of_nat (String.length s) / 3)) /\
  (forall msg e,
      encoding_for_model E m = Raise (KeyError msg) ->
      get_encoding E "cl100k_base" = Raise e ->
      token_count E (PStr s) m = Ret (Z.of_nat (String.length s) / 3)) /\
  (forall enc e,
      res_try (encoding_for_model E m) is_KeyError (fun _ => get_encoding E "cl100k_base")
      = Ret enc ->
      encode E enc s = Raise e ->
      token_count E (PStr s) m = Ret (Z.of_nat (String.length s) / 3)).
Proof.
  unfold token_count.
  split; [| split; [| split; [| split; [| split]]]].
  - destruct (res_try (encoding_for_model E m) is_KeyError _) as [enc | e]; cbn.
    + destruct (encode E enc s) as [toks | e]; cbn.
      * eexists. split; [reflexivity | lia].
      * eexists. split; [reflexivity |]. apply Z.div_pos; lia.
    + eexists. split; [reflexivity |]. apply Z.div_pos; lia.
  - intros enc toks He Ht. rewrite He. cbn. rewrite Ht. reflexivity.
  - intros msg enc toks He Hg Ht. rewrite He. cbn. rewrite Hg. cbn. rewrite Ht. reflexivity.
  - intros e He Hk. rewrite He. cbn. rewrite Hk. reflexivity.
  - intros msg e He Hg. rewrite He. cbn. rewrite Hg. reflexivity.
  - intros enc e Hl Ht. rewrite Hl. cbn. rewrite Ht. reflexivity.
Qed.

End TokenCounting.

(** ** client.py: the lines of a stream *)

Section StreamLines.

Lemma classify_data_line (s : string) :
  classify_line ("data: " ++ s)
  = if (strip s =? "[DONE]")%string then Done else Data s.
Proof.
  unfold classify_line.
  assert (Hp : String.prefix "data: " ("data: " ++ s) = true) by (destruct s; reflexivity).
  rewrite Hp. reflexivity.
Qed.

Lemma classify_line_skipped (line : string) :
  classify_line line = Skipped <-> line = "" \/ String.prefix "data: " line = false.
Proof.
  unfold classify_line. destruct (String.eqb_spec line "") as [-> | Hne].
  - split; [left; reflexivity | reflexivity].
  - destruct (String.prefix "data: " line).
    + split.
      * destruct (strip (drop 6 line) =? "[DONE]")%string; discriminate.
      * intros [H | H]; [contradiction | discriminate].
    + split; [right; reflexivity | reflexivity].
Qed.

(** X15: the streaming loop passes over empty lines, lines that do not start
    with [data: ] (SSE comments, [event:] lines) and data lines that are
    not JSON: dropping them from the stream changes neither the variables
    at the end of the loop nor the clock readings taken. *)
Theorem sse_loop_ignored_lines (E : Env) (c : LLMClient) (start : Q)
  (lines : list string) (st : stream_state) (w : World) :
  sse_loop E c start lines st w
  = sse_loop E c start (filter (fun line => negb (ignored_line E line)) lines) st w /\
  (forall line,
      ignored_line E line = true <->
      line = "" \/ String.prefix "data: " line = false \/
      (String.prefix "data: " line = true /\ strip (drop 6 line) <> "[DONE]" /\
       exists msg, json_loads E (drop 6 line) = Raise (JSONDecodeError msg))).
Proof.
  split.
  - revert st w. induction lines as [| line rest IH]; intros st w; [reflexivity |].
    cbn [filter]. unfold ignored_line.
    destruct (classify_line line) as [| | s] eqn:Hk; cbn [negb].
    + cbn [sse_loop]. rewrite Hk. apply IH.
    + cbn [sse_loop]. rewrite Hk. reflexivity.
    + destruct (json_loads E s) as [chunk | e] eqn:Hj.
      * cbn [negb sse_loop]. rewrite Hk. unfold bind at 1. unfold bind at 2.
        destruct (try_except _ _ _ w) as [[st1 | e] w1]; [apply IH | reflexivity].
      * destruct (is_JSONDecodeError e) eqn:He; cbn [negb].
        -- cbn [sse_loop]. rewrite Hk. unfold bind at 1, try_except, bind, lift.
           rewrite Hj, He. unfold ret at 1. apply IH.
        -- cbn [sse_loop]. rewrite Hk. unfold bind at 1. unfold bind at 2.
           destruct (try_except _ _ _ w) as [[st1 | e1] w1]; [apply IH | reflexivity].
  - intro line. unfold ignored_line, classify_line.
    destruct (String.eqb_spec line "") as [-> | Hne].
    { split; [left; reflexivity | reflexivity]. }
    destruct (String.prefix "data: " line).
    + destruct (String.eqb_spec (strip (drop 6 line)) "[DONE]") as [Hd | Hd].
      * split; [discriminate |].
        intros [H | [H | (_ & H & _)]]; [contradiction | discriminate | contradiction].
      * destruct (json_loads E (drop 6 line)) as [chunk | e].
        -- split; [discriminate |].
           intros [H | [H | (_ & _ & msg & H)]]; [contradiction | discriminate | discriminate].
        -- split.
           ++ intro H. right. right. repeat split; [exact Hd |].
              destruct e; try discriminate H. eexists. reflexivity.
           ++ intros [H | [H | (_ & _ & msg & H)]];
                [contradiction | discriminate |].
              injection H as ->. reflexivity.
    + split; [right; left; reflexivity | reflexivity].
Qed.

(** X16: the loop stops at the first data line that holds [[DONE]], surrounded
    by any white space: the lines after it are never read, and the loop
    reports that it left by [break]. *)
Theorem sse_loop_stops_at_done (E : Env) (c : LLMClient) (start : Q)
  (before after : list string) (done : string) (st : stream_state) (w : World)
  (Hdone : classify_line done = Done) :
  sse_loop E c start (before ++ done :: after) st w
  = sse_loop E c start (before ++ [done]) st w /\
  (forall st' b w',
      Forall (fun line => classify_line line <> Done) before ->
      sse_loop E c start (before ++ done :: after) st w = (Ret (st', b), w') ->
      b = true) /\
  (forall s, classify_line ("data: " ++ s) = Done <-> strip s = "[DONE]").
Proof.
  split; [| split].
  - revert st w. induction before as [| line rest IH]; intros st w.
    + cbn [app sse_loop]. rewrite Hdone. reflexivity.
    + cbn [app sse_loop]. destruct (classify_line line); [apply IH | reflexivity |].
      unfold bind at 1. unfold bind at 2.
      destruct (try_except _ _ _ w) as [[st1 | e] w1]; [apply IH | reflexivity].
  - revert st w. induction before as [| line rest IH]; intros st w st' b w' Hb.
    + cbn [app sse_loop]. rewrite Hdone. intro H. injection H as _ <- _. reflexivity.
    + inversion Hb as [| ? ? Hline Hrest]; subst.
      cbn [app sse_loop]. destruct (classify_line line); [apply (IH _ _ _ _ _ Hrest) | congruence |].
      unfold bind at 1.
      destruct (try_except _ _ _ w) as [[st1 | e] w1]; [apply (IH _ _ _ _ _ Hrest) | discriminate].
  - intro s. rewrite classify_data_line.
    destruct (String.eqb_spec (strip s) "[DONE]"); split; congruence.
Qed.

Lemma sse_loop_stops_at_done_witness :
  classify_line "data:  [DONE] " = Done /\
  fst (sse_loop (stream_env seconds []) responses_client 0
         (["data: " ++ delta_text "a"] ++ "data:  [DONE] " :: ["data: " ++ delta_text "b"])
         initial_stream_state w0)
  = Ret (mkStreamState (Some 0%Q) None [PStr "a"] (PInt 0), true).
Proof.
  split; [reflexivity |].
  rewrite (proj1 (sse_loop_stops_at_done (stream_env seconds []) responses_client 0
                    ["data: " ++ delta_text "a"] ["data: " ++ delta_text "b"]
                    "data:  [DONE] " initial_stream_state w0 eq_refl)).
  vm_compute. reflexivity.
Defined.

End StreamLines.

(** ** client.py: the reasoning stamp *)

Section ReasoningStamp.

Ltac run_hyp H :=
  repeat first
    [ progress (unfold bind, lift, ret, raise in H)
    | match type of H with
      | context [match ?x with _ => _ end] => destruct x eqn:?
      | context [if ?x then _ else _] => destruct x eqn:?
      end
    | discriminate H ].

Lemma reasoning_stamp_step (E : Env) (c : LLMClient) (start : Q) (rd : pyval)
  (st st' : stream_state) (w w' : World) :
  is_responses_api c = true ->
  (if is_str rd && truthy rd then
     t <- stamp_if_none E start (ttfr st) ;;
     ret (mkStreamState (ttft st) t (content_chunks st) (stream_completion_tokens st))
   else ret st) w = (Ret st', w') ->
  reasoning_step E c start w st st'.
Proof.
  intros Hc H. destruct (is_str rd && truthy rd).
  - unfold bind in H. rewrite stamp_if_none_run in H. unfold ret in H.
    destruct (ttfr st) as [t |] eqn:Ht.
    + left. injection H as <- _. cbn. symmetry. exact Ht.
    + right. injection H as <- _. cbn. repeat split; assumption.
  - unfold ret in H. injection H as <- _. left. reflexivity.
Qed.

Lemma responses_event_reasoning (E : Env) (c : LLMClient) (start : Q) (chunk : pyval)
  (st st' : stream_state) (w w' : World) :
  is_responses_api c = true ->
  responses_event E start chunk st w = (Ret st', w') -> reasoning_step E c start w st st'.
Proof.
  intro Hc. unfold responses_event. intro H.
  unfold bind at 1 in H. unfold lift at 1 in H.
  destruct (py_get chunk "type" (PStr "")) as [ty | e]; [| discriminate H].
  destruct (py_eq_str ty "response.output_text.delta").
  { left. run_hyp H; try rewrite stamp_if_none_run in *; run_hyp H.
    all: repeat match goal with
           | H : (_, _) = (_, _) |- _ => injection H as ? ?; subst
           | H : Ret _ = Ret _ |- _ => injection H as ?; subst
           end; try reflexivity; try discriminate. }
  destruct (py_eq_str ty "response.reasoning_text.delta"
            || py_eq_str ty "response.reasoning.delta").
  - unfold bind at 1 in H. unfold lift at 1 in H.
    destruct (py_get chunk "delta" PNone) as [d | e]; [| discriminate H].
    unfold bind at 1 in H.
    destruct (truthy d).
    + unfold ret at 1 in H. apply (reasoning_stamp_step E c start d st st' w w' Hc H).
    + unfold bind at 1 in H. unfold lift at 1 in H.
      destruct (py_get chunk "text" PNone) as [t | e]; [| discriminate H].
      unfold ret at 1 in H.
      apply (reasoning_stamp_step E c start _ st st' w w' Hc H).
  - left. run_hyp H.
    all: repeat match goal with
           | H : (_, _) = (_, _) |- _ => injection H as ? ?; subst
           | H : Ret _ = Ret _ |- _ => injection H as ?; subst
           end; try reflexivity; try discriminate.
Qed.

Lemma usage_tail_ttfr (chunk : pyval) (st1 st' : stream_state) (w w' : World) :
  (usage <- lift (py_get chunk "usage" PNone) ;;
   if truthy usage then
     n <- lift (py_get usage "completion_tokens" (PInt 0)) ;;
     ret (mkStreamState (ttft st1) (ttfr st1) (content_chunks st1) n)
   else ret st1) w = (Ret st', w') ->
  ttfr st' = ttfr st1 /\ ttft st' = ttft st1 /\ content_chunks st' = content_chunks st1 /\
  w' = w.
Proof.
  unfold bind, lift, ret.
  destruct (py_get chunk "usage" PNone) as [usage | e]; [| discriminate].
  destruct (truthy usage).
  - destruct (py_get usage "completion_tokens" (PInt 0)); [| discriminate].
    intro H. injection H as <- <-. repeat split.
  - intro H. injection H as <- <-. repeat split.
Qed.

Lemma chat_event_ttfr (E : Env) (start : Q) (chunk : pyval) (st st' : stream_state)
  (w w' : World) :
  chat_event E start chunk st w = (Ret st', w') -> ttfr st' = ttfr st.
Proof.
  unfold chat_event. intro H.
  unfold bind at 1 in H. unfold lift at 1 in H.
  destruct (py_get chunk "choices" (PList [])) as [choices | e]; [| discriminate H].
  unfold bind at 1 in H.
  match type of H with
  | context [match ?m w with _ => _ end] => destruct (m w) as [[st1 | e] w1] eqn:H1
  end; [| discriminate H].
  destruct (usage_tail_ttfr chunk st1 st' w1 w' H) as (-> & _).
  revert H1. destruct (truthy choices);
    [| unfold ret; intro Hx; injection Hx as <- _; reflexivity].
  unfold bind at 1. unfold lift at 1.
  destruct (py_index0 choices) as [first | e]; [| discriminate].
  unfold bind at 1. unfold lift at 1.
  destruct (py_get first "delta" (PDict [])) as [delta | e]; [| discriminate].
  unfold bind at 1. unfold lift at 1.
  destruct (py_get delta "content" (PStr "")) as [chunk_content | e]; [| discriminate].
  destruct (truthy chunk_content).
  - unfold bind. rewrite stamp_if_none_run. unfold ret.
    destruct (ttft st); intro Hx; injection Hx as <- _; reflexivity.
  - unfold ret. intro Hx; injection Hx as <- _; reflexivity.
Qed.

Lemma data_line_reasoning (E : Env) (c : LLMClient) (start : Q) (data_str : string)
  (st st' : stream_state) (w w' : World) :
  try_except
    (chunk_data <- lift (json_loads E data_str) ;;
     stream_event E c start chunk_data st)
    is_JSONDecodeError (fun _ => ret st) w = (Ret st', w') ->
  reasoning_step E c start w st st'.
Proof.
  unfold try_except, bind, lift.
  destruct (json_loads E data_str) as [chunk | e].
  - destruct (stream_event E c start chunk st w) as [[st1 | e] w1] eqn:Hev.
    + intro H. injection H as <- _. unfold stream_event in Hev.
      destruct (is_responses_api c) eqn:Hc.
      * apply (responses_event_reasoning E c start chunk st st1 w w1 Hc Hev).
      * left. apply (chat_event_ttfr E start chunk st st1 w w1 Hev).
    + destruct (is_JSONDecodeError e); [| discriminate].
      intro H. injection H as <- _. left. reflexivity.
  - destruct (is_JSONDecodeError e); [| discriminate].
    intro H. injection H as <- _. left. reflexivity.
Qed.

(** X17: inside the streaming loop [ttfr] is assigned at most once: a value it
    holds is kept to the end of the loop; and a chat-completions stream
    never assigns it. *)
Theorem sse_loop_ttfr (E : Env) (c : LLMClient) (start : Q) (lines : list string)
  (st st' : stream_state) (b : bool) (w w' : World)
  (Hrun : sse_loop E c start lines st w = (Ret (st', b), w')) :
  (forall t, ttfr st = Some t -> ttfr st' = Some t) /\
  (is_responses_api c = false -> ttfr st' = ttfr st).
Proof.
  revert st w Hrun. induction lines as [| line rest IH]; intros st w H; simpl in H.
  - injection H as <- _ _. split; auto.
  - destruct (classify_line line).
    + apply (IH st w H).
    + injection H as <- _ _. split; auto.
    + unfold bind at 1 in H.
      destruct (try_except _ _ _ w) as [[st1 | e] w1] eqn:Hline; [| discriminate H].
      destruct (IH st1 w1 H) as [IH1 IH2].
      pose proof (data_line_reasoning E c start data_str st st1 w w1 Hline) as Hstep.
      split.
      * intros t Ht. apply IH1.
        destruct Hstep as [Hs | (Hn & _)]; [rewrite Hs; exact Ht | congruence].
      * intro Hc. rewrite (IH2 Hc).
        destruct Hstep as [Hs | (_ & _ & Hr & _)]; [exact Hs | congruence].
Qed.

Lemma sse_loop_ttfr_witness :
  exists st' b w',
    sse_loop reasoning_env responses_client 0
      ["data: " ++ reasoning_text; "data: " ++ delta_text "a"; "data: " ++ reasoning_text]
      (mkStreamState None (Some 5%Q) [] (PInt 0)) w0 = (Ret (st', b), w') /\
    ttfr st' = Some 5%Q.
Proof.
  eexists _, _, _. split; [vm_compute; reflexivity |].
  refine (proj1 (sse_loop_ttfr reasoning_env responses_client 0
            ["data: " ++ reasoning_text; "data: " ++ delta_text "a";
             "data: " ++ reasoning_text]
            (mkStreamState None (Some 5%Q) [] (PInt 0)) _ _ w0 _ _) 5%Q eq_refl).
  vm_compute. reflexivity.
Defined.

End ReasoningStamp.

(** ** client.py: stamps and latency *)

Section StreamTiming.

Lemma advances_ret {A} (a : A) : advances (ret a).
Proof. intro w. simpl. lia. Qed.

Lemma advances_raise {A} (e : exn) : advances (@raise A e).
Proof. intro w. simpl. lia. Qed.

Lemma advances_lift {A} (r : Res A) : advances (lift r).
Proof. intro w. simpl. lia. Qed.

Lemma advances_perf_counter (E : Env) : advances (perf_counter E).
Proof. intro w. simpl. lia. Qed.

Lemma advances_bind {A B} (m : M A) (k : A -> M B) :
  advances m -> (forall a, advances (k a)) -> advances (bind m k).
Proof.
  intros Hm Hk w. unfold bind. specialize (Hm w).
  destruct (m w) as [[a | e] w1]; simpl in Hm.
  - specialize (Hk a w1). lia.
  - exact Hm.
Qed.

Lemma advances_try_except {A} (body : M A) (handles : exn -> bool) (handler : exn -> M A) :
  advances body -> (forall e, advances (handler e)) ->
  advances (try_except body handles handler).
Proof.
  intros Hb Hh w. unfold try_except. specialize (Hb w).
  destruct (body w) as [[a | e] w1]; simpl in Hb.
  - exact Hb.
  - destruct (handles e); [specialize (Hh e w1); lia | exact Hb].
Qed.

Lemma advances_if {A} (b : bool) (m1 m2 : M A) :
  advances m1 -> advances m2 -> advances (if b then m1 else m2).
Proof. destruct b; auto. Qed.

Ltac advances :=
  repeat first
    [ apply advances_ret | apply advances_raise | apply advances_lift
    | apply advances_perf_counter
    | apply advances_bind; [| intro]
    | apply advances_try_except; [| intro]
    | apply advances_if
    | match goal with |- advances (match ?x with _ => _ end) => destruct x end ].

Lemma advances_stamp_if_none (E : Env) (start : Q) (t : option Q) :
  advances (stamp_if_none E start t).
Proof. unfold stamp_if_none. advances. Qed.

Lemma advances_stream_event (E : Env) (c : LLMClient) (start : Q) (chunk : pyval)
  (st : stream_state) : advances (stream_event E c start chunk st).
Proof.
  unfold stream_event, responses_event, chat_event.
  repeat first [ apply advances_stamp_if_none | progress advances ].
Qed.

Lemma data_line_stamps (E : Env) (c : LLMClient) (start : Q) (data_str : string)
  (st st' : stream_state) (w w' : World) :
  try_except
    (chunk_data <- lift (json_loads E data_str) ;;
     stream_event E c start chunk_data st)
    is_JSONDecodeError (fun _ => ret st) w = (Ret st', w') ->
  (ticks w <= ticks w')%nat /\
  (ttft st' = ttft st \/ ttft st' = Some (elapsed_ms E start w)) /\
  (ttfr st' = ttfr st \/ ttfr st' = Some (elapsed_ms E start w)).
Proof.
  intro H.
  pose proof (data_line_step E c start data_str st st' w w' H) as Hc.
  pose proof (data_line_reasoning E c start data_str st st' w w' H) as Hr.
  split; [| split].
  - assert (Ha : advances (try_except
                             (chunk_data <- lift (json_loads E data_str) ;;
                              stream_event E c start chunk_data st)
                             is_JSONDecodeError (fun _ => ret st))).
    { apply advances_try_except; [| intro; apply advances_ret].
      apply advances_bind; [apply advances_lift | intro; apply advances_stream_event]. }
    specialize (Ha w). rewrite H in Ha. exact Ha.
  - destruct Hc as [[_ Ht] | (frag & _ & _ & Ht)]; [left; exact Ht |].
    destruct (ttft st); [left; exact Ht | right; exact Ht].
  - destruct Hr as [Ht | (Hn & Ht & _)]; [left; exact Ht | right; exact Ht].
Qed.

Lemma stamped_step (E : Env) (start : Q) (lo : nat) (w w' : World) (t t' : option Q) :
  (lo <= ticks w)%nat -> (ticks w <= ticks w')%nat ->
  t' = t \/ t' = Some (elapsed_ms E start w) ->
  stamped E start lo (ticks w) t -> stamped E start lo (ticks w') t'.
Proof.
  intros Hlo Hle [-> | ->] Hs x Hx.
  - destruct (Hs x Hx) as (k & Hk & ->). exists k. split; [lia | reflexivity].
  - injection Hx as <-. exists (ticks w). split; [lia | reflexivity].
Qed.

Lemma sse_loop_stamped (E : Env) (c : LLMClient) (start : Q) (lo : nat)
  (lines : list string) (st st' : stream_state) (b : bool) (w w' : World) :
  sse_loop E c start lines st w = (Ret (st', b), w') ->
  (lo <= ticks w)%nat ->
  stamped E start lo (ticks w) (ttft st) -> stamped E start lo (ticks w) (ttfr st) ->
  (ticks w <= ticks w')%nat /\
  stamped E start lo (ticks w') (ttft st') /\ stamped E start lo (ticks w') (ttfr st').
Proof.
  revert st w. induction lines as [| line rest IH]; intros st w H Hlo Ht Hr; simpl in H.
  - injection H as <- _ <-. auto.
  - destruct (classify_line line).
    + apply (IH st w H Hlo Ht Hr).
    + injection H as <- _ <-. auto.
    + unfold bind at 1 in H.
      destruct (try_except _ _ _ w) as [[st1 | e] w1] eqn:Hline; [| discriminate H].
      destruct (data_line_stamps E c start data_str st st1 w w1 Hline) as (Hle & Hft & Hfr).
      destruct (IH st1 w1 H) as (Hle' & Ht' & Hr').
      * lia.
      * apply (stamped_step E start lo w w1 (ttft st)); assumption.
      * apply (stamped_step E start lo w w1 (ttfr st)); assumption.
      * split; [lia | split; assumption].
Qed.

Lemma rounded_if_truthy_le (t : option Q) (total r : Q) :
  (forall x, t = Some x -> (0 <= x <= total)%Q) ->
  rounded_if_truthy t = Some r -> (0 <= r <= round2 total)%Q.
Proof.
  intros Hb Hr. unfold rounded_if_truthy in Hr.
  destruct t as [x |]; [| discriminate Hr].
  destruct (Qeq_bool x 0); [discriminate Hr |]. injection Hr as <-.
  destruct (Hb x eq_refl) as [H0 H1]. split.
  - change 0%Q with (round2 0). apply round2_mono. exact H0.
  - apply round2_mono. exact H1.
Qed.

(** X18: with a clock that never runs backwards, the stamps the streaming call
    takes lie within its total latency: at the end of the loop [ttft] and
    [ttfr] are between 0 and the elapsed time the call computes next, and
    so are the rounded values it hands to [TimingMetrics] as [ttft_ms] and
    [ttfr_ms] beside [total_latency_ms]. *)
Theorem stream_stamps_within_latency (E : Env) (c : LLMClient) (lines : list string)
  (st : stream_state) (b : bool) (w w1 : World)
  (Hclock : monotonic E)
  (Hloop : sse_loop E c (clock E (ticks w)) lines initial_stream_state (after_tick w)
           = (Ret (st, b), w1)) :
  let total_latency_ms := ((clock E (ticks w1) - clock E (ticks w)) * 1000)%Q in
  (forall x, ttft st = Some x \/ ttfr st = Some x -> (0 <= x <= total_latency_ms)%Q) /\
  (forall key r, kwarg key (stream_timing_kwargs st) = Some (Some r) ->
                 (0 <= r <= round2 total_latency_ms)%Q) /\
  (0 <= round2 total_latency_ms)%Q.
Proof.
  cbv zeta.
  destruct (sse_loop_stamped E c (clock E (ticks w)) (ticks w) lines initial_stream_state
              st b (after_tick w) w1 Hloop) as (Hle & Ht & Hr).
  { simpl. lia. }
  { intros x Hx. discriminate Hx. }
  { intros x Hx. discriminate Hx. }
  simpl in Hle.
  assert (Hb : forall t x, stamped E (clock E (ticks w)) (ticks w) (ticks w1) t ->
                           t = Some x ->
                           (0 <= x <= (clock E (ticks w1) - clock E (ticks w)) * 1000)%Q).
  { intros t x Hs Hx. destruct (Hs x Hx) as (k & [Hk1 Hk2] & ->).
    pose proof (Hclock (ticks w) k Hk1). pose proof (Hclock k (ticks w1) Hk2).
    split; lra. }
  split; [| split].
  - intros x [Hx | Hx]; [apply (Hb _ x Ht Hx) | apply (Hb _ x Hr Hx)].
  - intros key r. unfold stream_timing_kwargs. cbn [kwarg].
    destruct (key =? "ttft_ms")%string.
    + intro H. injection H as H.
      apply (rounded_if_truthy_le (ttft st)); [| exact H].
      intros x Hx. apply (Hb _ x Ht Hx).
    + destruct (key =? "ttfr_ms")%string; [| discriminate].
      intro H. injection H as H.
      apply (rounded_if_truthy_le (ttfr st)); [| exact H].
      intros x Hx. apply (Hb _ x Hr Hx).
  - change 0%Q with (round2 0). apply round2_mono.
    pose proof (Hclock (ticks w) (ticks w1)). assert (ticks w <= ticks w1)%nat by lia.
    specialize (H H0). lra.
Qed.

Lemma seconds_monotonic (table : list (string * pyval)) (post : post_outcome)
  (stream : stream_outcome) : monotonic (test_env seconds table post stream).
Proof.
  intros i j Hij. simpl. unfold seconds. rewrite <- Zle_Qle. lia.
Qed.

Lemma stream_stamps_within_latency_witness :
  exists st b w1,
    sse_loop (stream_env seconds scenario_lines) responses_client
      (clock (stream_env seconds scenario_lines) (ticks w0)) scenario_lines
      initial_stream_state (after_tick w0) = (Ret (st, b), w1) /\
    ttft st = Some 1000%Q /\
    (0 <= 1000 <= (clock (stream_env seconds scenario_lines) (ticks w1)
                   - clock (stream_env seconds scenario_lines) (ticks w0)) * 1000)%Q.
Proof.
  eexists _, _, _. split; [vm_compute; reflexivity |]. split; [vm_compute; reflexivity |].
  refine (proj1 (stream_stamps_within_latency (stream_env seconds scenario_lines)
                   responses_client scenario_lines _ _ w0 _
                   (seconds_monotonic _ _ _) _) 1000%Q (or_introl _)).
  - vm_compute. reflexivity.
  - vm_compute. reflexivity.
Defined.

End StreamTiming.

Section BufferedTiming.



End BufferedTiming.

(** ** metrics.py: more on aggregation, throughput and summaries *)

Section ConstantSamples.
Local Open Scope Q_scope.

Lemma Qsum_repeat (x : Q) (n : nat) : Qsum (repeat x n) == inject_Z (Z.of_nat n) * x.
Proof.
  induction n as [| n IH].
  - change (0 == 0 * x). lra.
  - cbn [repeat]. change (x + Qsum (repeat x n) == inject_Z (Z.of_nat (S n)) * x).
    rewrite IH, Nat2Z.inj_succ. unfold Z.succ. rewrite inject_Z_plus.
    change (inject_Z 1) with 1. generalize (inject_Z (Z.of_nat n)). intro k. lra.
Qed.

Lemma mean_repeat (x : Q) (n : nat) : mean (repeat x (S n)) == x.
Proof.
  unfold mean. rewrite Qsum_repeat, repeat_length.
  assert (H : 0 < inject_Z (Z.of_nat (S n))).
  { change 0 with (inject_Z 0). rewrite <- Zlt_Qlt. lia. }
  field. lra.
Qed.

Lemma Qsum_zero (l : list Q) : (forall y, In y l -> y == 0) -> Qsum l == 0.
Proof.
  induction l as [| a l IH]; intro H; [reflexivity |].
  cbn [Qsum fold_right]. fold (Qsum l).
  rewrite (H a (or_introl eq_refl)), IH; [lra |].
  intros y Hy. apply H. right. exact Hy.
Qed.

Lemma variance_repeat (x : Q) (n : nat) : variance (repeat x (S (S n))) == 0.
Proof.
  unfold variance. cbv zeta. rewrite Qsum_zero.
  - unfold Qdiv. lra.
  - intros y Hy. apply in_map_iff in Hy. destruct Hy as (z & <- & Hz).
    apply repeat_spec in Hz. subst z. rewrite mean_repeat. lra.
Qed.

Lemma py_min_repeat (x : Q) (n : nat) : py_min x (repeat x n) = x.
Proof.
  unfold py_min. induction n as [| n IH]; [reflexivity |].
  cbn [repeat fold_left].
  assert (H : Qlt_bool x x = false).
  { unfold Qlt_bool. apply negb_false_iff, Qle_bool_iff. lra. }
  rewrite H. exact IH.
Qed.

Lemma py_max_repeat (x : Q) (n : nat) : py_max x (repeat x n) = x.
Proof.
  unfold py_max. induction n as [| n IH]; [reflexivity |].
  cbn [repeat fold_left].
  assert (H : Qlt_bool x x = false).
  { unfold Qlt_bool. apply negb_false_iff, Qle_bool_iff. lra. }
  rewrite H. exact IH.
Qed.

(** X20: samples that are all the same value: the aggregate has that value,
    rounded, as average, minimum and maximum, and a standard deviation of
    exactly 0, for one sample as for many. *)
Theorem aggregate_values_constant (x : Q) (n : nat) :
  aggregate_values (repeat x (S n))
  = mkAggregatedStats (Z.of_nat (S n)) (round2 x) 0 (round2 x) (round2 x).
Proof.
  cbn [repeat]. rewrite aggregate_values_cons.
  rewrite py_min_repeat, py_max_repeat.
  change (x :: repeat x n) with (repeat x (S n)).
  rewrite (round2_comp _ _ (mean_repeat x n)), repeat_length.
  f_equal. destruct n as [| n]; [reflexivity |].
  assert (Hc : (1 <? Z.of_nat (S (S n)))%Z = true) by (apply Z.ltb_lt; lia).
  rewrite Hc, (round2_sqrt_comp _ _ (variance_repeat x n)). reflexivity.
Qed.

End ConstantSamples.

Section ThroughputErrors.
Local Open Scope Q_scope.


End ThroughputErrors.

Section SummaryStructure.

Lemma filter_perm {A} (f : A -> bool) (l l' : list A) :
  Permutation l l' -> Permutation (filter f l) (filter f l').
Proof.
  induction 1 as [| a l l' _ IH | a b l | l l' l'' _ IH1 _ IH2]; cbn [filter].
  - constructor.
  - destruct (f a); [constructor |]; exact IH.
  - destruct (f a), (f b); try reflexivity. constructor.
  - apply (Permutation_trans IH1 IH2).
Qed.

Lemma res_mapM_perm {A B} (f : A -> Res B) (l l' : list A) :
  Permutation l l' ->
  forall bs, res_mapM f l = Ret bs ->
             exists bs', res_mapM f l' = Ret bs' /\ Permutation bs bs'.
Proof.
  induction 1 as [| a l l' _ IH | a b l | l l' l'' _ IH1 _ IH2]; intros bs H.
  - exists bs. split; [exact H | reflexivity].
  - cbn [res_mapM] in *. destruct (f a) as [x | e]; [| discriminate H].
    cbn [res_bind] in *. destruct (res_mapM f l) as [xs | e]; [| discriminate H].
    destruct (IH xs eq_refl) as (xs' & Hxs & Hp). rewrite Hxs.
    cbn [res_bind] in *. injection H as <-. eexists. split; [reflexivity |].
    constructor. exact Hp.
  - cbn [res_mapM] in *. destruct (f a) as [x | e]; destruct (f b) as [y | e'];
      cbn [res_bind] in *; try discriminate H.
    destruct (res_mapM f l) as [xs | e]; cbn [res_bind] in *; [| discriminate H].
    injection H as <-. eexists. split; [reflexivity |]. constructor.
  - destruct (IH1 bs H) as (bs1 & H1 & Hp1). destruct (IH2 bs1 H1) as (bs2 & H2 & Hp2).
    exists bs2. split; [exact H2 | apply (Permutation_trans Hp1 Hp2)].
Qed.

Lemma stats_of_perm (l l' : list Q) : Permutation l l' -> stats_of l = stats_of l'.
Proof.
  intro Hp. pose proof (aggregate_values_perm l l' Hp) as Ha.
  destruct l, l'; cbn [stats_of].
  - reflexivity.
  - apply Permutation_nil in Hp. discriminate Hp.
  - apply Permutation_sym, Permutation_nil in Hp. discriminate Hp.
  - rewrite Ha. reflexivity.
Qed.

(** X22: the summary of a batch does not depend on the order of its results. *)
Theorem summarize_results_order (results results' : list TestResult) (s : BatchSummary)
  (Hperm : Permutation results results')
  (Hrun : summarize_results results = Ret s) :
  summarize_results results' = Ret s.
Proof.
  unfold summarize_results in *. cbv zeta in *.
  pose proof (filter_perm is_success results results' Hperm) as Hf.
  destruct (res_mapM py_number (output_token_samples (filter is_success results)))
    as [nums | e] eqn:Hn; [| discriminate Hrun].
  destruct (res_mapM_perm py_number _ (output_token_samples (filter is_success results'))
              (Permutation_flat_map _ Hf) nums Hn) as (nums' & Hn' & Hp).
  rewrite Hn'. cbn [res_bind] in *. injection Hrun as <-.
  rewrite (Permutation_length Hperm), (Permutation_length Hf).
  unfold latency_samples, ttft_samples, tps_samples.
  rewrite (stats_of_perm (flat_map _ (filter is_success results)) _
             (Permutation_flat_map _ Hf)).
  rewrite (stats_of_perm (flat_map _ (filter is_success results)) _
             (Permutation_flat_map _ Hf)).
  rewrite (stats_of_perm (flat_map _ (filter is_success results)) _
             (Permutation_flat_map _ Hf)).
  rewrite (stats_of_perm _ _ Hp).
  reflexivity.
Qed.

Lemma summarize_results_order_witness :
  summarize_results (rev scenario_batch) = summarize_results scenario_batch.
Proof.
  rewrite (summarize_results_order scenario_batch (rev scenario_batch) _
             (Permutation_rev scenario_batch) eq_refl).
  vm_compute. reflexivity.
Defined.

Lemma filter_idempotent {A} (f : A -> bool) (l : list A) :
  filter f (filter f l) = filter f l.
Proof.
  induction l as [| a l IH]; [reflexivity |].
  cbn [filter]. destruct (f a) eqn:Ha; [| exact IH].
  cbn [filter]. rewrite Ha, IH. reflexivity.
Qed.

Lemma flat_map_option_length {A B} (f : A -> list B) (l : list A) :
  (forall a, (List.length (f a) <= 1)%nat) ->
  (List.length (flat_map f l) <= List.length l)%nat.
Proof.
  intro H. induction l as [| a l IH]; [simpl; lia |].
  cbn [flat_map]. rewrite length_app. specialize (H a). simpl. lia.
Qed.

Lemma stats_of_count (samples : list Q) (a : AggregatedStats) :
  stats_of samples = Some a -> count a = Z.of_nat (List.length samples) /\ 1 <= count a.
Proof.
  destruct samples as [| x xs]; [discriminate |].
  cbn [stats_of]. rewrite aggregate_values_cons. intro H. injection H as <-.
  cbn [count]. split; [reflexivity |]. simpl List.length. lia.
Qed.

Lemma ttft_samples_length (rs : list TestResult) :
  (List.length (ttft_samples rs) <= List.length (latency_samples rs))%nat.
Proof.
  unfold ttft_samples, latency_samples. induction rs as [| r rs IH]; [simpl; lia |].
  cbn [flat_map]. rewrite !length_app.
  destruct (timing r) as [t |]; [destruct (ttft_ms t) |]; simpl; lia.
Qed.

(** X23: failed results count and nothing else: the summary of a batch has the
    statistics of the summary of its successful results alone; its counts
    add up; and each statistic counts at least one and at most as many
    samples as there are successful results. *)
Theorem summarize_results_structure (results : list TestResult) (s : BatchSummary)
  (Hrun : summarize_results results = Ret s) :
  summarize_results (filter is_success results)
  = Ret (mkBatchSummary (successful s) (successful s) 0 (latency_stats s) (ttft_stats s)
           (output_tokens_stats s) (tps_stats s)) /\
  0 <= successful s <= total_requests s /\
  successful s + failed s = total_requests s /\
  (forall a, latency_stats s = Some a \/ ttft_stats s = Some a \/
             output_tokens_stats s = Some a \/ tps_stats s = Some a ->
             1 <= count a <= successful s) /\
  (forall a b, ttft_stats s = Some a -> latency_stats s = Some b -> count a <= count b).
Proof.
  unfold summarize_results in *. cbv zeta in *. rewrite filter_idempotent.
  destruct (res_mapM py_number (output_token_samples (filter is_success results)))
    as [nums | e] eqn:Hn; [| discriminate Hrun].
  cbn [res_bind] in *. injection Hrun as <-.
  cbn [total_requests successful failed latency_stats ttft_stats output_tokens_stats
         tps_stats].
  pose proof (filter_length_le is_success results) as Hle.
  pose proof (res_mapM_length _ _ _ Hn) as Hlen.
  set (ok := filter is_success results) in *.
  assert (H1 : (List.length (latency_samples ok) <= List.length ok)%nat).
  { apply flat_map_option_length. intro r. destruct (timing r); simpl; lia. }
  assert (H2 : (List.length (ttft_samples ok) <= List.length (latency_samples ok))%nat).
  { apply ttft_samples_length. }
  assert (H3 : (List.length (output_token_samples ok) <= List.length ok)%nat).
  { apply flat_map_option_length. intro r. destruct (tokens r); simpl; lia. }
  assert (H4 : (List.length (tps_samples ok) <= List.length ok)%nat).
  { apply flat_map_option_length. intro r. destruct (tps r); simpl; lia. }
  split; [f_equal; f_equal; lia |].
  split; [lia |]. split; [lia |]. split.
  - intros a [H | [H | [H | H]]]; apply stats_of_count in H; destruct H as [Hc Hp]; lia.
  - intros a b Ha Hb. apply stats_of_count in Ha, Hb. lia.
Qed.

Lemma summarize_results_structure_witness :
  summarize_results (filter is_success scenario_batch)
  = Ret (mkBatchSummary 2 2 0
           (Some (mkAggregatedStats 2 150 70.71 100 200))
           None
           (Some (mkAggregatedStats 2 20 (Qred 14.14) 10 30))
           (Some (mkAggregatedStats 2 125 (Qred 35.36) 100 150))).
Proof.
  rewrite (proj1 (summarize_results_structure scenario_batch _ eq_refl)).
  vm_compute. reflexivity.
Defined.


End SummaryStructure.

(** ** main.py: the configuration file *)

Section ConfigFiles.

Lemma load_config_loop_skips (fs : string -> option yaml_outcome) (before after : list string) :
  Forall (fun q => q = "" \/ fs q = None) before ->
  load_config_loop fs (before ++ after) = load_config_loop fs after.
Proof.
  induction 1 as [| q before Hq _ IH]; [reflexivity |].
  cbn [app load_config_loop]. destruct Hq as [-> | Hq]; [exact IH |].
  rewrite Hq. destruct (negb (q =? "")%string); exact IH.
Qed.

Lemma load_config_loop_value (fs : string -> option yaml_outcome) (paths : list string)
  (v : pyval) :
  load_config_loop fs paths = Some (Ret v) ->
  exists d path, v = PDict d /\ In path paths /\ fs path <> None /\
                 dict_lookup "_config_file" d = Some (PStr path).
Proof.
  induction paths as [| q paths IH]; [discriminate |].
  cbn [load_config_loop]. destruct (negb (q =? "")%string).
  - destruct (fs q) as [[y | msg] |] eqn:Hq.
    + intro H. injection H as H. unfold py_setitem in H.
      destruct (py_or y (PDict [])) as [| | | | | | d]; try discriminate H.
      injection H as <-. exists (dict_set "_config_file" (PStr q) d), q.
      split; [reflexivity |]. split; [left; reflexivity |].
      split; [congruence | apply dict_lookup_set_same].
    + discriminate.
    + intro H. destruct (IH H) as (d & path & Hv & Hin & Hfs & Hl).
      exists d, path. repeat split; try assumption. right. exact Hin.
  - intro H. destruct (IH H) as (d & path & Hv & Hin & Hfs & Hl).
    exists d, path. repeat split; try assumption. right. exact Hin.
Qed.

(** X25: [load_config]: a path that was given is the only one tried, and its
    absence is an error; without one the first default path that exists
    decides, also when it cannot be parsed or does not hold a mapping, and
    the empty dict is returned when none exists. A configuration that is
    returned from a file is a dict that names the file under
    [_config_file]. *)
Theorem load_config_cases (fs : string -> option yaml_outcome) (defaults : list string) :
  (forall p, p <> "" ->
             load_config fs defaults (Some p) = load_config fs [] (Some p) /\
             (fs p = None -> exists msg,
                 load_config fs defaults (Some p) = Raise (OtherException msg)) /\
             (forall d, fs p = Some (YamlValue (PDict d)) ->
                        load_config fs defaults (Some p)
                        = Ret (PDict (dict_set "_config_file" (PStr p) d)))) /\
  load_config fs defaults (Some "") = load_config fs defaults None /\
  (forall before p after,
      defaults = (before ++ p :: after)%list ->
      Forall (fun q => q = "" \/ fs q = None) before -> p <> "" -> fs p <> None ->
      load_config fs defaults None = load_config fs [p] None /\
      (forall msg, fs p = Some (YamlError msg) ->
                   exists msg', load_config fs defaults None = Raise (OtherException msg')) /\
      (forall v, fs p = Some (YamlValue v) ->
                 load_config fs defaults None
                 = py_setitem (py_or v (PDict [])) "_config_file" (PStr p))) /\
  (Forall (fun q => q = "" \/ fs q = None) defaults ->
   load_config fs defaults None = Ret (PDict [])) /\
  (forall config_path v,
      load_config fs defaults config_path = Ret v ->
      v = PDict [] \/
      exists d path, v = PDict d /\ fs path <> None /\
                     dict_lookup "_config_file" d = Some (PStr path)).
Proof.
  split; [| split; [| split; [| split]]].
  - intros p Hp. unfold load_config.
    destruct (String.eqb_spec p "") as [-> | _]; [contradiction Hp; reflexivity |].
    cbn [negb]. split; [reflexivity |]. split.
    + intro Hfs. cbn [load_config_loop].
      destruct (String.eqb_spec p ""); [contradiction |]. cbn [negb]. rewrite Hfs.
      eexists. reflexivity.
    + intros d Hfs. cbn [load_config_loop].
      destruct (String.eqb_spec p ""); [contradiction |]. cbn [negb]. rewrite Hfs.
      unfold py_or. destruct d; reflexivity.
  - reflexivity.
  - intros before p after -> Hb Hp Hfs. unfold load_config.
    rewrite (load_config_loop_skips fs before (p :: after) Hb).
    cbn [load_config_loop]. destruct (String.eqb_spec p ""); [contradiction |].
    cbn [negb]. destruct (fs p) as [[v | msg] |] eqn:Hq; [| | contradiction Hfs; reflexivity].
    + split; [reflexivity |]. split; [discriminate |].
      intros v' Hv. injection Hv as <-. reflexivity.
    + split; [reflexivity |]. split; [| discriminate].
      intros msg' _. eexists. reflexivity.
  - intro Hd. unfold load_config.
    rewrite <- (app_nil_r defaults), (load_config_loop_skips fs defaults [] Hd).
    reflexivity.
  - intros config_path v. unfold load_config.
    match goal with
    | |- context [load_config_loop fs ?ps] =>
        destruct (load_config_loop fs ps) as [r |] eqn:Hl
    end.
    + intros ->. right. destruct (load_config_loop_value fs _ v Hl) as (d & path & H1 & _ & H2 & H3).
      exists d, path. auto.
    + destruct config_path as [p |]; [destruct (negb (p =? "")%string) |];
        intro H; try discriminate H; injection H as <-; left; reflexivity.
Qed.

End ConfigFiles.

(** ** main.py: the settings of a run *)

Section MainSettings.

Lemma cli_values_NoDup (a : CliValues) : NoDup (map fst (cli_values a)).
Proof.
  cbn. repeat constructor; cbn; intuition discriminate.
Qed.

(** X26: the defaults [main] passes to [cfg.get] never apply to a command-line
    option: the merged configuration holds every option of the command
    line, with [None] for one that neither the command line nor the file
    sets. Without [--runs] and without [runs] in the file, [runs] is
    [None], and [len(prompts) * runs] raises [TypeError]. *)
Theorem main_defaults_never_apply (file_config : list (string * pyval)) (a : CliValues) :
  (forall key d, In key (map fst (cli_values a)) ->
                 exists v, dict_lookup key (main_cfg file_config a) = Some v /\
                           cfg_get (main_cfg file_config a) key d = v) /\
  (forall key, dict_lookup key (cli_values a) = Some PNone ->
               dict_lookup key file_config = None ->
               forall d, cfg_get (main_cfg file_config a) key d = PNone) /\
  (cli_runs a = PNone -> dict_lookup "runs" file_config = None ->
   main_runs file_config a = PNone /\
   forall prompts, exists msg,
       total_tests prompts (main_runs file_config a) = Raise (TypeError msg)) /\
  (cli_timeout a = PNone -> dict_lookup "timeout" file_config = None ->
   main_timeout file_config a = PNone) /\
  (forall n, dict_lookup "runs" file_config = Some (PInt n) ->
             cli_runs a = PNone \/ cli_runs a = PInt 0 ->
             main_runs file_config a = PInt n).
Proof.
  assert (Hget : forall key d,
             cfg_get (main_cfg file_config a) key d
             = match dict_lookup key (main_cfg file_config a) with
               | Some v => v | None => d end) by reflexivity.
  assert (Hl := fun k => merge_lookup file_config (cli_values a) k (cli_values_NoDup a)).
  fold (main_cfg file_config a) in Hl.
  assert (Hnone : forall key, dict_lookup key (cli_values a) = Some PNone ->
                              dict_lookup key file_config = None ->
                              forall d, cfg_get (main_cfg file_config a) key d = PNone).
  { intros key Hk Hf d. rewrite Hget, Hl, Hk, Hf. reflexivity. }
  split; [| split; [exact Hnone | split; [| split]]].
  - intros key d Hin. rewrite Hget, Hl.
    destruct (dict_lookup key (cli_values a)) as [value |] eqn:Hk.
    + destruct (cli_value_given value); [eexists; split; reflexivity |].
      destruct (dict_lookup key file_config); eexists; split; reflexivity.
    + exfalso. apply in_map_iff in Hin. destruct Hin as ([k v] & <- & Hin).
      revert Hk. clear -Hin. induction (cli_values a) as [| [k' v'] l IH]; [contradiction |].
      cbn [dict_lookup fst]. destruct Hin as [Hin | Hin].
      * injection Hin as -> ->. cbn [fst]. rewrite String.eqb_refl. discriminate.
      * cbn [fst] in *. destruct (k =? k')%string; [discriminate | apply (IH Hin)].
  - intros Hr Hf. assert (Hm : main_runs file_config a = PNone).
    { unfold main_runs. apply Hnone; [cbn; rewrite Hr; reflexivity | exact Hf]. }
    split; [exact Hm |]. intro prompts. rewrite Hm. eexists. reflexivity.
  - intros Ht Hf. unfold main_timeout. apply Hnone; [cbn; rewrite Ht; reflexivity | exact Hf].
  - intros n Hf Hr. unfold main_runs. rewrite Hget, Hl.
    assert (Hk : dict_lookup "runs" (cli_values a) = Some (cli_runs a)) by reflexivity.
    rewrite Hk, Hf. destruct Hr as [-> | ->]; reflexivity.
Qed.

Example main_without_runs :
  main_runs [] minimal_cli = PNone /\
  total_tests ["hi"] (main_runs [] minimal_cli)
  = Raise (TypeError "unsupported operand type(s) for *: 'int' and 'NoneType'") /\
  main_runs [("runs", PInt 3)] minimal_cli = PInt 3.
Proof. repeat split. Qed.

End MainSettings.

Section EmptyBatch.

(** X27: a batch with a run count of zero or less makes no call and has no
    result; its summary counts zero requests, and the success rate that
    [display_summary] computes from it divides by zero. The rate raises for
    no other summary. *)
Theorem empty_batch_success_rate (E : Env) (c : LLMClient) (prompts : list string)
  (runs : Z) (streaming : bool) (w : World) (Hruns : runs <= 0) :
  run_batch_tests E c prompts runs streaming w = (Ret [], w) /\
  summarize_results [] = Ret (mkBatchSummary 0 0 0 None None None None) /\
  success_rate (mkBatchSummary 0 0 0 None None None None) = Raise ZeroDivisionError /\
  (forall results s,
      summarize_results results = Ret s ->
      ((exists e, success_rate s = Raise e) <-> results = []) /\
      (results <> [] ->
       exists x, success_rate s = Ret x /\ (0 <= x <= 100)%Q)).
Proof.
  split; [| split; [reflexivity | split; [reflexivity |]]].
  - unfold run_batch_tests. assert (Hz : Z.to_nat runs = 0%nat) by lia.
    generalize (@nil TestResult) as acc.
    induction prompts as [| p prompts IH]; intro acc; [reflexivity |].
    cbn [run_batch_loop]. rewrite Hz. cbn [run_prompt_runs]. unfold bind, ret. apply IH.
  - intros results s Hs. unfold summarize_results in Hs. cbv zeta in Hs.
    destruct (res_mapM py_number _) as [nums | e]; [| discriminate Hs].
    cbn [res_bind] in Hs. injection Hs as <-. unfold success_rate.
    cbn [total_requests successful].
    pose proof (filter_length_le is_success results) as Hle.
    destruct results as [| r results].
    + split; [split; [reflexivity | intros _; eexists; reflexivity] |].
      intro H. contradiction H. reflexivity.
    + assert (Hnz : (Z.of_nat (List.length (r :: results)) =? 0) = false).
      { apply Z.eqb_neq. simpl List.length. lia. }
      rewrite Hnz. split.
      * split; [intros [e He]; discriminate He | discriminate].
      * intros _. eexists. split; [reflexivity |].
        set (t := Z.of_nat (List.length (r :: results))) in *.
        set (k := Z.of_nat (List.length (filter is_success (r :: results)))) in *.
        assert (Ht : (0 < inject_Z t)%Q).
        { change 0%Q with (inject_Z 0). rewrite <- Zlt_Qlt. apply Z.eqb_neq in Hnz.
          unfold t in *. lia. }
        assert (Hk0 : (0 <= inject_Z k)%Q).
        { change 0%Q with (inject_Z 0). rewrite <- Zle_Qle. unfold k. lia. }
        assert (Hkt : (inject_Z k <= inject_Z t)%Q).
        { rewrite <- Zle_Qle. unfold k, t. lia. }
        revert Ht Hk0 Hkt. generalize (inject_Z k) (inject_Z t). intros x y Hy Hx Hxy.
        assert (H1 : (0 <= x / y)%Q).
        { unfold Qdiv. apply Qmult_le_0_compat; [exact Hx |].
          apply Qinv_le_0_compat. lra. }
        assert (H2 : (x / y <= 1)%Q).
        { apply Qle_shift_div_r; [exact Hy | lra]. }
        split; lra.
Qed.

Lemma empty_batch_success_rate_witness :
  run_batch_tests (status_env 200) chat_client ["hi"] 0 false w0 = (Ret [], w0).
Proof.
  apply (empty_batch_success_rate (status_env 200) chat_client ["hi"] 0 false w0).
  lia.
Defined.

End EmptyBatch.

(** ** client.py: construction *)

Section Construction.

Lemma lstrip_slashes (s : string) :
  exists n, s = string_times n "/" ++ lstrip_while is_slash s.
Proof.
  induction s as [| a s [n Hn]].
  - exists 0%nat. reflexivity.
  - cbn [lstrip_while]. destruct (is_slash a) eqn:Ha.
    + apply Ascii.eqb_eq in Ha. subst a. exists (S n). cbn [string_times].
      cbn [append]. rewrite <- Hn. reflexivity.
    + exists 0%nat. reflexivity.
Qed.

Lemma string_times_snoc (n : nat) (s : string) :
  string_times n s ++ s = s ++ string_times n s.
Proof.
  induction n as [| n IH]; cbn [string_times].
  - rewrite string_app_nil_r. reflexivity.
  - rewrite string_app_assoc, IH. reflexivity.
Qed.

Lemma rev_string_slashes (n : nat) : rev_string (string_times n "/") = string_times n "/".
Proof.
  induction n as [| n IH]; [reflexivity |].
  cbn [string_times]. rewrite rev_string_app, IH. apply string_times_snoc.
Qed.

(** X28: construction of a client removes the slashes at the end of the endpoint
    and nothing else: the stored endpoint followed by some slashes is the
    endpoint that was given, it does not end in a slash, and constructing
    from it again stores the same text. The format is decided on the
    endpoint as given, and the key goes into both the [Authorization] and
    the [api-key] header. *)
Theorem LLMClient_init_endpoint (e k m : string) (t : Q) (effort : option string)
  (limit : option Z) (nc : bool) :
  let c := LLMClient_init e k m t effort limit nc in
  (exists n, e = endpoint c ++ string_times n "/") /\
  (forall s, endpoint c <> s ++ "/") /\
  endpoint (LLMClient_init (endpoint c) k m t effort limit nc) = endpoint c /\
  is_responses_api c = contains "/responses" e /\
  headers c = [("Content-Type", "application/json"); ("Authorization", "Bearer " ++ k);
               ("api-key", k)].
Proof.
  cbv zeta. cbn [LLMClient_init endpoint is_responses_api headers].
  split; [| split; [| split; [| split; reflexivity]]].
  - unfold rstrip_while. destruct (lstrip_slashes (rev_string e)) as [n Hn].
    exists n. rewrite <- (rev_string_involutive e) at 1. rewrite Hn at 1.
    rewrite rev_string_app, rev_string_slashes. reflexivity.
  - intros s Hs. unfold rstrip_while in Hs.
    apply (f_equal rev_string) in Hs.
    rewrite rev_string_involutive, rev_string_app in Hs. cbn in Hs.
    pose proof (head_ok_lstrip is_slash (rev_string e)) as Hh.
    rewrite Hs in Hh. discriminate Hh.
  - apply rstrip_idempotent.
Qed.

End Construction.
